(** * pyblheli: the BLHeli 4-way frame codec, the Silabs EEPROM layout and
      the configuration workflows, embedded in Rocq.

    The Python sources are [blheli_protocol.py], [blheli_4way.py],
    [blheli_silabs.py] and the command-line script [blheli.py].  They are
    written on top of the [construct]
    declarative binary parser (version 2.10: [Const(value, subcon)],
    [PaddedString], [Padding(n, pattern=...)]), so the first part of this file
    is a combinator library with the behaviour of the [construct] classes the
    program uses; the program's own declarations are then transcribed on top
    of it, one for one. *)

From Stdlib Require Import ZArith List Bool String Ascii Lia.
From Stdlib Require Import Strings.Byte Numbers.DecimalString.
Import ListNotations.

Local Open Scope string_scope.
Local Open Scope list_scope.
Local Open Scope Z_scope.

(* ================================================================== *)
(** * Python values, exceptions and results *)
(* ================================================================== *)

(** A [bytes] object is a list of bytes; iterating over it gives ints. *)
Definition bytes := list byte.

Definition Z_of_byte (b : byte) : Z := Z.of_N (Byte.to_N b).

Definition byte_of_Z (z : Z) : option byte :=
  if (0 <=? z) && (z <=? 255) then Byte.of_N (Z.to_N z) else None.

(** The exceptions the program can meet.  The [construct] errors keep their
    class; the two BLHeli errors remember what they wrap. *)
Inductive exn : Type :=
  | StreamError            (* construct: not enough bytes in the stream *)
  | FormatFieldError       (* construct: struct.pack refused the value *)
  | ConstError             (* construct: Const met another value *)
  | MappingError           (* construct: Enum has no such label *)
  | PaddingError           (* construct: FixedSized got too many bytes *)
  | RangeError             (* construct: Array count mismatch *)
  | StringError            (* construct: not a str, or the codec refused it *)
  | KeyError (key : string)
  | TypeError
  | ValueError
  | AttributeError (name : string)
  | UnicodeDecodeError
  | UnicodeEncodeError
  | AssertionError
  | UnboundLocalError
  | PyException (message : string)           (* raise Exception(...) *)
  | SerialException
  | BLHeliEncodingError (cause : exn)
  | BLHeliDecodingError (why : decoding_failure)
with decoding_failure : Type :=
  | NullLengthFrame
  | ParseFailed (cause : exn)
  | InvalidStartByte
  | InvalidCrc
  | PayloadParseFailed (cause : exn).

Inductive result (A : Type) : Type :=
  | Ok (a : A)
  | Raise (e : exn).
Arguments Ok {A} a.
Arguments Raise {A} e.

Definition rbind {A B} (r : result A) (k : A -> result B) : result B :=
  match r with Ok a => k a | Raise e => Raise e end.

Declare Scope result_scope.
Delimit Scope result_scope with result.
Notation "x <- r ;; k" := (rbind r (fun x => k))
  (at level 61, r at next level, right associativity) : result_scope.
Notation "' p <- r ;; k" := (rbind r (fun x => let p := x in k))
  (at level 61, p pattern, r at next level, right associativity) : result_scope.

(** The Python objects that reach the codec.  A [str] is represented by its
    UTF-8 encoding (a Rocq [string] is a sequence of bytes); a Rocq string
    that is not well-formed UTF-8 stands for a [str] holding lone surrogates,
    which Python refuses to encode.  [VEnumInteger] and [VEnumIntegerString]
    are construct's [EnumInteger] (a subclass of [int]) and
    [EnumIntegerString] (a subclass of [str] carrying [intvalue]).  A dict
    (and construct's [Container]) keeps its insertion order. *)
#[warnings="-register-all"]
Inductive value : Type :=
  | VNone
  | VBool (b : bool)
  | VInt (z : Z)
  | VStr (s : string)
  | VBytes (data : bytes)
  | VEnumInteger (z : Z)
  | VEnumIntegerString (label : string) (intvalue : Z)
  | VList (items : list value)
  | VContainer (items : list (string * value)).

Definition dict := list (string * value).

Fixpoint dict_get (d : dict) (k : string) : option value :=
  match d with
  | [] => None
  | (k', v) :: rest => if String.eqb k' k then Some v else dict_get rest k
  end.

(** [d[k] = v]: an existing key keeps its place, a new key goes last. *)
Fixpoint dict_set (d : dict) (k : string) (v : value) : dict :=
  match d with
  | [] => [(k, v)]
  | (k', v') :: rest =>
      if String.eqb k' k then (k', v) :: rest else (k', v') :: dict_set rest k v
  end.

Definition dict_has (d : dict) (k : string) : bool :=
  match dict_get d k with Some _ => true | None => false end.

(** [isinstance(obj, int)]: ints, bools and EnumInteger. *)
Definition as_int (v : value) : option Z :=
  match v with
  | VInt z => Some z
  | VBool b => Some (Z.b2z b)
  | VEnumInteger z => Some z
  | _ => None
  end.

(** [isinstance(obj, str)]: strs and EnumIntegerString. *)
Definition as_str (v : value) : option string :=
  match v with
  | VStr s => Some s
  | VEnumIntegerString label _ => Some label
  | _ => None
  end.

(** Python's [==]. *)
Fixpoint py_eq (a b : value) {struct a} : bool :=
  match a with
  | VNone => match b with VNone => true | _ => false end
  | VBool _ | VInt _ | VEnumInteger _ =>
      match as_int a, as_int b with
      | Some x, Some y => x =? y
      | _, _ => false
      end
  | VStr _ | VEnumIntegerString _ _ =>
      match as_str a, as_str b with
      | Some x, Some y => String.eqb x y
      | _, _ => false
      end
  | VBytes x => match b with VBytes y => if list_eq_dec Byte.byte_eq_dec x y then true else false | _ => false end
  | VList xs =>
      match b with
      | VList ys =>
          (fix all2 (xs ys : list value) {struct xs} : bool :=
             match xs, ys with
             | [], [] => true
             | x :: xs', y :: ys' => py_eq x y && all2 xs' ys'
             | _, _ => false
             end) xs ys
      | _ => false
      end
  | VContainer xs =>
      match b with
      | VContainer ys =>
          (List.length xs =? List.length ys)%nat &&
          (fix sub (xs : list (string * value)) {struct xs} : bool :=
             match xs with
             | [] => true
             | (k, x) :: xs' =>
                 match dict_get ys k with
                 | Some y => py_eq x y && sub xs'
                 | None => false
                 end
             end) xs
      | _ => false
      end
  end.

(** Truth value of an object ([if obj]). *)
Definition truthy (v : value) : bool :=
  match v with
  | VNone => false
  | VBool b => b
  | VInt z | VEnumInteger z => negb (z =? 0)
  | VStr s | VEnumIntegerString s _ => negb (String.eqb s "")
  | VBytes l => match l with [] => false | _ => true end
  | VList l => match l with [] => false | _ => true end
  | VContainer l => match l with [] => false | _ => true end
  end.

(** [bytes.hex()] and [bytes.fromhex()]. *)
Definition hex_digit (n : Z) : ascii :=
  ascii_of_N (Z.to_N (if n <? 10 then 48 + n else 87 + n)).

Fixpoint hex (data : bytes) : string :=
  match data with
  | [] => ""
  | b :: rest =>
      String (hex_digit (Z_of_byte b / 16))
        (String (hex_digit (Z_of_byte b mod 16)) (hex rest))
  end.

Definition hex_value (c : ascii) : option Z :=
  let n := Z.of_N (N_of_ascii c) in
  if (48 <=? n) && (n <=? 57) then Some (n - 48)
  else if (97 <=? n) && (n <=? 102) then Some (n - 87)
  else if (65 <=? n) && (n <=? 70) then Some (n - 55)
  else None.

Fixpoint fromhex (s : string) : option bytes :=
  match s with
  | EmptyString => Some []
  | String hi (String lo rest) =>
      match hex_value hi, hex_value lo, fromhex rest with
      | Some h, Some l, Some data =>
          option_map (fun b => b :: data) (byte_of_Z (16 * h + l))
      | _, _, _ => None
      end
  | String _ EmptyString => None
  end.

(** [data[:-2]] *)
Definition drop_last2 (data : bytes) : bytes :=
  firstn (List.length data - 2) data.

(* ================================================================== *)
(** * crcmod *)
(* ================================================================== *)

(** [crcmod.mkCrcFun(poly, rev=False, initCrc, xorOut=0)] for a 16-bit
    polynomial: the register is shifted left one bit at a time, the message
    enters at the top, and the polynomial (without its leading bit) is
    subtracted whenever a one falls out. *)
Module crcmod.

Definition shift16 (poly : Z) (crc : Z) : Z :=
  if Z.testbit crc 15
  then Z.land (Z.lxor (Z.shiftl crc 1) poly) 65535
  else Z.land (Z.shiftl crc 1) 65535.

Definition update16 (poly : Z) (crc : Z) (b : byte) : Z :=
  let top := Z.lxor crc (Z.shiftl (Z_of_byte b) 8) in
  shift16 poly (shift16 poly (shift16 poly (shift16 poly
    (shift16 poly (shift16 poly (shift16 poly (shift16 poly top))))))).

Definition mkCrcFun16 (poly : Z) (initCrc : Z) (data : bytes) : Z :=
  fold_left (update16 (Z.land poly 65535)) data initCrc.

End crcmod.

(* ================================================================== *)
(** * UTF-8, as Python's strict codec reads it *)
(* ================================================================== *)

Definition continuation (b : byte) : bool :=
  (128 <=? Z_of_byte b) && (Z_of_byte b <=? 191).

Definition between (lo hi : Z) (b : byte) : bool :=
  (lo <=? Z_of_byte b) && (Z_of_byte b <=? hi).

(** Well-formed UTF-8 (no overlong form, no surrogate, nothing above
    U+10FFFF, no truncated sequence): what [bytes.decode('utf8')] accepts. *)
Fixpoint utf8_valid (data : bytes) : bool :=
  match data with
  | [] => true
  | b0 :: rest =>
      if between 0 127 b0 then utf8_valid rest
      else
        match rest with
        | b1 :: rest1 =>
            if between 194 223 b0 then continuation b1 && utf8_valid rest1
            else
              match rest1 with
              | b2 :: rest2 =>
                  if between 224 239 b0 then
                    (if between 224 224 b0 then between 160 191 b1
                     else if between 237 237 b0 then between 128 159 b1
                     else continuation b1)
                    && continuation b2 && utf8_valid rest2
                  else
                    match rest2 with
                    | b3 :: rest3 =>
                        between 240 244 b0
                        && (if between 240 240 b0 then between 144 191 b1
                            else if between 244 244 b0 then between 128 143 b1
                            else continuation b1)
                        && continuation b2 && continuation b3
                        && utf8_valid rest3
                    | [] => false
                    end
              | [] => false
              end
        | [] => false
        end
  end.

(** The characters of a [str]: a character starts at every byte that is not
    a continuation byte. *)
Fixpoint utf8_chars (data : bytes) (current : bytes) : list bytes :=
  match data with
  | [] => match current with [] => [] | _ => [current] end
  | b :: rest =>
      if continuation b then utf8_chars rest (current ++ [b])
      else
        match current with
        | [] => utf8_chars rest [b]
        | _ => current :: utf8_chars rest [b]
        end
  end.

Definition str_chars (s : string) : list string :=
  map string_of_list_byte (utf8_chars (list_byte_of_string s) []).

(** [len(obj)] and [iter(obj)] for the objects that have them. *)
Definition py_iter (v : value) : option (list value) :=
  match v with
  | VList items => Some items
  | VBytes data => Some (map (fun b => VInt (Z_of_byte b)) data)
  | VStr s | VEnumIntegerString s _ => Some (map VStr (str_chars s))
  | VContainer items => Some (map (fun kv => VStr (fst kv)) items)
  | VNone | VBool _ | VInt _ | VEnumInteger _ => None
  end.

(** [data.rstrip(b'\x00')] *)
Fixpoint rstrip_nul (data : bytes) : bytes :=
  match data with
  | [] => []
  | b :: rest =>
      match rstrip_nul rest with
      | [] => if Byte.eqb b x00 then [] else [b]
      | rest' => b :: rest'
      end
  end.

(* ================================================================== *)
(** * construct *)
(* ================================================================== *)

Module construct.

Local Open Scope result_scope.

(** A construct reads a value off the front of a byte stream and writes a
    value as bytes.  [flagbuildnone] tells [Struct] that the field may be
    absent from the dict that is built. *)
Record Construct : Type := mkConstruct {
  _parse : bytes -> result (value * bytes);
  _build : value -> result bytes;
  _sizeof : option nat;            (* [None]: SizeofError *)
  flagbuildnone : bool
}.

(** [Construct.parse(data)]: what is left of the data is not looked at. *)
Definition parse (c : Construct) (data : bytes) : result value :=
  '(obj, _) <- _parse c data ;; Ok obj.

(** [Construct.build(obj)] *)
Definition build (c : Construct) (obj : value) : result bytes :=
  _build c obj.

(** [stream_read(stream, length)] *)
Definition stream_read (stream : bytes) (length : nat) : result (bytes * bytes) :=
  if (List.length stream <? length)%nat then Raise StreamError
  else Ok (firstn length stream, skipn length stream).

(** [FormatField(">", "B")], [FormatField("<", "B")]: one unsigned byte. *)
Definition FormatField_B : Construct := {|
  _parse := fun stream =>
    '(data, rest) <- stream_read stream 1 ;;
    match data with
    | [b] => Ok (VInt (Z_of_byte b), rest)
    | _ => Raise FormatFieldError
    end;
  _build := fun obj =>
    match as_int obj with
    | Some z =>
        match byte_of_Z z with
        | Some b => Ok [b]
        | None => Raise FormatFieldError
        end
    | None => Raise FormatFieldError
    end;
  _sizeof := Some 1%nat;
  flagbuildnone := false
|}.

Definition Byte : Construct := FormatField_B.
Definition Int8ul : Construct := FormatField_B.

(** [FormatField(">", "H")]: two bytes, most significant first. *)
Definition Int16ub : Construct := {|
  _parse := fun stream =>
    '(data, rest) <- stream_read stream 2 ;;
    match data with
    | [hi; lo] => Ok (VInt (256 * Z_of_byte hi + Z_of_byte lo), rest)
    | _ => Raise FormatFieldError
    end;
  _build := fun obj =>
    match as_int obj with
    | Some z =>
        match byte_of_Z (z / 256), byte_of_Z (z mod 256) with
        | Some hi, Some lo => Ok [hi; lo]
        | _, _ => Raise FormatFieldError
        end
    | None => Raise FormatFieldError
    end;
  _sizeof := Some 2%nat;
  flagbuildnone := false
|}.

(** [Flag]: any non-zero byte reads as [True]; [True] is written as 1. *)
Definition Flag : Construct := {|
  _parse := fun stream =>
    '(data, rest) <- stream_read stream 1 ;;
    match data with
    | [b] => Ok (VBool (negb (Byte.eqb b x00)), rest)
    | _ => Raise StreamError
    end;
  _build := fun obj => Ok [if truthy obj then x01 else x00];
  _sizeof := Some 1%nat;
  flagbuildnone := false
|}.

(** [Enum(subcon, **mapping)].  [decmapping] is keyed by value (a later
    entry replaces an earlier one with the same value), [encmapping] by
    label.  A value without a label parses to the bare integer; an integer
    builds as it is. *)
Definition decmapping (mapping : list (string * Z)) (z : Z) : option string :=
  option_map fst (find (fun kv => snd kv =? z) (rev mapping)).

Definition encmapping (mapping : list (string * Z)) (label : string) : option Z :=
  option_map snd (find (fun kv => String.eqb (fst kv) label) (rev mapping)).

(** [Enum._decode]: [decmapping[obj]], or [EnumInteger(obj)] on KeyError. *)
Definition Enum_decode (mapping : list (string * Z)) (z : Z) : value :=
  match decmapping mapping z with
  | Some label => VEnumIntegerString label z
  | None => VEnumInteger z
  end.

Definition Enum (subcon : Construct) (mapping : list (string * Z)) : Construct := {|
  _parse := fun stream =>
    '(obj, rest) <- _parse subcon stream ;;
    match as_int obj with
    | Some z => Ok (Enum_decode mapping z, rest)
    | None => Raise TypeError
    end;
  _build := fun obj =>
    match as_int obj with
    | Some _ => _build subcon obj
    | None =>
        match obj with
        | VList _ | VContainer _ => Raise TypeError        (* unhashable *)
        | _ =>
            match as_str obj with
            | Some label =>
                match encmapping mapping label with
                | Some z => _build subcon (VInt z)
                | None => Raise MappingError
                end
            | None => Raise MappingError
            end
        end
    end;
  _sizeof := _sizeof subcon;
  flagbuildnone := flagbuildnone subcon
|}.

(** [Const(value, subcon)] *)
Definition Const (value : Z) (subcon : Construct) : Construct := {|
  _parse := fun stream =>
    '(obj, rest) <- _parse subcon stream ;;
    if py_eq obj (VInt value) then Ok (obj, rest) else Raise ConstError;
  _build := fun obj =>
    match obj with
    | VNone => _build subcon (VInt value)
    | _ => if py_eq obj (VInt value) then _build subcon (VInt value)
           else Raise ConstError
    end;
  _sizeof := _sizeof subcon;
  flagbuildnone := true
|}.

(** [Default(subcon, value)] *)
Definition Default (subcon : Construct) (value : Z) : Construct := {|
  _parse := _parse subcon;
  _build := fun obj =>
    match obj with
    | VNone => _build subcon (VInt value)
    | _ => _build subcon obj
    end;
  _sizeof := _sizeof subcon;
  flagbuildnone := true
|}.

(** [Array(count, subcon)], as [PrefixedArray] uses it. *)
Fixpoint Array_parse (subcon : Construct) (count : nat) (stream : bytes)
  : result (list value * bytes) :=
  match count with
  | O => Ok ([], stream)
  | S count' =>
      '(obj, rest) <- _parse subcon stream ;;
      '(objs, rest') <- Array_parse subcon count' rest ;;
      Ok (obj :: objs, rest')
  end.

Fixpoint Array_build (subcon : Construct) (items : list value) : result bytes :=
  match items with
  | [] => Ok []
  | e :: items' =>
      data <- _build subcon e ;;
      data' <- Array_build subcon items' ;;
      Ok (data ++ data')
  end.

(** [PrefixedArray(countfield, subcon)]: the count, then that many items. *)
Definition PrefixedArray (countfield subcon : Construct) : Construct := {|
  _parse := fun stream =>
    '(count, rest) <- _parse countfield stream ;;
    match as_int count with
    | Some n =>
        if n <? 0 then Raise RangeError
        else
          '(objs, rest') <- Array_parse subcon (Z.to_nat n) rest ;;
          Ok (VList objs, rest')
    | None => Raise TypeError
    end;
  _build := fun obj =>
    match py_iter obj with
    | Some items =>
        prefix <- _build countfield (VInt (Z.of_nat (List.length items))) ;;
        data <- Array_build subcon items ;;
        Ok (prefix ++ data)
    | None => Raise TypeError                  (* len() of such an object *)
    end;
  _sizeof := None;
  flagbuildnone := flagbuildnone subcon
|}.

(** [Padding(length, pattern)]: the bytes are skipped when parsing and
    written as the pattern when building, whatever the object. *)
Definition Padding (length : nat) (pattern : byte) : Construct := {|
  _parse := fun stream =>
    '(_, rest) <- stream_read stream length ;;
    Ok (VNone, rest);
  _build := fun _ => Ok (repeat pattern length);
  _sizeof := Some length;
  flagbuildnone := true
|}.

(** [PaddedString(length, "utf8")]: trailing NULs are stripped before the
    bytes are decoded; the encoded text is padded with NULs.  [StringEncoded]
    turns a failure of the codec, in either direction, into a StringError. *)
Definition PaddedString (length : nat) : Construct := {|
  _parse := fun stream =>
    '(data, rest) <- stream_read stream length ;;
    let stripped := rstrip_nul data in
    if utf8_valid stripped then Ok (VStr (string_of_list_byte stripped), rest)
    else Raise StringError;
  _build := fun obj =>
    match as_str obj with
    | Some s =>
        let data := list_byte_of_string s in
        if negb (utf8_valid data) then Raise StringError
        else if (length <? List.length data)%nat then Raise PaddingError
        else Ok (data ++ repeat x00 (length - List.length data))
    | None => Raise StringError
    end;
  _sizeof := Some length;
  flagbuildnone := false
|}.

(** A field of a [Struct]: ["name" / subcon], or a subcon without a name. *)
Definition field : Type := option string * Construct.

Fixpoint Struct_parse (subcons : list field) (obj : dict) (stream : bytes)
  : result (dict * bytes) :=
  match subcons with
  | [] => Ok (obj, stream)
  | (name, sc) :: subcons' =>
      '(subobj, rest) <- _parse sc stream ;;
      Struct_parse subcons'
        (match name with Some n => dict_set obj n subobj | None => obj end)
        rest
  end.

(** The object a field is built from: [obj.get(name, None)] when the field
    can be built from [None], [obj[name]] otherwise. *)
Definition Struct_subobj (name : option string) (sc : Construct) (obj : dict)
  : result value :=
  match name with
  | Some n =>
      match dict_get obj n with
      | Some v => Ok v
      | None => if flagbuildnone sc then Ok VNone else Raise (KeyError n)
      end
  | None => if flagbuildnone sc then Ok VNone else Raise (KeyError "None")
  end.

Fixpoint Struct_build (subcons : list field) (obj : dict) : result bytes :=
  match subcons with
  | [] => Ok []
  | (name, sc) :: subcons' =>
      subobj <- Struct_subobj name sc obj ;;
      data <- _build sc subobj ;;
      data' <- Struct_build subcons' obj ;;
      Ok (data ++ data')
  end.

Fixpoint Struct_sizeof (subcons : list field) : option nat :=
  match subcons with
  | [] => Some 0%nat
  | (_, sc) :: subcons' =>
      match _sizeof sc, Struct_sizeof subcons' with
      | Some n, Some m => Some (n + m)%nat
      | _, _ => None
      end
  end.

Definition Struct (subcons : list field) : Construct := {|
  _parse := fun stream =>
    '(obj, rest) <- Struct_parse subcons [] stream ;;
    Ok (VContainer obj, rest);
  _build := fun obj =>
    match obj with
    | VNone => Struct_build subcons []
    | VContainer d => Struct_build subcons d
    | _ => Raise TypeError
    end;
  _sizeof := Struct_sizeof subcons;
  flagbuildnone := forallb (fun f : field => flagbuildnone (snd f)) subcons
|}.

Definition Renamed (name : string) (subcon : Construct) : field :=
  (Some name, subcon).
Definition Unnamed (subcon : Construct) : field := (None, subcon).

End construct.

Notation "name // subcon" := (construct.Renamed name subcon)
  (at level 40, no associativity).

(* ================================================================== *)
(** * blheli_protocol.py *)
(* ================================================================== *)

Module BLHeliProtocol.

Import construct.
Local Open Scope result_scope.

(** Frames start byte *)
Definition REQUEST_START_BYTE : Z := 47.   (* 0x2f *)
Definition RESPONSE_START_BYTE : Z := 46.  (* 0x2e *)

(** List of BLHeli commands opcodes *)
Definition COMMAND_NAMES : list (string * Z) :=
  [ ("interface_test_alive", 48);     (* 0x30 *)
    ("protocol_get_version", 49);     (* 0x31 *)
    ("interface_get_name", 50);       (* 0x32 *)
    ("interface_get_version", 51);    (* 0x33 *)
    ("interface_exit", 52);           (* 0x34 *)
    ("device_reset", 53);             (* 0x35 *)
    ("device_init_flash", 55);        (* 0x37 *)
    ("device_erase_all", 56);         (* 0x38 *)
    ("device_page_erase", 57);        (* 0x39 *)
    ("device_read", 58);              (* 0x3a *)
    ("device_write", 59);             (* 0x3b *)
    ("device_c2ck_low", 60);          (* 0x3c *)
    ("device_read_eeprom", 61);       (* 0x3d *)
    ("device_write_eeprom", 62);      (* 0x3e *)
    ("interface_set_mode", 63) ].     (* 0x3f *)

Definition COMMAND_ENUM : Construct := Enum Byte COMMAND_NAMES.

(** List of response status (ack) code *)
Definition ACK_NAMES : list (string * Z) :=
  [ ("ok", 0);
    ("invalid_command", 2);
    ("invalid_crc", 3);
    ("verify_error", 4);
    ("invalid_channel", 8);
    ("invalid_param", 9);
    ("general_error", 15) ].

Definition ACK_ENUM : Construct := Enum Byte ACK_NAMES.

(** The command request structure *)
Definition REQUEST_FIELDS : list field :=
  [ "start_byte" // Const REQUEST_START_BYTE Byte;
    "command" // COMMAND_ENUM;
    "address" // Default Int16ub 0;
    "payload" // PrefixedArray Int8ul Byte;
    "crc" // Int16ub ].

Definition REQUEST : Construct := Struct REQUEST_FIELDS.

(** The command response structure *)
Definition RESPONSE_FIELDS : list field :=
  [ "start_byte" // Const RESPONSE_START_BYTE Byte;
    "command" // COMMAND_ENUM;
    "address" // Default Int16ub 0;
    "payload" // PrefixedArray Int8ul Byte;
    "ack" // ACK_ENUM;
    "crc" // Int16ub ].

Definition RESPONSE : Construct := Struct RESPONSE_FIELDS.

(** Payloads *)
Definition REQUEST_PAYLOAD : list (string * Construct) :=
  [ ("device_reset", Struct ["esc_channel" // Int8ul]);
    ("device_page_erase", Struct ["page_number" // Int8ul]);
    ("device_read", Struct ["length" // Int8ul]);
    ("device_write", PrefixedArray Int8ul Byte);
    ("device_c2ck_low", Struct ["esc_channel" // Int8ul]);
    ("device_read_eeprom", Struct ["length" // Int8ul]);
    ("device_write_eeprom", PrefixedArray Int8ul Byte);
    ("interface_set_mode", Struct ["esc_channel" // Int8ul]) ].

Definition MODE_NAMES : list (string * Z) :=
  [ ("SiLabsC2", 0); ("SiLabsBLB", 1); ("AtmelBLB", 2); ("AtmelSK", 3) ].

Definition RESPONSE_PAYLOAD : list (string * Construct) :=
  [ ("device_init_flash",
     Struct [ "HiSign" // Byte; "LoSign" // Byte; "BootMsg" // Byte;
              "mode" // Enum Byte MODE_NAMES ]) ].

(** XMODEM CRC16 function *)
Definition CRC16_XMODEM : bytes -> Z :=
  crcmod.mkCrcFun16 69665 (* 0x11021 *) 0.

(** Build and encode a command frame *)
Definition build (command address payload : value) : result bytes :=
  match
    (* Encode the frame a first time with dummy CRC16 *)
    frame <- construct.build REQUEST
               (VContainer [("command", command); ("address", address);
                            ("payload", payload); ("crc", VInt 0)]) ;;
    (* Compute CRC16 *)
    let crc := CRC16_XMODEM (drop_last2 frame) in
    (* Reencode frame with right CRC16 *)
    construct.build REQUEST
      (VContainer [("command", command); ("address", address);
                   ("payload", payload); ("crc", VInt crc)])
  with
  | Ok frame => Ok frame
  | Raise e => Raise (BLHeliEncodingError e)
  end.

(** The defaults of [build]: [address=0], [payload=[0]]. *)
Definition default_address : value := VInt 0.
Definition default_payload : value := VList [VInt 0].

(** [frame.name] on a Container *)
Definition attr (frame : dict) (name : string) : result value :=
  match dict_get frame name with
  | Some v => Ok v
  | None => Raise (AttributeError name)
  end.

(** Parse and decode a received frame *)
Definition parse (frame : bytes) : result dict :=
  (* Check parameter *)
  if (List.length frame =? 0)%nat then Raise (BLHeliDecodingError NullLengthFrame)
  else
    (* Parse frame *)
    match construct.parse RESPONSE frame with
    | Raise e => Raise (BLHeliDecodingError (ParseFailed e))
    | Ok (VContainer parsed) =>
        (* Check start byte *)
        start_byte <- attr parsed "start_byte" ;;
        if negb (py_eq start_byte (VInt RESPONSE_START_BYTE))
        then Raise (BLHeliDecodingError InvalidStartByte)
        else
          (* Check crc16 *)
          crc <- attr parsed "crc" ;;
          if negb (py_eq crc (VInt (CRC16_XMODEM (drop_last2 frame))))
          then Raise (BLHeliDecodingError InvalidCrc)
          else Ok parsed
    | Ok _ => Raise TypeError
    end.

(** [bytes(obj)]: an iterable of ints in 0..255 gives those bytes, an int
    gives that many zero bytes, a str is refused. *)
Fixpoint bytes_of_ints (items : list value) : result bytes :=
  match items with
  | [] => Ok []
  | v :: items' =>
      match as_int v with
      | Some z =>
          match byte_of_Z z with
          | Some b => data <- bytes_of_ints items' ;; Ok (b :: data)
          | None => Raise ValueError
          end
      | None => Raise TypeError
      end
  end.

Definition py_bytes (obj : value) : result bytes :=
  match obj with
  | VBytes data => Ok data
  | VStr _ | VEnumIntegerString _ _ | VNone => Raise TypeError
  | VBool _ | VInt _ | VEnumInteger _ =>
      match as_int obj with
      | Some n => if n <? 0 then Raise ValueError else Ok (repeat x00 (Z.to_nat n))
      | None => Raise TypeError
      end
  | VList items => bytes_of_ints items
  | VContainer items => bytes_of_ints (map (fun kv => VStr (fst kv)) items)
  end.

(** [command in payload_structs] and [payload_structs[command]]: the keys
    are command names, so only a str can be found; a list or a dict cannot
    be hashed. *)
Definition payload_struct (payload_structs : list (string * Construct))
    (command : value) : result (option Construct) :=
  match command with
  | VList _ | VContainer _ => Raise TypeError
  | _ =>
      match as_str command with
      | Some name =>
          Ok (option_map snd
                (find (fun kv => String.eqb (fst kv) name) payload_structs))
      | None => Ok None
      end
  end.

(** Parse payload, based on command identifier *)
Definition parse_payload (frame : dict) : result value :=
  (* Extract raw payload in bytes *)
  payload <- attr frame "payload" ;;
  raw_payload <- py_bytes payload ;;
  (* Check if the frame is a request or a response, to retreive payload structure *)
  start_byte <- attr frame "start_byte" ;;
  let payload_structs :=
    if py_eq start_byte (VInt REQUEST_START_BYTE)
    then REQUEST_PAYLOAD else RESPONSE_PAYLOAD in
  (* If payload struct is known, parse it. Otherwise return raw payload *)
  command <- attr frame "command" ;;
  known <- payload_struct payload_structs command ;;
  match known with
  | Some shape =>
      match construct.parse shape raw_payload with
      | Ok v => Ok v
      | Raise e => Raise (BLHeliDecodingError (PayloadParseFailed e))
      end
  | None => Ok (VBytes raw_payload)
  end.

End BLHeliProtocol.

Definition bytes_of_hex (s : string) : bytes :=
  match fromhex s with Some data => data | None => [] end.

(* ================================================================== *)
(** * str(), str.strip() and range() *)
(* ================================================================== *)

Definition str_of_Z (z : Z) : string := NilZero.string_of_int (Z.to_int z).

(** [str(obj)].  The repr of a bytes object, a list or a Container is not
    modelled (it is left empty): the program applies [str] to field values of
    the EEPROM layout only, which are ints, enumeration members and strs. *)
Definition py_str (v : value) : string :=
  match v with
  | VNone => "None"
  | VBool true => "True"
  | VBool false => "False"
  | VInt z | VEnumInteger z => str_of_Z z
  | VStr s | VEnumIntegerString s _ => s
  | VBytes _ | VList _ | VContainer _ => ""
  end.

(** The UTF-8 encodings of the characters [str.isspace] accepts. *)
Definition whitespace : list bytes :=
  [ [x09]; [x0a]; [x0b]; [x0c]; [x0d]; [x1c]; [x1d]; [x1e]; [x1f]; [x20];
    [xc2; x85]; [xc2; xa0]; [xe1; x9a; x80];
    [xe2; x80; x80]; [xe2; x80; x81]; [xe2; x80; x82]; [xe2; x80; x83];
    [xe2; x80; x84]; [xe2; x80; x85]; [xe2; x80; x86]; [xe2; x80; x87];
    [xe2; x80; x88]; [xe2; x80; x89]; [xe2; x80; x8a];
    [xe2; x80; xa8]; [xe2; x80; xa9]; [xe2; x80; xaf];
    [xe2; x81; x9f]; [xe3; x80; x80] ].

Fixpoint starts_with (prefix data : bytes) : bool :=
  match prefix, data with
  | [], _ => true
  | p :: prefix', b :: data' => Byte.eqb p b && starts_with prefix' data'
  | _ :: _, [] => false
  end.

Fixpoint lstrip_with (spaces : list bytes) (fuel : nat) (data : bytes) : bytes :=
  match fuel with
  | O => data
  | S fuel' =>
      match find (fun sp => starts_with sp data) spaces with
      | Some sp => lstrip_with spaces fuel' (skipn (List.length sp) data)
      | None => data
      end
  end.

(** [s.strip()] *)
Definition py_strip (s : string) : string :=
  let data := list_byte_of_string s in
  let left := lstrip_with whitespace (List.length data) data in
  let right :=
    rev (lstrip_with (map (@rev byte) whitespace) (List.length left) (rev left)) in
  string_of_list_byte right.

(** [range(n)] *)
Definition py_range (n : Z) : list Z :=
  map Z.of_nat (seq 0 (Z.to_nat n)).

(** [obj[key]] on a dict or a Container. *)
Definition py_getitem (d : dict) (key : string) : result value :=
  match dict_get d key with
  | Some v => Ok v
  | None => Raise (KeyError key)
  end.

(** [obj[1:]]: a list, a bytes object and a str lose their first item; the
    other objects cannot be sliced. *)
Definition py_slice_from_1 (obj : value) : result value :=
  match obj with
  | VList items => Ok (VList (skipn 1 items))
  | VBytes data => Ok (VBytes (skipn 1 data))
  | VStr s | VEnumIntegerString s _ =>
      Ok (VStr (String.concat "" (skipn 1 (str_chars s))))
  | VNone | VBool _ | VInt _ | VEnumInteger _ | VContainer _ => Raise TypeError
  end.

(** [data.decode('utf-8')] *)
Definition py_decode_utf8 (data : bytes) : result string :=
  if utf8_valid data then Ok (string_of_list_byte data)
  else Raise UnicodeDecodeError.

(* ================================================================== *)
(** * blheli_4way.py *)
(* ================================================================== *)

Module BLHeli4WayInterface.

Module protocol := BLHeliProtocol.

Section Interface.

(** The serial port with whatever is plugged into it: pyserial's
    [Serial.write(data)] and [Serial.read(size)]. *)
Variable Serial : Type.
Variable serial_write : bytes -> Serial -> result unit * Serial.
Variable serial_read : Z -> Serial -> result bytes * Serial.

(** The interface object, together with what [log] has printed so far. *)
Record self_t : Type := mkSelf {
  verbose : bool;
  count : Z;
  serial_connection : Serial;
  log_output : list (list value)
}.

(** A method: it may change the object and may raise. *)
Definition M (A : Type) : Type := self_t -> result A * self_t.

Definition ret {A} (a : A) : M A := fun self => (Ok a, self).
Definition raise {A} (e : exn) : M A := fun self => (Raise e, self).
Definition bind {A B} (m : M A) (k : A -> M B) : M B :=
  fun self =>
    match m self with
    | (Ok a, self') => k a self'
    | (Raise e, self') => (Raise e, self')
    end.
Definition lift {A} (r : result A) : M A := fun self => (r, self).
Definition get_verbose : M bool := fun self => (Ok (verbose self), self).
Definition get_count : M Z := fun self => (Ok (count self), self).

(** Modelled from the spec: [blheli_log.log] is not among the sources.
    The spec treats logging as an observer of the session; a call
    [log(a, b, ...)] is recorded with its arguments. *)
Definition log (args : list value) : M unit :=
  fun self =>
    (Ok tt, mkSelf (verbose self) (count self) (serial_connection self)
                   (log_output self ++ [args])).

Definition serial_connection_write (data : bytes) : M unit :=
  fun self =>
    let '(r, port) := serial_write data (serial_connection self) in
    (r, mkSelf (verbose self) (count self) port (log_output self)).

Definition serial_connection_read (size : Z) : M bytes :=
  fun self =>
    let '(r, port) := serial_read size (serial_connection self) in
    (r, mkSelf (verbose self) (count self) port (log_output self)).

(** [assert(cond)] *)
Definition assert (cond : bool) : M unit :=
  if cond then ret tt else raise AssertionError.

(** [time.sleep] only lets time pass. *)
Definition sleep : M unit := ret tt.

Local Notation "x <- m ;; k" := (bind m (fun x => k))
  (at level 61, m at next level, right associativity).
Local Notation "m ;;; k" := (bind m (fun _ => k))
  (at level 61, right associativity).

(** Send a command to the ESC. *)
Definition send_command (command address payload : value) : M unit :=
  frame <- lift (protocol.build command address payload) ;;
  serial_connection_write frame ;;;
  v <- get_verbose ;;
  (if v then log [VStr "->"; VStr (hex frame)] else ret tt) ;;;
  sleep.  (* Short delay for ESC to process *)

(** Read and decode response from the ESC. *)
Definition read_response (expected_length : Z) : M dict :=
  response <- serial_connection_read expected_length ;;
  v <- get_verbose ;;
  (if v then log [VStr "<-"; VStr (hex response)] else ret tt) ;;;
  lift (protocol.parse response).

Definition default_expected_length : Z := 64.

(** Init device flash and return interface type ("silabs" or "atmel") *)
Definition init_flash (esc : Z) : M string :=
  send_command (VStr "device_init_flash") protocol.default_address
               (VList [VInt esc]) ;;;
  response <- read_response default_expected_length ;;
  payload <- lift (protocol.parse_payload response) ;;
  mode <- lift (match payload with
                | VContainer fields => protocol.attr fields "mode"
                | _ => Raise (AttributeError "mode")
                end) ;;
  if py_eq mode (VStr "SiLabsC2") || py_eq mode (VStr "SiLabsBLB")
  then ret "silabs"
  else ret "atmel".

(** !!! Erase one page in device memory *)
Definition erase_page (page : Z) : M unit :=
  send_command (VStr "device_page_erase") protocol.default_address
               (VList [VInt page]) ;;;
  _ <- read_response default_expected_length ;;
  ret tt.

(** !!! Write data to device memory *)
Definition write_memory (address : Z) (data : bytes) : M dict :=
  send_command (VStr "device_write") (VInt address) (VBytes data) ;;;
  read_response default_expected_length.

(** Read data from device memory. *)
Definition read_memory (address : Z) (length : Z) : M bytes :=
  send_command (VStr "device_read") (VInt address) (VList [VInt length]) ;;;
  response <- read_response (length + 8) ;;
  payload <- lift (protocol.attr response "payload") ;;
  lift (protocol.py_bytes payload).

(** Reset the ESC.  The parameter [esc] has no default: a call that
    leaves it out ([None] here) is a TypeError before the body runs. *)
Definition reset_esc (esc : option Z) : M unit :=
  match esc with
  | None => raise TypeError
  | Some esc =>
      send_command (VStr "device_reset") protocol.default_address
                   (VList [VInt esc]) ;;;
      _ <- read_response default_expected_length ;;
      sleep
  end.

(** Read and return interface name *)
Definition get_name : M string :=
  send_command (VStr "interface_get_name") protocol.default_address
               protocol.default_payload ;;;
  response <- read_response default_expected_length ;;
  payload <- lift (py_getitem response "payload") ;;
  name <- lift (py_slice_from_1 payload) ;;
  raw <- lift (protocol.py_bytes name) ;;
  lift (py_decode_utf8 raw).

(** Identify ESC (generate a startup tone) and assert that communication
    is working *)
Definition test_alive : M unit :=
  send_command (VStr "interface_test_alive") protocol.default_address
               protocol.default_payload ;;;
  _ <- read_response default_expected_length ;;
  ret tt.

End Interface.

Arguments mkSelf {Serial}.
Arguments verbose {Serial}.
Arguments count {Serial}.
Arguments serial_connection {Serial}.
Arguments log_output {Serial}.
Arguments ret {Serial A}.
Arguments raise {Serial A}.
Arguments bind {Serial A B}.
Arguments lift {Serial A}.
Arguments get_verbose {Serial}.
Arguments get_count {Serial}.
Arguments log {Serial}.
Arguments assert {Serial}.
Arguments sleep {Serial}.

End BLHeli4WayInterface.

(* ================================================================== *)
(** * blheli_silabs.py *)
(* ================================================================== *)

Module BlHeliSilabs.

Import construct.
Module protocol := BLHeliProtocol.
Module base := BLHeli4WayInterface.

Definition CONFIG_ADDRESS : Z := 6656.    (* 0x1A00 *)
Definition PAGE_SIZE : Z := 512.          (* 0x200 *)

Definition STARTUP_POWER : list (string * Z) :=
  [ ("0.031", 1); ("0.047", 2); ("0.063", 3); ("0.094", 4); ("0.125", 5);
    ("0.188", 6); ("0.25", 7); ("0.38", 8); ("0.50", 9); ("0.75", 10);
    ("1.00", 11); ("1.25", 12); ("1.50", 13) ].
Definition MOTOR_DIRECTION : list (string * Z) :=
  [ ("normal", 1); ("reversed", 2); ("bidir", 3); ("bidir_reversed", 4) ].
Definition MODE : list (string * Z) :=
  [ ("main", 42330 (* 0xA55A *)); ("tail", 23205 (* 0x5AA5 *));
    ("multi", 21930 (* 0x55AA *)) ].
Definition COMMUTATION_TIMING : list (string * Z) :=
  [ ("low", 1); ("medium_low", 2); ("medium", 3); ("medium_high", 4);
    ("high", 5) ].
Definition BEACON_DELAY : list (string * Z) :=
  [ ("1_min", 1); ("2_min", 2); ("5_min", 3); ("10_min", 4); ("infinite", 5) ].
Definition DEMAG_COMPENSATION : list (string * Z) :=
  [ ("off", 1); ("low", 2); ("high", 3) ].
Definition TEMPERATURE_PROTECTION : list (string * Z) :=
  [ ("disabled", 0); ("80°", 1); ("90°", 2); ("100°", 3); ("110°", 4);
    ("120°", 5); ("130°", 6); ("140°", 7) ].

Definition EEPROM_FIELDS : list field :=                       (* TOTAL SIZE : 0x70 *)
  [ "main_revision" // Byte;                                   (* offset: 0x00, size: 1 *)
    "sub_revision" // Byte;                                    (* offset: 0x01, size: 1 *)
    "layout_revision" // Byte;                                 (* offset: 0x02, size: 1 *)
    Unnamed (Padding 6 xff);                                   (* offset: 0x03, size: 6 *)
    "startup_power" // Enum Byte STARTUP_POWER;                (* offset: 0x09, size: 1 *)
    Unnamed (Padding 1 xff);                                   (* offset: 0x0A, size: 1 *)
    "motor_direction" // Enum Byte MOTOR_DIRECTION;            (* offset: 0x0B, size: 1 *)
    Unnamed (Padding 1 xff);                                   (* offset: 0x0C, size: 1 *)
    "mode" // Enum Int16ub MODE;                               (* offset: 0x0D, size: 2 *)
    "programming_by_tx" // Flag;                               (* offset: 0x0F, size: 1 *)
    Unnamed (Padding 5 xff);                                   (* offset: 0x10, size: 5 *)
    "commutation_timing" // Enum Byte COMMUTATION_TIMING;      (* offset: 0x15, size: 1 *)
    Unnamed (Padding 3 xff);                                   (* offset: 0x16, size: 3 *)
    "ppm_min_throttle" // Byte;                                (* offset: 0x19, size: 1 *)
    "ppm_max_throttle" // Byte;                                (* offset: 0x1A, size: 1 *)
    "beep_strength" // Byte;                                   (* offset: 0x1B, size: 1 *)
    "beacon_strength" // Byte;                                 (* offset: 0x1C, size: 1 *)
    "beacon_delay" // Enum Byte BEACON_DELAY;                  (* offset: 0x1D, size: 1 *)
    Unnamed (Padding 1 xff);                                   (* offset: 0x1E, size: 1 *)
    "demag_compensation" // Enum Byte DEMAG_COMPENSATION;      (* offset: 0x1F, size: 1 *)
    Unnamed (Padding 1 xff);                                   (* offset: 0x20, size: 1 *)
    "ppm_center_throttle" // Byte;                             (* offset: 0x21, size: 1 *)
    Unnamed (Padding 1 xff);                                   (* offset: 0x22, size: 1 *)
    "temperature_protection" // Enum Byte TEMPERATURE_PROTECTION; (* offset: 0x23, size: 1 *)
    "low_rpm_power_protection" // Flag;                        (* offset: 0x24, size: 1 *)
    Unnamed (Padding 2 xff);                                   (* offset: 0x25, size: 2 *)
    "brake_on_stop" // Flag;                                   (* offset: 0x27, size: 1 *)
    "led_control" // Flag;                                     (* offset: 0x28, size: 1 *)
    Unnamed (Padding 23 xff);                                  (* offset: 0x29, size: 23 *)
    "layout" // PaddedString 16;                               (* offset: 0x40, size: 16 *)
    "mcu" // PaddedString 16;                                  (* offset: 0x50, size: 16 *)
    "name" // PaddedString 16 ].                               (* offset: 0x60, size: 16 *)

Definition EEPROM_LAYOUT : Construct := Struct EEPROM_FIELDS.

Definition DEVICE_INFO_FIELDS : list string :=
  [ "main_revision"; "sub_revision"; "mode"; "layout"; "mcu"; "name" ].

Definition COMMON_CONFIG_FIELDS : list string :=
  [ "programming_by_tx"; "commutation_timing"; "beep_strength";
    "beacon_strength"; "beacon_delay"; "demag_compensation";
    "temperature_protection"; "low_rpm_power_protection"; "brake_on_stop";
    "led_control"; "startup_power" ].

Definition ESC_CONFIG_FIELDS : list string :=
  [ "motor_direction"; "ppm_min_throttle"; "ppm_max_throttle";
    "ppm_center_throttle" ].

(** [key in fields] *)
Definition contains (fields : list string) (key : string) : bool :=
  existsb (String.eqb key) fields.

(** [EEPROM_LAYOUT.sizeof()] *)
Definition EEPROM_SIZE : result Z :=
  match _sizeof EEPROM_LAYOUT with
  | Some n => Ok (Z.of_nat n)
  | None => Raise (PyException "SizeofError")
  end.

(** [{field: f(eeprom[field]) for field in fields}] *)
Fixpoint project (f : value -> value) (eeprom : dict) (fields : list string)
    (acc : dict) : result dict :=
  match fields with
  | [] => Ok acc
  | field :: fields' =>
      match dict_get eeprom field with
      | Some v => project f eeprom fields' (dict_set acc field (f v))
      | None => Raise (KeyError field)
      end
  end.

Section Silabs.

Variable Serial : Type.
Variable serial_write : bytes -> Serial -> result unit * Serial.
Variable serial_read : Z -> Serial -> result bytes * Serial.

Local Abbreviation M := (base.M Serial).
Local Abbreviation init_flash := (base.init_flash Serial serial_write serial_read).
Local Abbreviation read_memory := (base.read_memory Serial serial_write serial_read).
Local Abbreviation write_memory := (base.write_memory Serial serial_write serial_read).
Local Abbreviation erase_page := (base.erase_page Serial serial_write serial_read).
Local Abbreviation reset_esc := (base.reset_esc Serial serial_write serial_read).

Local Notation "x <- m ;; k" := (base.bind m (fun x => k))
  (at level 61, m at next level, right associativity).
Local Notation "m ;;; k" := (base.bind m (fun _ => k))
  (at level 61, right associativity).
Local Notation "' p <- m ;; k" := (base.bind m (fun x => let p := x in k))
  (at level 61, p pattern, m at next level, right associativity).

(** [EEPROM_LAYOUT.parse(read_memory(CONFIG_ADDRESS, EEPROM_LAYOUT.sizeof()))] *)
Definition read_eeprom : M dict :=
  size <- base.lift EEPROM_SIZE ;;
  data <- read_memory CONFIG_ADDRESS size ;;
  parsed <- base.lift (construct.parse EEPROM_LAYOUT data) ;;
  match parsed with
  | VContainer eeprom => base.ret eeprom
  | _ => base.raise TypeError
  end.

(** Probe ESC instance and check interface type *)
Definition probe_esc (esc : Z) : M unit :=
  (* Check parameter *)
  n <- base.get_count ;;
  base.assert ((0 <=? esc) && (esc <? n)) ;;;
  (* Probe ESC and reset to deinit flash *)
  base.log [VStr "Probing ESC #"; VInt (esc + 1)] ;;;
  interface_type <- init_flash esc ;;
  reset_esc None ;;;                       (* self.reset_esc() *)
  (* Check interface type *)
  if negb (String.eqb interface_type "silabs")
  then base.raise (PyException ("Invalid ESC #" ++ str_of_Z (esc + 1)
                                 ++ " type " ++ interface_type))
  else base.ret tt.

(** Read config from device memory. Return a tuple containing
    (device_info, common_config, esc_config) *)
Definition read_config (esc : Z) : M (dict * dict * dict) :=
  (* Check parameter *)
  n <- base.get_count ;;
  base.assert ((0 <=? esc) && (esc <? n)) ;;;
  (* Read EEPROM content from memory *)
  _ <- init_flash esc ;;
  eeprom <- read_eeprom ;;
  (* Reset ESC to deinit flash and load config *)
  reset_esc (Some esc) ;;;
  (* Extract device info, common and specific config from layout *)
  device_info <- base.lift (project (fun v => VStr (py_strip (py_str v)))
                                   eeprom DEVICE_INFO_FIELDS []) ;;
  common_config <- base.lift (project (fun v => v) eeprom COMMON_CONFIG_FIELDS []) ;;
  esc_config <- base.lift (project (fun v => v) eeprom ESC_CONFIG_FIELDS []) ;;
  base.ret (device_info, common_config, esc_config).

Definition mismatch_warning (esc : Z) : list value :=
  [VStr ("Warning : Common config mismatch for ESC #" ++ str_of_Z (esc + 1))].

(** The body of the loop of [read_config_all], run over the instances
    still to visit.  [common_config] is unbound until the first pass. *)
Fixpoint read_config_all_loop (todo : list Z) (common_config : option dict)
    (escs : list value) : M (option dict * list value) :=
  match todo with
  | [] => base.ret (common_config, escs)
  | esc :: todo' =>
      '(esc_info, esc_common_config, esc_config) <- read_config esc ;;
      let escs := escs ++ [VContainer [("info", VContainer esc_info);
                                       ("config", VContainer esc_config)]] in
      if esc =? 0 then
        read_config_all_loop todo' (Some esc_common_config) escs
      else
        match common_config with
        | None => base.raise UnboundLocalError
        | Some common =>
            (if negb (py_eq (VContainer common) (VContainer esc_common_config))
             then base.log (mismatch_warning esc)
             else base.ret tt) ;;;
            read_config_all_loop todo' common_config escs
        end
  end.

(** Read config from device memory. Return a tuple containing
    (device_info, configs) *)
Definition read_config_all : M (dict * list value) :=
  n <- base.get_count ;;
  '(common_config, escs) <- read_config_all_loop (py_range n) None [] ;;
  match common_config with
  | Some common => base.ret (common, escs)
  | None => base.raise UnboundLocalError
  end.

(** Patch EEPROM contents with updated parameters *)
Fixpoint patch (eeprom : dict) (params : dict) : M dict :=
  match params with
  | [] => base.ret eeprom
  | (key, value) :: params' =>
      if contains COMMON_CONFIG_FIELDS key || contains ESC_CONFIG_FIELDS key
      then patch (dict_set eeprom key value) params'
      else base.log [VStr "Invalid parameter"; VStr key] ;;; patch eeprom params'
  end.

(** Read parameters into device config memory *)
Definition write_config (esc : Z) (params : dict) : M unit :=
  (* Check parameter *)
  n <- base.get_count ;;
  base.assert ((0 <=? esc) && (esc <? n)) ;;;
  (* Read EEPROM content from memory *)
  _ <- init_flash esc ;;
  eeprom <- read_eeprom ;;
  (* Patch EEPROM contents with updated parameters *)
  eeprom <- patch eeprom params ;;
  (* Write back config in memory *)
  erase_page (CONFIG_ADDRESS / PAGE_SIZE) ;;;
  image <- base.lift (construct.build EEPROM_LAYOUT (VContainer eeprom)) ;;
  _ <- write_memory CONFIG_ADDRESS image ;;
  (* Reset ESC to deinit flash and load config *)
  reset_esc (Some esc).

(** The call of [write_config] with [esc] and the parameters as keywords: a
    keyword that is named like one of the method's own arguments is a
    TypeError (multiple values for the argument), raised before the body
    runs. *)
Definition call_write_config (esc : Z) (params : dict) : M unit :=
  if dict_has params "self" || dict_has params "esc" then base.raise TypeError
  else write_config esc params.

(** Read parameters into device config memory *)
Fixpoint write_config_all_loop (todo : list Z) (params : dict) : M unit :=
  match todo with
  | [] => base.ret tt
  | esc :: todo' =>
      base.log [VStr ("ESC #" ++ str_of_Z (esc + 1))] ;;;
      call_write_config esc params ;;;
      write_config_all_loop todo' params
  end.

Definition write_config_all (params : dict) : M unit :=
  n <- base.get_count ;;
  write_config_all_loop (py_range n) params.

End Silabs.

End BlHeliSilabs.

(* ================================================================== *)
(** * blheli.py *)
(* ================================================================== *)

Module blheli.

Module base := BLHeli4WayInterface.

(** [pair.split("=", 1)]: the text before the first "=" and, when there is
    one, the text after it. *)
Fixpoint partition_eq (pair : string) : string * option string :=
  match pair with
  | EmptyString => (EmptyString, None)
  | String c rest =>
      if Ascii.eqb c "="%char then (EmptyString, Some rest)
      else let '(head, tail) := partition_eq rest in (String c head, tail)
  end.

Definition split_eq_1 (pair : string) : list string :=
  match partition_eq pair with
  | (head, Some tail) => [head; tail]
  | (head, None) => [head]
  end.

(** Parses key=value strings into (key, value) tuples. *)
Definition parse_key_value_pair (pair : string) : result (string * string) :=
  match split_eq_1 pair with
  | [key; value] => Ok (key, value)
  | _ => Raise ValueError               (* not enough values to unpack *)
  end.

(** Flatten the list of lists into a dictionary:
    [{key: value for pair in args.params for key, value in pair}] *)
Definition flatten_params (args_params : list (list (string * string))) : dict :=
  fold_left
    (fun params pair =>
       fold_left (fun params kv => dict_set params (fst kv) (VStr (snd kv)))
                 pair params)
    args_params [].

Section Script.

Variable Serial : Type.
Variable serial_write : bytes -> Serial -> result unit * Serial.
Variable serial_read : Z -> Serial -> result bytes * Serial.

(** The [set_config] branch of the script, for the Silabs interface: the
    parameters go as keywords to [write_config_all] when [args.esc] is 0 and
    to [write_config], after [args.esc], otherwise. *)
Definition set_config (esc : Z) (args_params : list (list (string * string)))
    : base.M Serial unit :=
  let params := flatten_params args_params in
  if esc =? 0 then
    if dict_has params "self" then base.raise TypeError
    else BlHeliSilabs.write_config_all Serial serial_write serial_read params
  else
    BlHeliSilabs.call_write_config Serial serial_write serial_read esc params.

End Script.

End blheli.

(* ================================================================== *)
(** * Statements on the specification's side *)
(* ================================================================== *)

(** ** Response frames

    The layout of a response is
    [0x2E | command | address:2 | len | payload:len | ack | crc:2]. *)

(** The fields of a response frame, when the input is one: it is at least
    [8 + len] bytes long, it starts with 0x2E, and the CRC field equals the
    CRC16 of the input without its last two bytes.  Opcode and ack are
    decoded by name where they have one and kept as integers otherwise. *)
Definition response_frame (frame : bytes) : option dict :=
  match frame with
  | start :: command :: hi :: lo :: len :: rest =>
      let n := Z.to_nat (Z_of_byte len) in
      match skipn n rest with
      | ack :: crc_hi :: crc_lo :: _ =>
          if negb (Z_of_byte start =? 46) then None
          else if negb (256 * Z_of_byte crc_hi + Z_of_byte crc_lo
                        =? BLHeliProtocol.CRC16_XMODEM (drop_last2 frame))
          then None
          else Some
            [ ("start_byte", VInt (Z_of_byte start));
              ("command",
               construct.Enum_decode BLHeliProtocol.COMMAND_NAMES (Z_of_byte command));
              ("address", VInt (256 * Z_of_byte hi + Z_of_byte lo));
              ("payload", VList (map (fun b => VInt (Z_of_byte b)) (firstn n rest)));
              ("ack", construct.Enum_decode BLHeliProtocol.ACK_NAMES (Z_of_byte ack));
              ("crc", VInt (256 * Z_of_byte crc_hi + Z_of_byte crc_lo)) ]
      | _ => None
      end
  | _ => None
  end.

(** The rejection rule in the words of the specification: the input is
    empty, or its length is not the one the layout gives it, or its opcode or
    its ack code has no name, or it does not start with 0x2E, or its last two
    bytes are not the CRC16 of the bytes before them. *)
Definition has_name (names : list (string * Z)) (b : byte) : bool :=
  existsb (fun kv => snd kv =? Z_of_byte b) names.

Definition layout_length (frame : bytes) : option nat :=
  match nth_error frame 4 with
  | Some len => Some (8 + Z.to_nat (Z_of_byte len))%nat
  | None => None
  end.

Definition rejected_as_specified (frame : bytes) : bool :=
  match frame with
  | [] => true
  | start :: _ =>
      match layout_length frame with
      | Some n =>
          negb (List.length frame =? n)%nat
          || match nth_error frame 1 with
             | Some command => negb (has_name BLHeliProtocol.COMMAND_NAMES command)
             | None => true
             end
          || match nth_error frame (n - 3) with
             | Some ack => negb (has_name BLHeliProtocol.ACK_NAMES ack)
             | None => true
             end
          || negb (Z_of_byte start =? 46)
          || match skipn (List.length frame - 2) frame with
             | [crc_hi; crc_lo] =>
                 negb (256 * Z_of_byte crc_hi + Z_of_byte crc_lo
                       =? BLHeliProtocol.CRC16_XMODEM (drop_last2 frame))
             | _ => true
             end
      | None => true
      end
  end.

Definition raises_decoding_error {A} (r : result A) : Prop :=
  exists why, r = Raise (BLHeliDecodingError why).

(** ** Request frames

    The layout of a request is
    [0x2F | command | address:2 | len | payload:len | crc:2]. *)

Definition to_byte (z : Z) : byte :=
  match byte_of_Z z with Some b => b | None => x00 end.

Definition request_body (code address : Z) (payload : list Z) : bytes :=
  x2f :: to_byte code :: to_byte (address / 256) :: to_byte (address mod 256)
      :: to_byte (Z.of_nat (List.length payload)) :: map to_byte payload.

Definition request_frame (code address : Z) (payload : list Z) : bytes :=
  let body := request_body code address payload in
  let crc := BLHeliProtocol.CRC16_XMODEM body in
  body ++ [to_byte (crc / 256); to_byte (crc mod 256)].

Definition is_byte (z : Z) : Prop := 0 <= z <= 255.

(** A command argument that is one of the known opcode names. *)
Definition known_opcode_name (command : value) : bool :=
  match as_str command with
  | Some name => existsb (fun kv => String.eqb (fst kv) name) BLHeliProtocol.COMMAND_NAMES
  | None => false
  end.

Definition raises_encoding_error {A} (r : result A) : Prop :=
  exists cause, r = Raise (BLHeliEncodingError cause).

(** ** Payload shapes *)

(** The table [parse_payload] looks at: the request shapes for a frame that
    starts with 0x2F, the response shapes for any other frame. *)
Definition payload_table (start_byte : value) : list (string * construct.Construct) :=
  if py_eq start_byte (VInt 47)
  then BLHeliProtocol.REQUEST_PAYLOAD else BLHeliProtocol.RESPONSE_PAYLOAD.

(** The shape registered for a command in a table, if any: only a command
    that has a name can have one. *)
Definition registered_shape (table : list (string * construct.Construct))
    (command : value) : option construct.Construct :=
  match as_str command with
  | Some name => option_map snd (find (fun kv => String.eqb (fst kv) name) table)
  | None => None
  end.

(** How many payload bytes the shape registered for a command reads: the
    identification payload is four bytes, a block is its count byte and that
    many bytes, every other shape is one byte. *)
Definition shape_needs (name : string) (raw : bytes) : nat :=
  if String.eqb name "device_init_flash" then 4
  else if String.eqb name "device_write" || String.eqb name "device_write_eeprom"
  then match raw with
       | [] => 1
       | count :: _ => 1 + Z.to_nat (Z_of_byte count)
       end
  else 1.

Definition raw_ints (raw : bytes) : value :=
  VList (map (fun b => VInt (Z_of_byte b)) raw).

(** The identification payload of a device_init_flash response. *)
Definition identification (raw : bytes) : result value :=
  match raw with
  | hi :: lo :: boot :: mode :: _ =>
      Ok (VContainer
            [ ("HiSign", VInt (Z_of_byte hi)); ("LoSign", VInt (Z_of_byte lo));
              ("BootMsg", VInt (Z_of_byte boot));
              ("mode", construct.Enum_decode BLHeliProtocol.MODE_NAMES (Z_of_byte mode)) ])
  | _ => Raise (BLHeliDecodingError (PayloadParseFailed StreamError))
  end.

(** ** The configuration image *)

Definition byte_at (data : bytes) (offset : nat) : Z := Z_of_byte (nth offset data x00).

Definition slice (data : bytes) (offset size : nat) : bytes :=
  firstn size (skipn offset data).

(** The text of a 16-byte field: its bytes up to the trailing NULs. *)
Definition text_bytes (data : bytes) (offset : nat) : bytes :=
  rstrip_nul (slice data offset 16).

Definition texts_valid (data : bytes) : bool :=
  utf8_valid (text_bytes data 64) && utf8_valid (text_bytes data 80)
  && utf8_valid (text_bytes data 96).

Definition flag_at (data : bytes) (offset : nat) : value :=
  VBool (negb (byte_at data offset =? 0)).

(** The fields of a configuration image, read at the offsets the layout
    documents. *)
Definition image_fields (data : bytes) : dict :=
  [ ("main_revision", VInt (byte_at data 0));
    ("sub_revision", VInt (byte_at data 1));
    ("layout_revision", VInt (byte_at data 2));
    ("startup_power", construct.Enum_decode BlHeliSilabs.STARTUP_POWER (byte_at data 9));
    ("motor_direction", construct.Enum_decode BlHeliSilabs.MOTOR_DIRECTION (byte_at data 11));
    ("mode", construct.Enum_decode BlHeliSilabs.MODE
               (256 * byte_at data 13 + byte_at data 14));
    ("programming_by_tx", flag_at data 15);
    ("commutation_timing",
     construct.Enum_decode BlHeliSilabs.COMMUTATION_TIMING (byte_at data 21));
    ("ppm_min_throttle", VInt (byte_at data 25));
    ("ppm_max_throttle", VInt (byte_at data 26));
    ("beep_strength", VInt (byte_at data 27));
    ("beacon_strength", VInt (byte_at data 28));
    ("beacon_delay", construct.Enum_decode BlHeliSilabs.BEACON_DELAY (byte_at data 29));
    ("demag_compensation",
     construct.Enum_decode BlHeliSilabs.DEMAG_COMPENSATION (byte_at data 31));
    ("ppm_center_throttle", VInt (byte_at data 33));
    ("temperature_protection",
     construct.Enum_decode BlHeliSilabs.TEMPERATURE_PROTECTION (byte_at data 35));
    ("low_rpm_power_protection", flag_at data 36);
    ("brake_on_stop", flag_at data 39);
    ("led_control", flag_at data 40);
    ("layout", VStr (string_of_list_byte (text_bytes data 64)));
    ("mcu", VStr (string_of_list_byte (text_bytes data 80)));
    ("name", VStr (string_of_list_byte (text_bytes data 96))) ].

(** The offsets of the reserved bytes and of the flags. *)
Definition reserved (offset : nat) : bool :=
  ((3 <=? offset) && (offset <? 9) || (offset =? 10) || (offset =? 12)
   || (16 <=? offset) && (offset <? 21) || (22 <=? offset) && (offset <? 25)
   || (offset =? 30) || (offset =? 32) || (offset =? 34)
   || (37 <=? offset) && (offset <? 39) || (41 <=? offset) && (offset <? 64))%nat.

Definition is_flag (offset : nat) : bool :=
  ((offset =? 15) || (offset =? 36) || (offset =? 39) || (offset =? 40))%nat.

(** The enumerated one-byte fields with their legal values, and the
    two-byte mode. *)
Definition enumerated_bytes : list (nat * list (string * Z)) :=
  [ (9%nat, BlHeliSilabs.STARTUP_POWER); (11%nat, BlHeliSilabs.MOTOR_DIRECTION);
    (21%nat, BlHeliSilabs.COMMUTATION_TIMING); (29%nat, BlHeliSilabs.BEACON_DELAY);
    (31%nat, BlHeliSilabs.DEMAG_COMPENSATION);
    (35%nat, BlHeliSilabs.TEMPERATURE_PROTECTION) ].

Definition legal (names : list (string * Z)) (z : Z) : bool :=
  existsb (fun kv => snd kv =? z) names.

Definition enumerations_legal (data : bytes) : bool :=
  forallb (fun f => legal (snd f) (byte_at data (fst f))) enumerated_bytes
  && legal BlHeliSilabs.MODE (256 * byte_at data 13 + byte_at data 14).

(** The decoding rule in the words of the specification: an input that is
    not exactly 112 bytes long is refused, and so is one with an enumerated
    byte outside its legal set. *)
Definition image_refused_as_specified (data : bytes) : bool :=
  negb (List.length data =? 112)%nat || negb (enumerations_legal data).

(** What encoding a decoded image gives: reserved bytes are 0xFF, a flag is
    1 when the byte read was not zero and 0 when it was, every other byte is
    the one that was read. *)
Definition reencoded_byte (data : bytes) (offset : nat) : byte :=
  if reserved offset then xff
  else if is_flag offset
       then (if byte_at data offset =? 0 then x00 else x01)
       else nth offset data x00.

Definition reencoded (data : bytes) : bytes :=
  map (reencoded_byte data) (seq 0 112).

(** A configuration image as a device could hold it. *)
Definition sample_image : bytes :=
  [ x10; x07; x21 ] ++ repeat xff 6 ++ [ x09; xff; x01; xff; x55; xaa; x01 ]
  ++ repeat xff 5 ++ [ x03 ] ++ repeat xff 3 ++ [ x25; xd0; x28; x50; x04; xff; x02; xff;
       x7a; xff; x07; x01; xff; xff; x00; x00 ] ++ repeat xff 23
  ++ list_byte_of_string "#S_H_50#        "
  ++ list_byte_of_string "#BLHELI$EFM8B21#"
  ++ list_byte_of_string "Racerstar" ++ repeat x00 7.

(** The sample image with 0x02 in the programming_by_tx flag. *)
Definition sample_image_flag2 : bytes :=
  firstn 15 sample_image ++ [x02] ++ skipn 16 sample_image.

(** ** A simulated rig

    A 4-way interface with ESCs behind it that answers by the book: every
    request gets a response frame with ack ok and a good CRC.
    device_init_flash selects the instance named by the payload and
    identifies it as SiLabsBLB; device_read returns the leading bytes of the
    selected instance's configuration image; device_page_erase blanks that
    image and device_write stores the payload as the new image. *)
Module Simulation.

Record rig : Type := mkRig {
  images : list bytes;        (* the configuration image of each instance *)
  selected : nat;             (* the instance the last init_flash chose *)
  pending : bytes             (* what the interface has still to send *)
}.

Definition response (opcode hi lo : byte) (payload : bytes) : bytes :=
  let body := [x2e; opcode; hi; lo; to_byte (Z.of_nat (List.length payload))]
              ++ payload ++ [x00] in
  let crc := BLHeliProtocol.CRC16_XMODEM body in
  body ++ [to_byte (crc / 256); to_byte (crc mod 256)].

Fixpoint store (images : list bytes) (esc : nat) (image : bytes) : list bytes :=
  match images, esc with
  | [], _ => []
  | _ :: rest, O => image :: rest
  | first :: rest, S esc' => first :: store rest esc' image
  end.

Definition first_byte (payload : bytes) : nat :=
  match payload with
  | b :: _ => Z.to_nat (Z_of_byte b)
  | [] => O
  end.

Definition answer (frame : bytes) (r : rig) : rig :=
  match frame with
  | _ :: opcode :: hi :: lo :: len :: rest =>
      let payload := firstn (Z.to_nat (Z_of_byte len)) rest in
      if Byte.eqb opcode x37 then
        mkRig (images r) (first_byte payload)
              (response opcode hi lo [xf3; x30; xaa; x01])
      else if Byte.eqb opcode x3a then
        mkRig (images r) (selected r)
              (response opcode hi lo
                 (firstn (first_byte payload) (nth (selected r) (images r) [])))
      else if Byte.eqb opcode x39 then
        mkRig (store (images r) (selected r)
                     (repeat xff (List.length (nth (selected r) (images r) []))))
              (selected r) (response opcode hi lo [x00])
      else if Byte.eqb opcode x3b then
        mkRig (store (images r) (selected r) payload) (selected r)
              (response opcode hi lo [x00])
      else mkRig (images r) (selected r) (response opcode hi lo [x00])
  | _ => r
  end.

Definition serial_write (frame : bytes) (r : rig) : result unit * rig :=
  (Ok tt, answer frame r).

Definition serial_read (size : Z) (r : rig) : result bytes * rig :=
  (Ok (firstn (Z.to_nat size) (pending r)),
   mkRig (images r) (selected r) (skipn (Z.to_nat size) (pending r))).

Definition session (verbose : bool) (images : list bytes)
  : BLHeli4WayInterface.self_t rig :=
  BLHeli4WayInterface.mkSelf verbose (Z.of_nat (List.length images))
    (mkRig images O []) [].

Definition read_config := BlHeliSilabs.read_config rig serial_write serial_read.
Definition read_config_all := BlHeliSilabs.read_config_all rig serial_write serial_read.
Definition write_config := BlHeliSilabs.write_config rig serial_write serial_read.
Definition probe_esc := BlHeliSilabs.probe_esc rig serial_write serial_read.

End Simulation.

(** The sample image with another beep strength. *)
Definition sample_image_beep : bytes :=
  firstn 27 sample_image ++ [x64] ++ skipn 28 sample_image.

(** What decoding reports for the text field at [offset]: the input ends
    before the field does (StreamError), or the text of the field is not
    well-formed UTF-8 (StringError). *)
Definition text_defect (data : bytes) (offset : nat) : option exn :=
  if (List.length data <? offset + 16)%nat then Some StreamError
  else if utf8_valid (text_bytes data offset) then None
  else Some StringError.

(** What decoding a configuration image reports, if anything.  The fields
    are read in the order of the layout: the 64 bytes before the texts, then
    the three texts. *)
Definition image_defect (data : bytes) : option exn :=
  if (List.length data <? 64)%nat then Some StreamError
  else
    match text_defect data 64 with
    | Some e => Some e
    | None =>
        match text_defect data 80 with
        | Some e => Some e
        | None => text_defect data 96
        end
    end.

(** A construct that reads [k] bytes and can only fail for want of them. *)
Definition reads (c : construct.Construct) (k : nat) : Prop :=
  forall s,
    if (List.length s <? k)%nat then construct._parse c s = Raise StreamError
    else exists v, construct._parse c s = Ok (v, skipn k s).

(** ** What the workflows log *)

(** The lines the interface logs in verbose mode: ["->", hex] and
    ["<-", hex]. *)
Definition traffic_line (entry : list value) : bool :=
  match entry with
  | [VStr direction; VStr _] =>
      String.eqb direction "->" || String.eqb direction "<-"
  | _ => false
  end.

Definition is_mismatch_warning (entry : list value) : bool :=
  match entry with
  | [VStr line] => String.prefix "Warning : Common config mismatch for ESC #" line
  | _ => false
  end.

Definition mismatch_warnings {Serial : Type}
    (self : BLHeli4WayInterface.self_t Serial) : list (list value) :=
  filter is_mismatch_warning (BLHeli4WayInterface.log_output self).

(** [self'] is [self] after some traffic: the same settings, the same log
    with traffic lines after it. *)
Definition after_traffic {Serial : Type}
    (self self' : BLHeli4WayInterface.self_t Serial) : Prop :=
  BLHeli4WayInterface.verbose self' = BLHeli4WayInterface.verbose self
  /\ BLHeli4WayInterface.count self' = BLHeli4WayInterface.count self
  /\ exists extra,
       BLHeli4WayInterface.log_output self'
         = BLHeli4WayInterface.log_output self ++ extra
       /\ forallb traffic_line extra = true.

Definition quiet {Serial A : Type} (m : BLHeli4WayInterface.M Serial A) : Prop :=
  forall self, after_traffic self (snd (m self)).

(** ** A rig of instances with fixed configurations

    Whatever state the rig is in (within [Inv]), reading instance [esc]
    succeeds and gives [R esc]. *)
Definition answers_read_config {Serial : Type}
    (serial_write : bytes -> Serial -> result unit * Serial)
    (serial_read : Z -> Serial -> result bytes * Serial)
    (N : Z) (Inv : Serial -> Prop) (R : Z -> dict * dict * dict) : Prop :=
  forall esc (self : BLHeli4WayInterface.self_t Serial),
    BLHeli4WayInterface.count self = N ->
    Inv (BLHeli4WayInterface.serial_connection self) ->
    0 <= esc < N ->
    exists self',
      BlHeliSilabs.read_config Serial serial_write serial_read esc self
        = (Ok (R esc), self')
      /\ Inv (BLHeli4WayInterface.serial_connection self').

Definition common_of (r : dict * dict * dict) : dict := snd (fst r).

(** What [read_config_all] puts in its list for an instance. *)
Definition esc_entry (r : dict * dict * dict) : value :=
  VContainer [("info", VContainer (fst (fst r))); ("config", VContainer (snd r))].

(** Instance [esc] has another common config than the first instance. *)
Definition differs (R : Z -> dict * dict * dict) (esc : Z) : bool :=
  negb (py_eq (VContainer (common_of (R 0))) (VContainer (common_of (R esc)))).

(** The instances after the first. *)
Definition later_instances (N : Z) : list Z := tl (py_range N).

(** What [read_config_all] does on a rig of [N] instances with the
    configurations [R], from the state [self]: it returns the first
    instance's common config and every instance's entry, and the mismatch
    warnings it adds to the log are those of the later instances whose common
    config is not the first one's, in order.  So no warning is added when no
    later instance differs from the first; exactly one, naming the instance,
    when exactly one later instance differs; and one for each later instance
    when they all differ from the first. *)
Definition reports_mismatches {Serial : Type}
    (serial_write : bytes -> Serial -> result unit * Serial)
    (serial_read : Z -> Serial -> result bytes * Serial)
    (N : Z) (R : Z -> dict * dict * dict)
    (self : BLHeli4WayInterface.self_t Serial) : Prop :=
  exists self',
    BlHeliSilabs.read_config_all Serial serial_write serial_read self
      = (Ok (common_of (R 0), map (fun esc => esc_entry (R esc)) (py_range N)), self')
    /\ mismatch_warnings self'
       = mismatch_warnings self
         ++ map BlHeliSilabs.mismatch_warning (filter (differs R) (later_instances N))
    /\ ((forall esc, In esc (later_instances N) -> differs R esc = false) ->
        mismatch_warnings self' = mismatch_warnings self)
    /\ (forall k,
          In k (later_instances N) -> differs R k = true ->
          (forall esc, In esc (later_instances N) -> esc <> k -> differs R esc = false) ->
          mismatch_warnings self'
          = mismatch_warnings self ++ [BlHeliSilabs.mismatch_warning k])
    /\ ((forall esc, In esc (later_instances N) -> differs R esc = true) ->
        mismatch_warnings self'
        = mismatch_warnings self
          ++ map BlHeliSilabs.mismatch_warning (later_instances N)).

(** Three simulated instances, the second with another beep strength, and
    three with the first as the odd one. *)
Definition rig3 : list bytes := [sample_image; sample_image_beep; sample_image].
Definition rig3_first_odd : list bytes := [sample_image_beep; sample_image; sample_image].

Definition rig_results (images : list bytes) (esc : Z) : dict * dict * dict :=
  match fst (Simulation.read_config esc (Simulation.session false images)) with
  | Ok r => r
  | Raise _ => ([], [], [])
  end.

(** ** write_config *)

(** A field name the patch loop accepts. *)
Definition recognized (key : string) : bool :=
  BlHeliSilabs.contains BlHeliSilabs.COMMON_CONFIG_FIELDS key
  || BlHeliSilabs.contains BlHeliSilabs.ESC_CONFIG_FIELDS key.

(** The image after the patch loop: the recognized parameters are set, in
    order; the others are skipped. *)
Fixpoint patched (eeprom : dict) (params : dict) : dict :=
  match params with
  | [] => eeprom
  | (key, value) :: params' =>
      if recognized key then patched (dict_set eeprom key value) params'
      else patched eeprom params'
  end.

(** The names among the parameters that are not recognized, in order. *)
Definition unknown_names (params : dict) : list string :=
  filter (fun key => negb (recognized key)) (map fst params).

Definition invalid_parameter (key : string) : list value :=
  [VStr "Invalid parameter"; VStr key].

(** [self] with more lines in the log. *)
Definition logged {Serial : Type} (self : BLHeli4WayInterface.self_t Serial)
    (entries : list (list value)) : BLHeli4WayInterface.self_t Serial :=
  BLHeli4WayInterface.mkSelf
    (BLHeli4WayInterface.verbose self) (BLHeli4WayInterface.count self)
    (BLHeli4WayInterface.serial_connection self)
    (BLHeli4WayInterface.log_output self ++ entries).

(** The two halves of [write_config] around its patch loop: reading the
    image from the device, and writing an image back. *)
Definition read_phase {Serial : Type}
    (serial_write : bytes -> Serial -> result unit * Serial)
    (serial_read : Z -> Serial -> result bytes * Serial)
    (esc : Z) : BLHeli4WayInterface.M Serial dict :=
  BLHeli4WayInterface.bind BLHeli4WayInterface.get_count (fun n =>
  BLHeli4WayInterface.bind
    (BLHeli4WayInterface.assert ((0 <=? esc) && (esc <? n))) (fun _ =>
  BLHeli4WayInterface.bind
    (BLHeli4WayInterface.init_flash Serial serial_write serial_read esc) (fun _ =>
  BlHeliSilabs.read_eeprom Serial serial_write serial_read))).

Definition write_back {Serial : Type}
    (serial_write : bytes -> Serial -> result unit * Serial)
    (serial_read : Z -> Serial -> result bytes * Serial)
    (esc : Z) (eeprom : dict) : BLHeli4WayInterface.M Serial unit :=
  BLHeli4WayInterface.bind
    (BLHeli4WayInterface.erase_page Serial serial_write serial_read 13) (fun _ =>
  BLHeli4WayInterface.bind
    (BLHeli4WayInterface.lift
       (construct.build BlHeliSilabs.EEPROM_LAYOUT (VContainer eeprom))) (fun image =>
  BLHeli4WayInterface.bind
    (BLHeli4WayInterface.write_memory Serial serial_write serial_read
       BlHeliSilabs.CONFIG_ADDRESS image) (fun _ =>
  BLHeli4WayInterface.reset_esc Serial serial_write serial_read (Some esc)))).

(** The configuration field stored at an offset of the image, for the
    fields of the common-config and esc-config groups. *)
Definition config_field_at (offset : nat) : option string :=
  match offset with
  | 9%nat => Some "startup_power"
  | 11%nat => Some "motor_direction"
  | 15%nat => Some "programming_by_tx"
  | 21%nat => Some "commutation_timing"
  | 25%nat => Some "ppm_min_throttle"
  | 26%nat => Some "ppm_max_throttle"
  | 27%nat => Some "beep_strength"
  | 28%nat => Some "beacon_strength"
  | 29%nat => Some "beacon_delay"
  | 31%nat => Some "demag_compensation"
  | 33%nat => Some "ppm_center_throttle"
  | 35%nat => Some "temperature_protection"
  | 36%nat => Some "low_rpm_power_protection"
  | 39%nat => Some "brake_on_stop"
  | 40%nat => Some "led_control"
  | _ => None
  end.

(** A byte of the written image is the re-encoding of the byte that was
    read, unless it holds a field that was supplied as a parameter. *)
Definition byte_preserved (params : dict) (data image : bytes) (offset : nat) : Prop :=
  match config_field_at offset with
  | Some name =>
      In name (map fst params) \/ nth offset image x00 = reencoded_byte data offset
  | None => nth offset image x00 = reencoded_byte data offset
  end.

(** A simulated rig of two instances, in verbose mode or not, and the call
    [write_config(1, unknown_field=1)]. *)
Definition rig2 : list bytes := [sample_image; sample_image_flag2].
Definition unknown_field_params : dict := [("unknown_field", VInt 1)].

(** ** Exchanges with the device *)

(** What a device puts in a response: the opcode and the address it echoes
    or not, a payload and an ack code. *)
Record reply : Type := mkReply {
  reply_opcode : byte;
  reply_hi : byte;
  reply_lo : byte;
  reply_payload : bytes;
  reply_ack : byte
}.

(** The response frame that carries it: start byte 0x2E, opcode, address,
    payload with its length, ack code and the CRC16 of all that. *)
Definition response_body (r : reply) : bytes :=
  [x2e; reply_opcode r; reply_hi r; reply_lo r;
   to_byte (Z.of_nat (List.length (reply_payload r)))]
  ++ reply_payload r ++ [reply_ack r].

Definition device_response (r : reply) : bytes :=
  let crc := BLHeliProtocol.CRC16_XMODEM (response_body r) in
  response_body r ++ [to_byte (crc / 256); to_byte (crc mod 256)].

(** What such a frame decodes to. *)
Definition response_fields (r : reply) : dict :=
  [ ("start_byte", VInt 46);
    ("command",
     construct.Enum_decode BLHeliProtocol.COMMAND_NAMES (Z_of_byte (reply_opcode r)));
    ("address", VInt (256 * Z_of_byte (reply_hi r) + Z_of_byte (reply_lo r)));
    ("payload", VList (map (fun b => VInt (Z_of_byte b)) (reply_payload r)));
    ("ack", construct.Enum_decode BLHeliProtocol.ACK_NAMES (Z_of_byte (reply_ack r)));
    ("crc", VInt (BLHeliProtocol.CRC16_XMODEM (response_body r))) ].

(** One exchange on the serial port: the request is written, then a read of
    [size] bytes returns the response. *)
Definition exchange {Serial : Type}
    (serial_write : bytes -> Serial -> result unit * Serial)
    (serial_read : Z -> Serial -> result bytes * Serial)
    (request : bytes) (size : Z) (response : bytes) (port port' : Serial) : Prop :=
  exists mid,
    serial_write request port = (Ok tt, mid)
    /\ serial_read size mid = (Ok response, port').

(** The two lines an exchange logs in verbose mode. *)
Definition traffic (verbose : bool) (request response : bytes) : list (list value) :=
  if verbose
  then [[VStr "->"; VStr (hex request)]; [VStr "<-"; VStr (hex response)]]
  else [].

(** The interface object once the port has moved on and lines were logged. *)
Definition moved {Serial : Type} (self : BLHeli4WayInterface.self_t Serial)
    (port : Serial) (entries : list (list value))
  : BLHeli4WayInterface.self_t Serial :=
  BLHeli4WayInterface.mkSelf
    (BLHeli4WayInterface.verbose self) (BLHeli4WayInterface.count self)
    port (BLHeli4WayInterface.log_output self ++ entries).

(** The interface type [init_flash] reports for a response: the fourth
    byte of the identification payload decides, 0 (SiLabsC2) and 1
    (SiLabsBLB) being Silabs; a response to another command than
    device_init_flash has no identification payload. *)
Definition interface_type (r : reply) : result string :=
  if Byte.eqb (reply_opcode r) x37 then
    match reply_payload r with
    | _ :: _ :: _ :: mode :: _ =>
        Ok (if (Z_of_byte mode =? 0) || (Z_of_byte mode =? 1)
            then "silabs" else "atmel")
    | _ => Raise (BLHeliDecodingError (PayloadParseFailed StreamError))
    end
  else Raise (AttributeError "mode").

(** ** What read_config returns for an image *)

(** The three dicts [read_config] makes of a configuration image: the
    device information as stripped text, the common configuration and the
    configuration of the instance, each field read at its offset. *)
Definition device_info_of (data : bytes) : dict :=
  [ ("main_revision", VStr (py_strip (str_of_Z (byte_at data 0))));
    ("sub_revision", VStr (py_strip (str_of_Z (byte_at data 1))));
    ("mode", VStr (py_strip (py_str (construct.Enum_decode BlHeliSilabs.MODE
                                       (256 * byte_at data 13 + byte_at data 14)))));
    ("layout", VStr (py_strip (string_of_list_byte (text_bytes data 64))));
    ("mcu", VStr (py_strip (string_of_list_byte (text_bytes data 80))));
    ("name", VStr (py_strip (string_of_list_byte (text_bytes data 96)))) ].

Definition common_config_of (data : bytes) : dict :=
  [ ("programming_by_tx", flag_at data 15);
    ("commutation_timing",
     construct.Enum_decode BlHeliSilabs.COMMUTATION_TIMING (byte_at data 21));
    ("beep_strength", VInt (byte_at data 27));
    ("beacon_strength", VInt (byte_at data 28));
    ("beacon_delay", construct.Enum_decode BlHeliSilabs.BEACON_DELAY (byte_at data 29));
    ("demag_compensation",
     construct.Enum_decode BlHeliSilabs.DEMAG_COMPENSATION (byte_at data 31));
    ("temperature_protection",
     construct.Enum_decode BlHeliSilabs.TEMPERATURE_PROTECTION (byte_at data 35));
    ("low_rpm_power_protection", flag_at data 36);
    ("brake_on_stop", flag_at data 39);
    ("led_control", flag_at data 40);
    ("startup_power", construct.Enum_decode BlHeliSilabs.STARTUP_POWER (byte_at data 9)) ].

Definition esc_config_of (data : bytes) : dict :=
  [ ("motor_direction",
     construct.Enum_decode BlHeliSilabs.MOTOR_DIRECTION (byte_at data 11));
    ("ppm_min_throttle", VInt (byte_at data 25));
    ("ppm_max_throttle", VInt (byte_at data 26));
    ("ppm_center_throttle", VInt (byte_at data 33)) ].

(** The log lines of a sequence of exchanges. *)
Definition traffic_log (verbose : bool) (exchanges : list (bytes * bytes))
  : list (list value) :=
  flat_map (fun x => traffic verbose (fst x) (snd x)) exchanges.

(** ** One field of the layout *)

(** A field of a layout that has the name [key]. *)
Definition named (key : string) (f : construct.field) : bool :=
  match fst f with
  | Some name => String.eqb name key
  | None => false
  end.

(** The construct the layout declares for a field. *)
Definition layout_field (key : string) : option construct.Construct :=
  option_map snd (find (named key) BlHeliSilabs.EEPROM_FIELDS).

(** The offset of a configuration field in the image. *)
Definition offset_of (key : string) : option nat :=
  find (fun offset =>
          match config_field_at offset with
          | Some name => String.eqb name key
          | None => false
          end) (seq 0 112).

(** The fields of a layout before and after the first one named [key]. *)
Fixpoint fields_before (key : string) (fields : list construct.field)
  : list construct.field :=
  match fields with
  | [] => []
  | f :: fields' => if named key f then [] else f :: fields_before key fields'
  end.

Fixpoint fields_after (key : string) (fields : list construct.field)
  : list construct.field :=
  match fields with
  | [] => []
  | f :: fields' => if named key f then fields' else fields_after key fields'
  end.

(** A construct whose encodings all have its size. *)
Definition builds_sized (c : construct.Construct) : Prop :=
  forall v bs n,
    construct._build c v = Ok bs -> construct._sizeof c = Some n ->
    List.length bs = n.

(** ** The command line *)

(** The text holds the character. *)
Fixpoint mentions (c : ascii) (s : string) : bool :=
  match s with
  | EmptyString => false
  | String c' rest => Ascii.eqb c' c || mentions c rest
  end.

(** One step of the flattening of the parsed options. *)
Definition set_pair (params : dict) (kv : string * string) : dict :=
  dict_set params (fst kv) (VStr (snd kv)).

(** The value the command line gives a key last. *)
Definition last_value (key : string) (pairs : list (string * string))
  : option string :=
  option_map snd (find (fun kv => String.eqb (fst kv) key) (rev pairs)).

(** The configuration fields the layout stores as a plain byte. *)
Definition numeric_fields : list string :=
  [ "ppm_min_throttle"; "ppm_max_throttle"; "beep_strength"; "beacon_strength";
    "ppm_center_throttle" ].

(** ** A scripted device

    It takes whatever is written and answers each read with the next frame
    of its script, cut to the size that was asked for. *)
Definition script_write (frame : bytes) (script : list bytes)
  : result unit * list bytes :=
  (Ok tt, script).

Definition script_read (size : Z) (script : list bytes)
  : result bytes * list bytes :=
  match script with
  | [] => (Ok [], [])
  | frame :: rest => (Ok (firstn (Z.to_nat size) frame), rest)
  end.

(** Replies for the scripted device: an identification as SiLabsBLB, a
    block of memory, the interface name, and a bare reply with a given
    opcode and ack code. *)
Definition reply_identification : reply :=
  mkReply x37 x00 x00 [xf3; x30; xaa; x01] x00.

Definition reply_memory (data : bytes) : reply := mkReply x3a x1a x00 data x00.

Definition reply_name : reply :=
  mkReply x32 x00 x00 (x00 :: list_byte_of_string "m4wFCIntf") x00.

Definition reply_bare (opcode ack : byte) : reply :=
  mkReply opcode x00 x00 [x00] ack.

(** An interface object in front of a device. *)
Definition interface_on {Serial : Type} (verbose : bool) (count : Z) (port : Serial)
  : BLHeli4WayInterface.self_t Serial :=
  BLHeli4WayInterface.mkSelf verbose count port [].

(** The frames a device answers [read_config] and [write_config] with, for
    an instance that holds the sample image. *)
Definition read_script : list bytes :=
  [ device_response reply_identification;
    device_response (reply_memory sample_image);
    device_response (reply_bare x35 x00) ].

Definition write_script (erase_ack write_ack : byte) : list bytes :=
  [ device_response reply_identification;
    device_response (reply_memory sample_image);
    device_response (reply_bare x39 erase_ack);
    device_response (reply_bare x3b write_ack);
    device_response (reply_bare x35 x00) ].

(** ** The defect of an input that is not a response frame *)

(** The input ends before the layout does: it has fewer than five bytes,
    or fewer bytes after the length byte than the payload, the ack code and
    the CRC take. *)
Definition too_short (frame : bytes) : bool :=
  match frame with
  | _ :: _ :: _ :: _ :: len :: rest =>
      (List.length rest <? Z.to_nat (Z_of_byte len) + 3)%nat
  | _ => true
  end.

(** What [parse] reports: the empty input, then the start byte (refused by
    the layout itself), then the length, then the CRC. *)
Definition defect (frame : bytes) : decoding_failure :=
  match frame with
  | [] => NullLengthFrame
  | start :: _ =>
      if negb (Z_of_byte start =? 46) then ParseFailed ConstError
      else if too_short frame then ParseFailed StreamError
      else InvalidCrc
  end.

(** ** What write_config does in front of a device that answers

    The call [write_config(esc, ...)] with the parameters [params], once the
    device has identified the instance ([r1]), handed over the image
    ([r2], whose payload is the image read) and answered the erase of page
    13 ([r3], which leaves the port in [port3]).

    The names that are not recognized have no part in the image that is
    encoded.  When no supplied name is recognized, the image encoded is the
    image read: its encoding succeeds and decodes to the image read again.
    Whatever the parameters, when the patched image can be encoded its
    encoding has 112 bytes, every byte that does not hold a supplied field
    is the re-encoding of the byte read, and the call goes on: the
    device_write frame that carries the encoding at 0x1A00 is written to the
    port, then the device_reset frame, and once both are answered the call
    returns normally; the log holds the traffic of the two reads, one
    "Invalid parameter" line for each name that is not recognized, in
    order, and the traffic of the erase, the write and the reset.  When the
    patched image cannot be encoded, the call raises the error of the
    encoding after the erase: nothing more is written to the port. *)
Definition write_config_outcomes {Serial : Type}
    (serial_write : bytes -> Serial -> result unit * Serial)
    (serial_read : Z -> Serial -> result bytes * Serial)
    (esc : Z) (params : dict) (self : BLHeli4WayInterface.self_t Serial)
    (r1 r2 r3 : reply) (port3 : Serial) : Prop :=
  let data := reply_payload r2 in
  let patched_image := patched (image_fields data) params in
  let read_log :=
    traffic_log (BLHeli4WayInterface.verbose self)
      [ (request_frame 55 0 [esc], device_response r1);
        (request_frame 58 6656 [112], device_response r2) ] in
  let warnings := map invalid_parameter (unknown_names params) in
  patched_image
  = patched (image_fields data) (filter (fun kv => recognized (fst kv)) params)
  /\ ((forall key, In key (map fst params) -> recognized key = false) ->
      construct.build BlHeliSilabs.EEPROM_LAYOUT (VContainer patched_image)
      = Ok (reencoded data)
      /\ construct.parse BlHeliSilabs.EEPROM_LAYOUT (reencoded data)
         = Ok (VContainer (image_fields data)))
  /\ (forall image,
        construct.build BlHeliSilabs.EEPROM_LAYOUT (VContainer patched_image) = Ok image ->
        (List.length image = 112%nat
         /\ forall offset, (offset < 112)%nat -> byte_preserved params data image offset)
        /\ forall (r4 r5 : reply) (port4 port5 : Serial),
             (List.length (reply_payload r4) <= 255)%nat ->
             (List.length (reply_payload r5) <= 255)%nat ->
             exchange serial_write serial_read
               (request_frame 59 6656 (map Z_of_byte image)) 64
               (device_response r4) port3 port4 ->
             exchange serial_write serial_read (request_frame 53 0 [esc]) 64
               (device_response r5) port4 port5 ->
             BlHeliSilabs.call_write_config Serial serial_write serial_read esc params self
             = (Ok tt,
                moved self port5
                  (read_log ++ warnings
                   ++ traffic_log (BLHeli4WayInterface.verbose self)
                        [ (request_frame 57 0 [13], device_response r3);
                          (request_frame 59 6656 (map Z_of_byte image),
                           device_response r4);
                          (request_frame 53 0 [esc], device_response r5) ])))
  /\ (forall e,
        construct.build BlHeliSilabs.EEPROM_LAYOUT (VContainer patched_image) = Raise e ->
        BlHeliSilabs.call_write_config Serial serial_write serial_read esc params self
        = (Raise e,
           moved self port3
             (read_log ++ warnings
              ++ traffic_log (BLHeli4WayInterface.verbose self)
                   [ (request_frame 57 0 [13], device_response r3) ]))).

(* ================================================================== *)
(** * Bytes and integers *)
(* ================================================================== *)

Lemma Z_of_byte_range (b : byte) : 0 <= Z_of_byte b <= 255.
Proof.
  unfold Z_of_byte. pose proof (Byte.to_N_bounded b) as H.
  split; [apply N2Z.is_nonneg|]. change 255 with (Z.of_N 255). now apply N2Z.inj_le.
Qed.

Lemma byte_of_Z_of_byte (b : byte) : byte_of_Z (Z_of_byte b) = Some b.
Proof.
  unfold byte_of_Z. pose proof (Z_of_byte_range b) as [H0 H1].
  apply Z.leb_le in H0, H1. rewrite H0, H1. simpl.
  unfold Z_of_byte. rewrite N2Z.id. apply Byte.of_to_N.
Qed.

Lemma byte_of_Z_inv (z : Z) (b : byte) : byte_of_Z z = Some b -> Z_of_byte b = z.
Proof.
  unfold byte_of_Z, Z_of_byte.
  destruct (0 <=? z) eqn:H0; [|discriminate]. destruct (z <=? 255); [|discriminate].
  simpl. intros H. apply Byte.to_of_N in H. rewrite H.
  apply Z.leb_le in H0. now apply Z2N.id.
Qed.

Lemma byte_of_Z_Some (z : Z) :
  0 <= z <= 255 -> exists b, byte_of_Z z = Some b /\ Z_of_byte b = z.
Proof.
  intros [H0 H1]. destruct (byte_of_Z z) as [b|] eqn:E.
  - exists b. split; [reflexivity|]. now apply byte_of_Z_inv.
  - exfalso. unfold byte_of_Z in E.
    apply Z.leb_le in H0 as H0', H1 as H1'. rewrite H0', H1' in E. simpl in E.
    apply Byte.of_N_None_iff in E. lia.
Qed.

Lemma byte_of_Z_None (z : Z) : byte_of_Z z = None <-> z < 0 \/ 255 < z.
Proof.
  split.
  - intros E. destruct (Z_lt_ge_dec z 0); [now left|].
    destruct (Z_le_gt_dec z 255); [|right; lia].
    destruct (byte_of_Z_Some z) as (b & Hb & _); [lia|congruence].
  - intros H. destruct (byte_of_Z z) as [b|] eqn:E; [|reflexivity].
    apply byte_of_Z_inv in E. pose proof (Z_of_byte_range b). lia.
Qed.

Lemma Z_of_byte_inj (a b : byte) : Z_of_byte a = Z_of_byte b -> a = b.
Proof.
  intros H. pose proof (byte_of_Z_of_byte a) as Ha.
  rewrite H, byte_of_Z_of_byte in Ha. congruence.
Qed.

(* ================================================================== *)
(** * The frame codec on the vectors of the source's self-test *)
(* ================================================================== *)

(** C4: [build('device_erase_all')], with the default address 0 and the
    default payload [0], is the byte string 2f3800000100cdf9, and
    [build('device_read', address=0xaabb, payload=[15])] is
    2f3aaabb010ff446. *)
Theorem build_self_test_vectors :
  option_map (@Ok bytes) (fromhex "2f3800000100cdf9")
    = Some (BLHeliProtocol.build (VStr "device_erase_all")
              BLHeliProtocol.default_address BLHeliProtocol.default_payload)
  /\ option_map (@Ok bytes) (fromhex "2f3aaabb010ff446")
    = Some (BLHeliProtocol.build (VStr "device_read") (VInt 43707 (* 0xaabb *))
              (VList [VInt 15])).
Proof. split; vm_compute; reflexivity. Qed.

(* ================================================================== *)
(** * Parsing a response frame *)
(* ================================================================== *)

Arguments Z_of_byte : simpl never.
Arguments BLHeliProtocol.CRC16_XMODEM : simpl never.
Arguments drop_last2 : simpl never.

Lemma Byte_parse_cons (b : byte) (stream : bytes) :
  construct._parse construct.Byte (b :: stream) = Ok (VInt (Z_of_byte b), stream).
Proof. reflexivity. Qed.

Lemma Byte_parse_nil : construct._parse construct.Byte [] = Raise StreamError.
Proof. reflexivity. Qed.

Lemma Array_parse_Byte (n : nat) (stream : bytes) :
  construct.Array_parse construct.Byte n stream =
    if (List.length stream <? n)%nat then Raise StreamError
    else Ok (map (fun b => VInt (Z_of_byte b)) (firstn n stream), skipn n stream).
Proof.
  revert stream. induction n as [|n IH]; intros stream.
  - reflexivity.
  - destruct stream as [|b stream]; [reflexivity|].
    cbn [construct.Array_parse]. rewrite Byte_parse_cons. cbn [rbind].
    rewrite IH. change (List.length (b :: stream) <? S n)%nat with (List.length stream <? n)%nat.
    destruct (List.length stream <? n)%nat; reflexivity.
Qed.

Lemma Const_Byte_parse (v : Z) (b : byte) (stream : bytes) :
  construct._parse (construct.Const v construct.Byte) (b :: stream) =
    if Z_of_byte b =? v then Ok (VInt (Z_of_byte b), stream) else Raise ConstError.
Proof. reflexivity. Qed.

Lemma Enum_Byte_parse (names : list (string * Z)) (b : byte) (stream : bytes) :
  construct._parse (construct.Enum construct.Byte names) (b :: stream) =
    Ok (construct.Enum_decode names (Z_of_byte b), stream).
Proof. reflexivity. Qed.

Lemma Int16ub_parse_cons (hi lo : byte) (stream : bytes) :
  construct._parse construct.Int16ub (hi :: lo :: stream) =
    Ok (VInt (256 * Z_of_byte hi + Z_of_byte lo), stream).
Proof. reflexivity. Qed.

Lemma Default_parse (c : construct.Construct) (v : Z) (stream : bytes) :
  construct._parse (construct.Default c v) stream = construct._parse c stream.
Proof. reflexivity. Qed.

Lemma PrefixedArray_parse_cons (len : byte) (stream : bytes) :
  construct._parse (construct.PrefixedArray construct.Int8ul construct.Byte)
                   (len :: stream) =
    if (List.length stream <? Z.to_nat (Z_of_byte len))%nat then Raise StreamError
    else Ok (VList (map (fun b => VInt (Z_of_byte b))
                        (firstn (Z.to_nat (Z_of_byte len)) stream)),
             skipn (Z.to_nat (Z_of_byte len)) stream).
Proof.
  cbn [construct._parse construct.PrefixedArray].
  change construct.Int8ul with construct.Byte. rewrite Byte_parse_cons.
  cbn [rbind as_int]. pose proof (Z_of_byte_range len) as [H _].
  apply Z.ltb_ge in H. rewrite H. rewrite Array_parse_Byte.
  destruct (List.length stream <? Z.to_nat (Z_of_byte len))%nat; reflexivity.
Qed.

Lemma short_stream_read (stream : bytes) (n : nat) :
  (List.length stream < n)%nat -> construct.stream_read stream n = Raise StreamError.
Proof.
  intros H. unfold construct.stream_read. apply Nat.ltb_lt in H. now rewrite H.
Qed.

Lemma Enum_parse_nil (c : construct.Construct) (names : list (string * Z)) :
  construct._parse c [] = Raise StreamError ->
  construct._parse (construct.Enum c names) [] = Raise StreamError.
Proof. intros H. cbn [construct._parse construct.Enum]. now rewrite H. Qed.

Lemma Int16ub_parse_short (stream : bytes) :
  (List.length stream < 2)%nat ->
  construct._parse construct.Int16ub stream = Raise StreamError.
Proof.
  intros H. cbn [construct._parse construct.Int16ub].
  now rewrite short_stream_read.
Qed.

Lemma parse_response_frame (frame : bytes) :
  match response_frame frame with
  | Some fields => BLHeliProtocol.parse frame = Ok fields
  | None => raises_decoding_error (BLHeliProtocol.parse frame)
  end.
Proof.
  unfold raises_decoding_error.
  destruct frame as [|start frame]; [cbn; eauto|].
  unfold BLHeliProtocol.parse, construct.parse.
  cbn [List.length Nat.eqb].
  unfold BLHeliProtocol.RESPONSE, BLHeliProtocol.RESPONSE_FIELDS,
    BLHeliProtocol.COMMAND_ENUM, BLHeliProtocol.ACK_ENUM.
  cbn [construct._parse construct.Struct construct.Struct_parse construct.Renamed rbind].
  rewrite Const_Byte_parse. unfold response_frame.
  change BLHeliProtocol.RESPONSE_START_BYTE with 46.
  destruct (Z_of_byte start =? 46) eqn:Hstart; cbn [rbind negb].
  2:{ destruct frame as [|? [|? [|? [|? ?]]]]; cbn [skipn]; eauto.
      destruct (skipn _ _) as [|? [|? [|? ?]]]; eauto. }
  destruct frame as [|command frame].
  { rewrite Enum_parse_nil by reflexivity. cbn [rbind]. eauto. }
  rewrite Enum_Byte_parse. cbn [rbind]. rewrite Default_parse.
  destruct frame as [|hi [|lo frame]];
    [rewrite Int16ub_parse_short by (cbn; lia); cbn [rbind]; eauto ..|].
  rewrite Int16ub_parse_cons. cbn [rbind].
  destruct frame as [|len rest].
  { cbn. eauto. }
  rewrite PrefixedArray_parse_cons.
  set (n := Z.to_nat (Z_of_byte len)).
  destruct (List.length rest <? n)%nat eqn:Hlen.
  { cbn [rbind]. apply Nat.ltb_lt in Hlen.
    rewrite skipn_all2 by lia. eauto. }
  cbn [rbind].
  destruct (skipn n rest) as [|ack tail].
  { rewrite Enum_parse_nil by reflexivity. cbn [rbind]. eauto. }
  rewrite Enum_Byte_parse. cbn [rbind].
  destruct tail as [|crc_hi [|crc_lo tail]];
    [rewrite Int16ub_parse_short by (cbn; lia); cbn [rbind]; eauto ..|].
  rewrite Int16ub_parse_cons. cbn [rbind].
  cbn [dict_set String.eqb Ascii.eqb Bool.eqb BLHeliProtocol.attr dict_get rbind py_eq as_int].
  rewrite Hstart. cbn [negb].
  destruct (_ =? BLHeliProtocol.CRC16_XMODEM _); cbn [negb]; eauto.
Qed.

(** C3, as the code has it: [parse] raises a Decoding error exactly when the
    input is empty, is shorter than the response layout needs (8 bytes and
    the payload length announced by its fifth byte), does not start with
    0x2E, or carries in its CRC field something else than the CRC16/XMODEM
    of the input without its last two bytes; on any other input it returns
    the decoded fields with the raw payload, an opcode or ack code without a
    name being returned as the bare integer.  2E3400000100004263 parses to
    the command interface_exit, and 2E3400000100004264 is refused. *)
Theorem parse_decides_response_frames :
  (forall frame : bytes,
     match response_frame frame with
     | Some fields => BLHeliProtocol.parse frame = Ok fields
     | None => raises_decoding_error (BLHeliProtocol.parse frame)
     end)
  /\ (exists fields,
        BLHeliProtocol.parse (bytes_of_hex "2E3400000100004263") = Ok fields
        /\ option_map py_str (dict_get fields "command") = Some "interface_exit")
  /\ raises_decoding_error (BLHeliProtocol.parse (bytes_of_hex "2E3400000100004264")).
Proof.
  split; [exact parse_response_frame|]. split.
  - eexists. split; vm_compute; reflexivity.
  - exists InvalidCrc. vm_compute. reflexivity.
Qed.

(** Against C3 as the specification words it: a frame whose opcode 0x36 has
    no name, a frame whose ack code 0x01 has no name, and a frame that is one
    byte longer than its layout are all rejected by the specification's
    rule, and all three parse. *)
Lemma parse_accepts_frames_the_rule_rejects :
  (rejected_as_specified (bytes_of_hex "2e360000010000c923") = true
   /\ BLHeliProtocol.parse (bytes_of_hex "2e360000010000c923")
      = Ok [ ("start_byte", VInt 46); ("command", VEnumInteger 54);
             ("address", VInt 0); ("payload", VList [VInt 0]);
             ("ack", VEnumIntegerString "ok" 0); ("crc", VInt 51491) ])
  /\ (rejected_as_specified (bytes_of_hex "2e3400000100015242") = true
      /\ BLHeliProtocol.parse (bytes_of_hex "2e3400000100015242")
         = Ok [ ("start_byte", VInt 46);
                ("command", VEnumIntegerString "interface_exit" 52);
                ("address", VInt 0); ("payload", VList [VInt 0]);
                ("ack", VEnumInteger 1); ("crc", VInt 21058) ])
  /\ (rejected_as_specified (bytes_of_hex "2e34000001100064c700") = true
      /\ BLHeliProtocol.parse (bytes_of_hex "2e34000001100064c700")
         = Ok [ ("start_byte", VInt 46);
                ("command", VEnumIntegerString "interface_exit" 52);
                ("address", VInt 0); ("payload", VList [VInt 16]);
                ("ack", VEnumIntegerString "ok" 0); ("crc", VInt 25799) ]).
Proof. repeat split; vm_compute; reflexivity. Qed.

(* ================================================================== *)
(** * Building a request frame *)
(* ================================================================== *)

Lemma to_byte_spec (z : Z) :
  0 <= z <= 255 -> byte_of_Z z = Some (to_byte z) /\ Z_of_byte (to_byte z) = z.
Proof.
  intros H. destruct (byte_of_Z_Some z H) as (b & Hb & Hz).
  unfold to_byte. rewrite Hb. auto.
Qed.

Lemma to_byte_of_byte (b : byte) : to_byte (Z_of_byte b) = b.
Proof. unfold to_byte. now rewrite byte_of_Z_of_byte. Qed.

Lemma Byte_build_int (z : Z) :
  0 <= z <= 255 -> construct._build construct.Byte (VInt z) = Ok [to_byte z].
Proof.
  intros H. destruct (to_byte_spec z H) as [Hb _].
  cbn [construct._build construct.Byte construct.FormatField_B as_int]. now rewrite Hb.
Qed.

Lemma Int16ub_build_int (z : Z) :
  0 <= z < 65536 ->
  construct._build construct.Int16ub (VInt z) = Ok [to_byte (z / 256); to_byte (z mod 256)].
Proof.
  intros H.
  assert (H1 : 0 <= z / 256 <= 255).
  { split; [apply Z.div_pos; lia|]. apply Z.lt_succ_r, Z.div_lt_upper_bound; lia. }
  assert (H2 : 0 <= z mod 256 <= 255) by (pose proof (Z.mod_pos_bound z 256); lia).
  destruct (to_byte_spec _ H1) as [Hb1 _]. destruct (to_byte_spec _ H2) as [Hb2 _].
  cbn [construct._build construct.Int16ub as_int]. now rewrite Hb1, Hb2.
Qed.

Lemma Array_build_Byte (payload : list Z) :
  Forall is_byte payload ->
  construct.Array_build construct.Byte (map VInt payload) = Ok (map to_byte payload).
Proof.
  induction 1 as [|z payload Hz _ IH]; [reflexivity|].
  cbn [map construct.Array_build]. rewrite Byte_build_int by exact Hz.
  cbn [rbind]. rewrite IH. reflexivity.
Qed.

Lemma PrefixedArray_build_items (obj : value) (payload : list Z) :
  py_iter obj = Some (map VInt payload) ->
  Forall is_byte payload -> (List.length payload <= 255)%nat ->
  construct._build (construct.PrefixedArray construct.Int8ul construct.Byte) obj
  = Ok (to_byte (Z.of_nat (List.length payload)) :: map to_byte payload).
Proof.
  intros Hiter Hp Hlen. cbn [construct._build construct.PrefixedArray]. rewrite Hiter.
  rewrite length_map. change construct.Int8ul with construct.Byte.
  rewrite Byte_build_int by lia. cbn [rbind].
  rewrite Array_build_Byte by exact Hp. reflexivity.
Qed.

Lemma known_command (name : string) (code : Z) :
  In (name, code) BLHeliProtocol.COMMAND_NAMES ->
  construct.encmapping BLHeliProtocol.COMMAND_NAMES name = Some code
  /\ construct.decmapping BLHeliProtocol.COMMAND_NAMES code = Some name
  /\ 0 <= code <= 255.
Proof.
  intros H. cbn in H.
  repeat (destruct H as [H|H]; [inversion H; subst; vm_compute; intuition congruence|]).
  contradiction.
Qed.

Lemma Enum_build_name (names : list (string * Z)) (name : string) (code : Z) :
  construct.encmapping names name = Some code ->
  construct._build (construct.Enum construct.Byte names) (VStr name)
  = construct._build construct.Byte (VInt code).
Proof.
  intros H. cbn [construct._build construct.Enum as_int as_str]. now rewrite H.
Qed.

Lemma CRC16_range (data : bytes) : 0 <= BLHeliProtocol.CRC16_XMODEM data < 65536.
Proof.
  unfold BLHeliProtocol.CRC16_XMODEM, crcmod.mkCrcFun16.
  assert (Hshift : forall poly crc, 0 <= crcmod.shift16 poly crc < 65536).
  { intros poly crc. unfold crcmod.shift16.
    change 65535 with (Z.ones 16).
    destruct (Z.testbit crc 15); rewrite Z.land_ones by lia;
      apply Z.mod_pos_bound; reflexivity. }
  assert (Hfold : forall data crc, 0 <= crc < 65536 ->
            0 <= fold_left (crcmod.update16 (Z.land 69665 65535)) data crc < 65536).
  { clear data. induction data as [|b data IH]; intros crc Hcrc; [exact Hcrc|].
    cbn [fold_left]. apply IH. unfold crcmod.update16. apply Hshift. }
  apply Hfold. lia.
Qed.

Lemma drop_last2_app (body : bytes) (a b : byte) : drop_last2 (body ++ [a; b]) = body.
Proof.
  unfold drop_last2. rewrite length_app. cbn [List.length].
  replace (List.length body + 2 - 2)%nat with (List.length body + 0)%nat by lia.
  rewrite firstn_app_2. cbn [firstn]. apply app_nil_r.
Qed.

Lemma REQUEST_build (command obj : value) (code address : Z) (payload : list Z) (crc : Z) :
  construct._build BLHeliProtocol.COMMAND_ENUM command = Ok [to_byte code] ->
  0 <= address < 65536 ->
  py_iter obj = Some (map VInt payload) ->
  Forall is_byte payload -> (List.length payload <= 255)%nat ->
  0 <= crc < 65536 ->
  construct.build BLHeliProtocol.REQUEST
    (VContainer [("command", command); ("address", VInt address);
                 ("payload", obj); ("crc", VInt crc)])
  = Ok (request_body code address payload
          ++ [to_byte (crc / 256); to_byte (crc mod 256)]).
Proof.
  intros Hcommand Haddr Hiter Hp Hlen Hcrc.
  unfold construct.build, BLHeliProtocol.REQUEST, BLHeliProtocol.REQUEST_FIELDS.
  cbn [construct._build construct.Struct construct.Struct_build construct.Renamed
       construct.Struct_subobj dict_get String.eqb Ascii.eqb Bool.eqb rbind].
  change (construct.flagbuildnone (construct.Const _ _)) with true. cbn [rbind].
  change (construct._build (construct.Const BLHeliProtocol.REQUEST_START_BYTE construct.Byte) VNone)
    with (Ok [x2f]).
  rewrite Hcommand.
  change (construct._build (construct.Default construct.Int16ub 0) (VInt address))
    with (construct._build construct.Int16ub (VInt address)).
  rewrite !Int16ub_build_int by assumption.
  rewrite (PrefixedArray_build_items obj payload) by assumption.
  cbn [rbind app]. reflexivity.
Qed.

Lemma build_items_request_frame (command obj : value) (code address : Z)
    (payload : list Z) :
  construct._build BLHeliProtocol.COMMAND_ENUM command = Ok [to_byte code] ->
  0 <= address < 65536 ->
  py_iter obj = Some (map VInt payload) ->
  Forall is_byte payload -> (List.length payload <= 255)%nat ->
  BLHeliProtocol.build command (VInt address) obj
  = Ok (request_frame code address payload).
Proof.
  intros Hcommand Haddr Hiter Hp Hlen. unfold BLHeliProtocol.build.
  rewrite (REQUEST_build command obj code address payload) by (assumption || lia).
  cbn [rbind]. rewrite drop_last2_app.
  rewrite (REQUEST_build command obj code address payload)
    by (assumption || apply CRC16_range).
  reflexivity.
Qed.

Lemma build_gives_request_frame (command : value) (code address : Z) (payload : list Z) :
  construct._build BLHeliProtocol.COMMAND_ENUM command = Ok [to_byte code] ->
  0 <= address < 65536 ->
  Forall is_byte payload -> (List.length payload <= 255)%nat ->
  BLHeliProtocol.build command (VInt address) (VList (map VInt payload))
  = Ok (request_frame code address payload).
Proof.
  intros Hcommand Haddr. now apply build_items_request_frame.
Qed.

Lemma COMMAND_ENUM_build_name (name : string) (code : Z) :
  In (name, code) BLHeliProtocol.COMMAND_NAMES ->
  construct._build BLHeliProtocol.COMMAND_ENUM (VStr name) = Ok [to_byte code].
Proof.
  intros Hname. destruct (known_command name code Hname) as (Henc & _ & Hcode).
  unfold BLHeliProtocol.COMMAND_ENUM.
  now rewrite (Enum_build_name _ _ _ Henc), Byte_build_int.
Qed.

Lemma COMMAND_ENUM_build_int (code : Z) :
  0 <= code <= 255 ->
  construct._build BLHeliProtocol.COMMAND_ENUM (VInt code) = Ok [to_byte code].
Proof. intros Hcode. now apply Byte_build_int. Qed.

Lemma build_request_frame (name : string) (code address : Z) (payload : list Z) :
  In (name, code) BLHeliProtocol.COMMAND_NAMES ->
  0 <= address < 65536 ->
  Forall is_byte payload -> (List.length payload <= 255)%nat ->
  BLHeliProtocol.build (VStr name) (VInt address) (VList (map VInt payload))
  = Ok (request_frame code address payload).
Proof.
  intros Hname. apply build_gives_request_frame.
  now apply COMMAND_ENUM_build_name.
Qed.

Lemma map_Z_of_to_byte (payload : list Z) :
  Forall is_byte payload ->
  map (fun b => VInt (Z_of_byte b)) (map to_byte payload) = map VInt payload.
Proof.
  induction 1 as [|z payload Hz _ IH]; [reflexivity|].
  cbn [map]. rewrite IH. now destruct (to_byte_spec z Hz) as [_ ->].
Qed.

Lemma REQUEST_parse_frame (name : string) (code address : Z) (payload : list Z) :
  In (name, code) BLHeliProtocol.COMMAND_NAMES ->
  0 <= address < 65536 ->
  Forall is_byte payload -> (List.length payload <= 255)%nat ->
  construct.parse BLHeliProtocol.REQUEST (request_frame code address payload)
  = Ok (VContainer
          [ ("start_byte", VInt 47);
            ("command", VEnumIntegerString name code);
            ("address", VInt address);
            ("payload", VList (map VInt payload));
            ("crc", VInt (BLHeliProtocol.CRC16_XMODEM
                            (drop_last2 (request_frame code address payload)))) ]).
Proof.
  intros Hname Haddr Hp Hlen.
  destruct (known_command name code Hname) as (_ & Hdec & Hcode).
  unfold request_frame. rewrite drop_last2_app.
  set (crc := BLHeliProtocol.CRC16_XMODEM _).
  assert (Hcrc : 0 <= crc < 65536) by apply CRC16_range.
  clearbody crc. unfold request_body, construct.parse.
  unfold BLHeliProtocol.REQUEST, BLHeliProtocol.REQUEST_FIELDS, BLHeliProtocol.COMMAND_ENUM.
  cbn [construct._parse construct.Struct construct.Struct_parse construct.Renamed rbind app].
  rewrite Const_Byte_parse. change (Z_of_byte x2f =? BLHeliProtocol.REQUEST_START_BYTE) with true.
  cbn [rbind]. rewrite Enum_Byte_parse. cbn [rbind].
  rewrite Default_parse, Int16ub_parse_cons. cbn [rbind].
  rewrite PrefixedArray_parse_cons.
  assert (H1 : 0 <= address / 256 <= 255).
  { split; [apply Z.div_pos; lia|]. apply Z.lt_succ_r, Z.div_lt_upper_bound; lia. }
  assert (H2 : 0 <= address mod 256 <= 255) by (pose proof (Z.mod_pos_bound address 256); lia).
  assert (H3 : 0 <= crc / 256 <= 255).
  { split; [apply Z.div_pos; lia|]. apply Z.lt_succ_r, Z.div_lt_upper_bound; lia. }
  assert (H4 : 0 <= crc mod 256 <= 255) by (pose proof (Z.mod_pos_bound crc 256); lia).
  destruct (to_byte_spec _ Hcode) as [_ ->].
  destruct (to_byte_spec _ H1) as [_ ->]. destruct (to_byte_spec _ H2) as [_ ->].
  destruct (to_byte_spec (Z.of_nat (List.length payload))) as [_ ->]; [lia|].
  rewrite Nat2Z.id.
  rewrite length_app, length_map.
  replace (List.length payload + List.length [to_byte (crc / 256); to_byte (crc mod 256)]
           <? List.length payload)%nat with false
    by (symmetry; apply Nat.ltb_ge; lia).
  rewrite firstn_app, skipn_app, !length_map, Nat.sub_diag.
  rewrite firstn_all2 by (rewrite length_map; lia).
  rewrite skipn_all2 by (rewrite length_map; lia).
  cbn [firstn skipn app rbind]. rewrite app_nil_r.
  rewrite Int16ub_parse_cons. cbn [rbind].
  destruct (to_byte_spec _ H3) as [_ ->]. destruct (to_byte_spec _ H4) as [_ ->].
  rewrite map_Z_of_to_byte by exact Hp.
  unfold construct.Enum_decode. rewrite Hdec.
  replace (256 * (address / 256) + address mod 256) with address
    by (rewrite (Z.div_mod address 256) at 1; lia).
  replace (256 * (crc / 256) + crc mod 256) with crc
    by (rewrite (Z.div_mod crc 256) at 1; lia).
  reflexivity.
Qed.

Lemma parse_rejects_request_frame (code address : Z) (payload : list Z) :
  BLHeliProtocol.parse (request_frame code address payload)
  = Raise (BLHeliDecodingError (ParseFailed ConstError)).
Proof. reflexivity. Qed.

(** C1, as the code has it: for every known command name, every address in
    [0, 65536) and every payload of at most 255 byte values, [build] returns
    the request frame [0x2F | opcode | address | len | payload | crc]; read
    back with the REQUEST layout that frame gives the command, the address
    and the payload that were passed, with the start marker 0x2F and the
    CRC16 of the bytes before the CRC field; [parse], which reads response
    frames only, refuses it with a Decoding error. *)
Theorem build_round_trips_through_REQUEST
    (name : string) (code address : Z) (payload : list Z) :
  In (name, code) BLHeliProtocol.COMMAND_NAMES ->
  0 <= address < 65536 ->
  Forall is_byte payload -> (List.length payload <= 255)%nat ->
  exists frame,
    BLHeliProtocol.build (VStr name) (VInt address) (VList (map VInt payload)) = Ok frame
    /\ frame = request_frame code address payload
    /\ construct.parse BLHeliProtocol.REQUEST frame
       = Ok (VContainer
               [ ("start_byte", VInt 47);
                 ("command", VEnumIntegerString name code);
                 ("address", VInt address);
                 ("payload", VList (map VInt payload));
                 ("crc", VInt (BLHeliProtocol.CRC16_XMODEM (drop_last2 frame))) ])
    /\ BLHeliProtocol.parse frame = Raise (BLHeliDecodingError (ParseFailed ConstError)).
Proof.
  intros Hname Haddr Hp Hlen. exists (request_frame code address payload).
  split; [now apply build_request_frame|]. split; [reflexivity|].
  split; [now apply REQUEST_parse_frame|]. apply parse_rejects_request_frame.
Qed.

Lemma build_round_trips_through_REQUEST_witness :
  (In ("device_read", 58) BLHeliProtocol.COMMAND_NAMES
   /\ 0 <= 43707 < 65536 /\ Forall is_byte [15] /\ (List.length [15] <= 255)%nat)
  /\ exists frame,
       BLHeliProtocol.build (VStr "device_read") (VInt 43707) (VList (map VInt [15]))
         = Ok frame
       /\ frame = request_frame 58 43707 [15]
       /\ construct.parse BLHeliProtocol.REQUEST frame
          = Ok (VContainer
                  [ ("start_byte", VInt 47);
                    ("command", VEnumIntegerString "device_read" 58);
                    ("address", VInt 43707);
                    ("payload", VList (map VInt [15]));
                    ("crc", VInt (BLHeliProtocol.CRC16_XMODEM (drop_last2 frame))) ])
       /\ BLHeliProtocol.parse frame
          = Raise (BLHeliDecodingError (ParseFailed ConstError)).
Proof.
  assert (H1 : In ("device_read", 58) BLHeliProtocol.COMMAND_NAMES)
    by (cbn; intuition).
  assert (H2 : 0 <= 43707 < 65536) by lia.
  assert (H3 : Forall is_byte [15]) by (repeat constructor; unfold is_byte; lia).
  assert (H4 : (List.length [15%Z] <= 255)%nat) by (cbn; lia).
  split; [auto|].
  exact (build_round_trips_through_REQUEST "device_read" 58 43707 [15] H1 H2 H3 H4).
Defined.

(** Against C1 as the specification words it: the frame [build] makes for
    device_erase_all, address 0, payload [0] is refused by [parse]. *)
Lemma parse_refuses_what_build_makes :
  BLHeliProtocol.build (VStr "device_erase_all") (VInt 0) (VList [VInt 0])
    = Ok (bytes_of_hex "2f3800000100cdf9")
  /\ BLHeliProtocol.parse (bytes_of_hex "2f3800000100cdf9")
     = Raise (BLHeliDecodingError (ParseFailed ConstError)).
Proof. split; vm_compute; reflexivity. Qed.

(* ================================================================== *)
(** * What [build] refuses *)
(* ================================================================== *)

Lemma encmapping_unknown (names : list (string * Z)) (name : string) :
  existsb (fun kv => String.eqb (fst kv) name) names = false ->
  construct.encmapping names name = None.
Proof.
  intros H. unfold construct.encmapping.
  destruct (find _ (rev names)) as [kv|] eqn:E; [|reflexivity].
  apply find_some in E as [Hin Heq]. apply in_rev in Hin.
  assert (existsb (fun kv => String.eqb (fst kv) name) names = true)
    by (apply existsb_exists; eauto).
  congruence.
Qed.

Lemma build_bad_command (command address payload : value) (e : exn) :
  construct._build BLHeliProtocol.COMMAND_ENUM command = Raise e ->
  BLHeliProtocol.build command address payload = Raise (BLHeliEncodingError e).
Proof.
  intros E.
  unfold BLHeliProtocol.build, construct.build, BLHeliProtocol.REQUEST,
    BLHeliProtocol.REQUEST_FIELDS.
  cbn [construct._build construct.Struct construct.Struct_build construct.Renamed
       construct.Struct_subobj dict_get String.eqb Ascii.eqb Bool.eqb rbind].
  change (construct.flagbuildnone (construct.Const _ _)) with true. cbn [rbind].
  change (construct._build (construct.Const BLHeliProtocol.REQUEST_START_BYTE construct.Byte) VNone)
    with (Ok [x2f]).
  cbn [rbind]. rewrite E. reflexivity.
Qed.

Lemma COMMAND_ENUM_refuses (command : value) :
  match as_int command with
  | Some code => code < 0 \/ 255 < code
  | None => known_opcode_name command = false
  end ->
  exists e, construct._build BLHeliProtocol.COMMAND_ENUM command = Raise e.
Proof.
  unfold BLHeliProtocol.COMMAND_ENUM, known_opcode_name.
  cbn [construct._build construct.Enum].
  destruct (as_int command) as [code|] eqn:Eint.
  - intros H. apply byte_of_Z_None in H.
    cbn [construct._build construct.Byte construct.FormatField_B].
    rewrite Eint, H. eauto.
  - destruct command; try discriminate Eint; cbn [as_str]; intros H; eauto;
      apply encmapping_unknown in H; rewrite H; eauto.
Qed.

Lemma build_long_payload (command address payload : value) (items : list value) :
  py_iter payload = Some items -> (255 < List.length items)%nat ->
  raises_encoding_error (BLHeliProtocol.build command address payload).
Proof.
  intros Hiter Hlen.
  assert (E : construct._build (construct.PrefixedArray construct.Int8ul construct.Byte)
                payload = Raise FormatFieldError).
  { cbn [construct._build construct.PrefixedArray]. rewrite Hiter.
    change construct.Int8ul with construct.Byte.
    cbn [construct._build construct.Byte construct.FormatField_B as_int].
    destruct (byte_of_Z (Z.of_nat (List.length items))) as [b|] eqn:Eb; [|reflexivity].
    apply byte_of_Z_inv in Eb. pose proof (Z_of_byte_range b). lia. }
  unfold raises_encoding_error, BLHeliProtocol.build, construct.build, BLHeliProtocol.REQUEST,
    BLHeliProtocol.REQUEST_FIELDS.
  cbn [construct._build construct.Struct construct.Struct_build construct.Renamed
       construct.Struct_subobj dict_get String.eqb Ascii.eqb Bool.eqb rbind].
  change (construct.flagbuildnone (construct.Const _ _)) with true. cbn [rbind].
  change (construct._build (construct.Const BLHeliProtocol.REQUEST_START_BYTE construct.Byte) VNone)
    with (Ok [x2f]).
  cbn [rbind]. rewrite E.
  destruct (construct._build BLHeliProtocol.COMMAND_ENUM command); cbn [rbind]; eauto.
  destruct (construct._build (construct.Default construct.Int16ub 0) address);
    cbn [rbind]; eauto.
Qed.

(** C9, as the code has it: [build] raises an Encoding error whenever the
    command is neither an integer nor one of the known opcode names, or is an
    integer outside 0..255, and whenever the payload holds more than 255
    items; an integer command in 0..255 is written as the opcode byte as it
    is, also when no command has that opcode.  [build] is a function of its
    three arguments. *)
Theorem build_refuses_and_is_deterministic :
  (forall command address payload,
     match as_int command with
     | Some code => code < 0 \/ 255 < code
     | None => known_opcode_name command = false
     end ->
     raises_encoding_error (BLHeliProtocol.build command address payload))
  /\ (forall command address payload items,
        py_iter payload = Some items -> (255 < List.length items)%nat ->
        raises_encoding_error (BLHeliProtocol.build command address payload))
  /\ (forall code address payload,
        0 <= code <= 255 -> 0 <= address < 65536 ->
        Forall is_byte payload -> (List.length payload <= 255)%nat ->
        BLHeliProtocol.build (VInt code) (VInt address) (VList (map VInt payload))
        = Ok (request_frame code address payload))
  /\ (forall command address payload r1 r2,
        BLHeliProtocol.build command address payload = r1 ->
        BLHeliProtocol.build command address payload = r2 -> r1 = r2).
Proof.
  split; [|split; [|split]].
  - intros command address payload H.
    destruct (COMMAND_ENUM_refuses command H) as [e E].
    exists e. now apply build_bad_command.
  - exact build_long_payload.
  - intros code address payload Hcode. apply build_gives_request_frame.
    now apply COMMAND_ENUM_build_int.
  - intros. congruence.
Qed.

Lemma build_refuses_and_is_deterministic_witness :
  raises_encoding_error
    (BLHeliProtocol.build (VStr "device_explode") (VInt 0) (VList [VInt 0]))
  /\ raises_encoding_error
       (BLHeliProtocol.build (VInt 256) (VInt 0) (VList [VInt 0]))
  /\ raises_encoding_error
       (BLHeliProtocol.build (VStr "device_write") (VInt 0)
          (VList (repeat (VInt 0) 256)))
  /\ BLHeliProtocol.build (VInt 54) (VInt 0) (VList (map VInt [0]))
     = Ok (request_frame 54 0 [0]).
Proof.
  destruct build_refuses_and_is_deterministic as (Hcommand & Hpayload & Hint & _).
  split; [|split; [|split]].
  - apply Hcommand. reflexivity.
  - apply Hcommand. cbn. right. lia.
  - apply (Hpayload _ _ _ (repeat (VInt 0) 256)); [reflexivity|].
    rewrite repeat_length. lia.
  - apply Hint; [lia | lia | repeat constructor; unfold is_byte; lia | cbn; lia].
Defined.

(** Against C9 as the specification words it: the integer 0x36 is not one of
    the known opcode names (it is not even the opcode of one), and [build]
    makes a frame of it. *)
Lemma build_accepts_a_nameless_opcode :
  known_opcode_name (VInt 54) = false
  /\ has_name BLHeliProtocol.COMMAND_NAMES x36 = false
  /\ BLHeliProtocol.build (VInt 54) (VInt 0) (VList [VInt 0])
     = Ok (bytes_of_hex "2f36000001000251").
Proof. repeat split; vm_compute; reflexivity. Qed.

(* ================================================================== *)
(** * Payloads *)
(* ================================================================== *)

Lemma bytes_of_raw_ints (raw : bytes) :
  BLHeliProtocol.py_bytes (raw_ints raw) = Ok raw.
Proof.
  unfold raw_ints. cbn [BLHeliProtocol.py_bytes].
  induction raw as [|b raw IH]; [reflexivity|].
  cbn [map BLHeliProtocol.bytes_of_ints as_int]. rewrite byte_of_Z_of_byte, IH.
  reflexivity.
Qed.

Lemma parse_payload_dispatch (frame : dict) (start_byte command : value) (raw : bytes) :
  dict_get frame "start_byte" = Some start_byte ->
  dict_get frame "command" = Some command ->
  dict_get frame "payload" = Some (raw_ints raw) ->
  match command with VList _ | VContainer _ => False | _ => True end ->
  match registered_shape (payload_table start_byte) command with
  | None => BLHeliProtocol.parse_payload frame = Ok (VBytes raw)
  | Some shape =>
      match construct._parse shape raw with
      | Ok (v, _) => BLHeliProtocol.parse_payload frame = Ok v
      | Raise e =>
          BLHeliProtocol.parse_payload frame
          = Raise (BLHeliDecodingError (PayloadParseFailed e))
      end
  end.
Proof.
  intros Hstart Hcommand Hpayload Hhash.
  unfold BLHeliProtocol.parse_payload, BLHeliProtocol.attr.
  rewrite Hpayload, Hstart, Hcommand. cbn [rbind]. rewrite bytes_of_raw_ints. cbn [rbind].
  unfold registered_shape, payload_table, BLHeliProtocol.payload_struct.
  change BLHeliProtocol.REQUEST_START_BYTE with 47.
  set (table := if py_eq start_byte (VInt 47) then _ else _).
  assert (E : match command with
              | VList _ | VContainer _ => Raise TypeError
              | _ => match as_str command with
                     | Some name =>
                         Ok (option_map snd
                               (find (fun kv : string * construct.Construct =>
                                        String.eqb (fst kv) name) table))
                     | None => Ok None
                     end
              end
              = Ok (match as_str command with
                    | Some name =>
                        option_map snd
                          (find (fun kv : string * construct.Construct =>
                                   String.eqb (fst kv) name) table)
                    | None => None
                    end)).
  { destruct command; try contradiction; cbn [as_str]; reflexivity. }
  rewrite E. cbn [rbind].
  destruct (match as_str command with Some _ => _ | None => None end) as [shape|];
    [|reflexivity].
  unfold construct.parse. destruct (construct._parse shape raw) as [[v rest]|e];
    reflexivity.
Qed.

Lemma one_byte_shape (field : string) (raw : bytes) :
  construct._parse (construct.Struct [field // construct.Int8ul]) raw =
    match raw with
    | [] => Raise StreamError
    | b :: rest => Ok (VContainer [(field, VInt (Z_of_byte b))], rest)
    end.
Proof. destruct raw; reflexivity. Qed.

Lemma identification_shape (raw : bytes) :
  match construct._parse
          (construct.Struct
             [ "HiSign" // construct.Byte; "LoSign" // construct.Byte;
               "BootMsg" // construct.Byte;
               "mode" // construct.Enum construct.Byte BLHeliProtocol.MODE_NAMES ]) raw
  with
  | Ok (v, _) => identification raw = Ok v /\ (4 <= List.length raw)%nat
  | Raise e => e = StreamError /\ (List.length raw < 4)%nat
             /\ identification raw = Raise (BLHeliDecodingError (PayloadParseFailed e))
  end.
Proof.
  destruct raw as [|hi [|lo [|boot [|mode raw]]]]; cbn; repeat split; lia.
Qed.

Lemma registered_shapes_read_what_they_need (name : string) (shape : construct.Construct)
    (raw : bytes) :
  In (name, shape) (BLHeliProtocol.REQUEST_PAYLOAD ++ BLHeliProtocol.RESPONSE_PAYLOAD) ->
  if (List.length raw <? shape_needs name raw)%nat
  then construct._parse shape raw = Raise StreamError
  else exists v rest, construct._parse shape raw = Ok (v, rest).
Proof.
  intros Hin. cbn in Hin.
  repeat (destruct Hin as [Hin|Hin];
          [inversion Hin; subst name shape; clear Hin|]); try contradiction;
    cbn [shape_needs String.eqb Ascii.eqb Bool.eqb orb].
  all: try (rewrite one_byte_shape; destruct raw; cbn; eauto; fail).
  all: try (destruct raw as [|count raw]; [reflexivity|];
            rewrite PrefixedArray_parse_cons;
            change (List.length (count :: raw) <? 1 + Z.to_nat (Z_of_byte count))%nat
              with (List.length raw <? Z.to_nat (Z_of_byte count))%nat;
            destruct (List.length raw <? Z.to_nat (Z_of_byte count))%nat; eauto; fail).
  pose proof (identification_shape raw) as H.
  destruct (construct._parse _ raw) as [[v rest]|e].
  - destruct H as [_ H]. apply Nat.ltb_ge in H. rewrite H. eauto.
  - destruct H as (-> & H & _). apply Nat.ltb_lt in H. now rewrite H.
Qed.

Lemma parse_payload_of_parsed (frame : bytes) (fields : dict) :
  BLHeliProtocol.parse frame = Ok fields ->
  exists command raw,
    dict_get fields "command" = Some command
    /\ dict_get fields "payload" = Some (raw_ints raw)
    /\ BLHeliProtocol.parse_payload fields
       = if py_eq command (VStr "device_init_flash")
         then identification raw else Ok (VBytes raw).
Proof.
  intros Hparse. pose proof (parse_response_frame frame) as H.
  destruct (response_frame frame) as [fields'|] eqn:E.
  2:{ destruct H as [why H]. congruence. }
  assert (fields' = fields) by congruence. subst fields'. clear H Hparse.
  unfold response_frame in E.
  destruct frame as [|start [|opcode [|hi [|lo [|len rest]]]]]; try discriminate E.
  destruct (skipn _ rest) as [|ack [|crc_hi [|crc_lo tail]]]; try discriminate E.
  destruct (Z_of_byte start =? 46) eqn:Hstart; [|discriminate E].
  cbn [negb] in E. destruct (_ =? BLHeliProtocol.CRC16_XMODEM _); [|discriminate E].
  cbn [negb] in E. injection E as <-.
  set (raw := firstn (Z.to_nat (Z_of_byte len)) rest).
  set (command := construct.Enum_decode BLHeliProtocol.COMMAND_NAMES (Z_of_byte opcode)).
  exists command, raw. split; [reflexivity|]. split; [reflexivity|].
  match goal with |- BLHeliProtocol.parse_payload ?f = _ =>
    pose proof (parse_payload_dispatch f (VInt (Z_of_byte start)) command raw
                  eq_refl eq_refl eq_refl) as H
  end.
  assert (Hhash : match command with VList _ | VContainer _ => False | _ => True end).
  { unfold command, construct.Enum_decode. now destruct (construct.decmapping _ _). }
  specialize (H Hhash).
  assert (Htable : payload_table (VInt (Z_of_byte start)) = BLHeliProtocol.RESPONSE_PAYLOAD).
  { unfold payload_table. cbn [py_eq as_int]. apply Z.eqb_eq in Hstart. now rewrite Hstart. }
  rewrite Htable in H. clear Htable Hhash.
  unfold registered_shape, BLHeliProtocol.RESPONSE_PAYLOAD in H.
  destruct command as [| | |s| | |label z| |]; cbn [as_str py_eq as_int] in *; try exact H.
  - cbn [find fst] in H. rewrite String.eqb_sym.
    destruct (String.eqb "device_init_flash" s); cbn [option_map snd] in H; [|exact H].
    pose proof (identification_shape raw) as Hid.
    destruct (construct._parse _ raw) as [[v ?]|e].
    + destruct Hid as [-> _]. exact H.
    + destruct Hid as (_ & _ & ->). exact H.
  - cbn [find fst] in H. rewrite String.eqb_sym.
    destruct (String.eqb "device_init_flash" label); cbn [option_map snd] in H; [|exact H].
    pose proof (identification_shape raw) as Hid.
    destruct (construct._parse _ raw) as [[v ?]|e].
    + destruct Hid as [-> _]. exact H.
    + destruct Hid as (_ & _ & ->). exact H.
Qed.

(** C6, as the code has it.  For every frame, [parse_payload] returns the
    raw payload bytes unchanged when the command has no shape in the table
    its start marker selects; when a shape is registered it returns the
    shape's decode of the front of the payload and ignores the payload bytes
    the shape does not read, and it raises a Decoding error exactly when the
    payload is shorter than the shape needs.  A frame that [parse] returned
    gets the identification payload when its command is device_init_flash
    and its raw bytes otherwise.  2E37000004F330AA0100F7F0 decodes to an
    identification payload whose mode is SiLabsBLB. *)
Theorem parse_payload_decodes_by_shape :
  (forall (frame : dict) (start_byte command : value) (raw : bytes),
     dict_get frame "start_byte" = Some start_byte ->
     dict_get frame "command" = Some command ->
     dict_get frame "payload" = Some (raw_ints raw) ->
     match command with VList _ | VContainer _ => False | _ => True end ->
     match registered_shape (payload_table start_byte) command with
     | None => BLHeliProtocol.parse_payload frame = Ok (VBytes raw)
     | Some shape =>
         match construct._parse shape raw with
         | Ok (v, _) => BLHeliProtocol.parse_payload frame = Ok v
         | Raise e =>
             BLHeliProtocol.parse_payload frame
             = Raise (BLHeliDecodingError (PayloadParseFailed e))
         end
     end)
  /\ (forall (name : string) (shape : construct.Construct) (raw : bytes),
        In (name, shape)
           (BLHeliProtocol.REQUEST_PAYLOAD ++ BLHeliProtocol.RESPONSE_PAYLOAD) ->
        if (List.length raw <? shape_needs name raw)%nat
        then construct._parse shape raw = Raise StreamError
        else exists v rest, construct._parse shape raw = Ok (v, rest))
  /\ (forall (frame : bytes) (fields : dict),
        BLHeliProtocol.parse frame = Ok fields ->
        exists command raw,
          dict_get fields "command" = Some command
          /\ dict_get fields "payload" = Some (raw_ints raw)
          /\ BLHeliProtocol.parse_payload fields
             = if py_eq command (VStr "device_init_flash")
               then identification raw else Ok (VBytes raw))
  /\ (exists fields payload,
        BLHeliProtocol.parse (bytes_of_hex "2E37000004F330AA0100F7F0") = Ok fields
        /\ BLHeliProtocol.parse_payload fields = Ok (VContainer payload)
        /\ option_map py_str (dict_get payload "mode") = Some "SiLabsBLB").
Proof.
  split; [exact parse_payload_dispatch|].
  split; [exact registered_shapes_read_what_they_need|].
  split; [exact parse_payload_of_parsed|].
  eexists. eexists.
  split; [vm_compute; reflexivity|].
  split; [vm_compute; reflexivity|].
  vm_compute. reflexivity.
Qed.

Lemma parse_payload_decodes_by_shape_witness :
  exists command raw,
    dict_get [ ("start_byte", VInt 46); ("command", VEnumInteger 54);
               ("address", VInt 0); ("payload", VList [VInt 0]);
               ("ack", VEnumIntegerString "ok" 0); ("crc", VInt 51491) ]
             "command" = Some command
    /\ dict_get [ ("start_byte", VInt 46); ("command", VEnumInteger 54);
                  ("address", VInt 0); ("payload", VList [VInt 0]);
                  ("ack", VEnumIntegerString "ok" 0); ("crc", VInt 51491) ]
                "payload" = Some (raw_ints raw)
    /\ BLHeliProtocol.parse_payload
         [ ("start_byte", VInt 46); ("command", VEnumInteger 54);
           ("address", VInt 0); ("payload", VList [VInt 0]);
           ("ack", VEnumIntegerString "ok" 0); ("crc", VInt 51491) ]
       = if py_eq command (VStr "device_init_flash")
         then identification raw else Ok (VBytes raw).
Proof.
  apply (proj1 (proj2 (proj2 parse_payload_decodes_by_shape))
           (bytes_of_hex "2e360000010000c923")).
  vm_compute. reflexivity.
Defined.

(** Against C6 as the specification words it: the response
    2e37000005f330aa010000d799 carries five payload bytes, the
    identification shape reads four of them and leaves one, and
    [parse_payload] returns the decode without raising. *)
Lemma parse_payload_ignores_leftover_bytes :
  exists fields shape,
    BLHeliProtocol.parse (bytes_of_hex "2e37000005f330aa010000d799") = Ok fields
    /\ registered_shape (payload_table (VInt 46))
         (VEnumIntegerString "device_init_flash" 55) = Some shape
    /\ construct._parse shape [xf3; x30; xaa; x01; x00]
       = Ok (VContainer
               [ ("HiSign", VInt 243); ("LoSign", VInt 48); ("BootMsg", VInt 170);
                 ("mode", VEnumIntegerString "SiLabsBLB" 1) ], [x00])
    /\ dict_get fields "payload" = Some (raw_ints [xf3; x30; xaa; x01; x00])
    /\ BLHeliProtocol.parse_payload fields
       = Ok (VContainer
               [ ("HiSign", VInt 243); ("LoSign", VInt 48); ("BootMsg", VInt 170);
                 ("mode", VEnumIntegerString "SiLabsBLB" 1) ]).
Proof.
  eexists. eexists.
  split; [vm_compute; reflexivity|].
  split; [vm_compute; reflexivity|].
  split; [vm_compute; reflexivity|].
  split; vm_compute; reflexivity.
Qed.

(* ================================================================== *)
(** * The EEPROM layout *)
(* ================================================================== *)

Lemma FormatField_B_parse (stream : bytes) :
  construct._parse construct.Byte stream =
    match stream with
    | [] => Raise StreamError
    | b :: rest => Ok (VInt (Z_of_byte b), rest)
    end.
Proof. destruct stream; reflexivity. Qed.

Lemma Enum_Byte_parse_total (names : list (string * Z)) (stream : bytes) :
  construct._parse (construct.Enum construct.Byte names) stream =
    match stream with
    | [] => Raise StreamError
    | b :: rest => Ok (construct.Enum_decode names (Z_of_byte b), rest)
    end.
Proof. destruct stream; reflexivity. Qed.

Lemma Enum_Int16ub_parse_total (names : list (string * Z)) (stream : bytes) :
  construct._parse (construct.Enum construct.Int16ub names) stream =
    match stream with
    | hi :: lo :: rest =>
        Ok (construct.Enum_decode names (256 * Z_of_byte hi + Z_of_byte lo), rest)
    | _ => Raise StreamError
    end.
Proof. destruct stream as [|hi [|lo rest]]; reflexivity. Qed.

Lemma Flag_parse_total (stream : bytes) :
  construct._parse construct.Flag stream =
    match stream with
    | [] => Raise StreamError
    | b :: rest => Ok (VBool (negb (Byte.eqb b x00)), rest)
    end.
Proof. destruct stream; reflexivity. Qed.

Lemma Padding_parse_total (n : nat) (pattern : byte) (stream : bytes) :
  construct._parse (construct.Padding n pattern) stream =
    if (List.length stream <? n)%nat then Raise StreamError
    else Ok (VNone, skipn n stream).
Proof.
  cbn [construct._parse construct.Padding]. unfold construct.stream_read.
  destruct (List.length stream <? n)%nat; reflexivity.
Qed.

Lemma PaddedString_parse_total (n : nat) (stream : bytes) :
  construct._parse (construct.PaddedString n) stream =
    if (List.length stream <? n)%nat then Raise StreamError
    else if utf8_valid (rstrip_nul (firstn n stream))
         then Ok (VStr (string_of_list_byte (rstrip_nul (firstn n stream))),
                  skipn n stream)
         else Raise StringError.
Proof.
  cbn [construct._parse construct.PaddedString]. unfold construct.stream_read.
  destruct (List.length stream <? n)%nat; reflexivity.
Qed.

Lemma byte_eqb_zero (b : byte) : Byte.eqb b x00 = (Z_of_byte b =? 0).
Proof.
  destruct (Byte.eqb b x00) eqn:E.
  - apply Byte.byte_dec_bl in E. now subst.
  - symmetry. apply Z.eqb_neq. intros H.
    assert (b = x00) by (apply Z_of_byte_inj; exact H).
    subst. discriminate.
Qed.

Section StructSteps.

Import construct.

Variables (fs : list field) (obj : dict).

Lemma step_Byte (n : string) (b : byte) (s : bytes) :
  Struct_parse ((n // Byte) :: fs) obj (b :: s)
  = Struct_parse fs (dict_set obj n (VInt (Z_of_byte b))) s.
Proof. reflexivity. Qed.

Lemma step_Enum_Byte (n : string) (names : list (string * Z)) (b : byte) (s : bytes) :
  Struct_parse ((n // Enum Byte names) :: fs) obj (b :: s)
  = Struct_parse fs (dict_set obj n (Enum_decode names (Z_of_byte b))) s.
Proof. reflexivity. Qed.

Lemma step_Enum_Int16ub (n : string) (names : list (string * Z)) (hi lo : byte)
    (s : bytes) :
  Struct_parse ((n // Enum Int16ub names) :: fs) obj (hi :: lo :: s)
  = Struct_parse fs
      (dict_set obj n (Enum_decode names (256 * Z_of_byte hi + Z_of_byte lo))) s.
Proof. reflexivity. Qed.

Lemma step_Flag (n : string) (b : byte) (s : bytes) :
  Struct_parse ((n // Flag) :: fs) obj (b :: s)
  = Struct_parse fs (dict_set obj n (VBool (negb (Z_of_byte b =? 0)))) s.
Proof.
  cbn [Struct_parse Renamed]. rewrite Flag_parse_total. cbn [rbind].
  now rewrite byte_eqb_zero.
Qed.

Lemma step_Padding (k : nat) (p : byte) (s : bytes) :
  Struct_parse (Unnamed (Padding k p) :: fs) obj s
  = if (List.length s <? k)%nat then Raise StreamError
    else Struct_parse fs obj (skipn k s).
Proof.
  cbn [Struct_parse Unnamed]. rewrite Padding_parse_total.
  destruct (List.length s <? k)%nat; reflexivity.
Qed.

Lemma step_PaddedString (n : string) (k : nat) (s : bytes) :
  Struct_parse ((n // PaddedString k) :: fs) obj s
  = if (List.length s <? k)%nat then Raise StreamError
    else if utf8_valid (rstrip_nul (firstn k s))
         then Struct_parse fs
                (dict_set obj n (VStr (string_of_list_byte (rstrip_nul (firstn k s)))))
                (skipn k s)
         else Raise StringError.
Proof.
  cbn [Struct_parse Renamed]. rewrite PaddedString_parse_total.
  destruct (List.length s <? k)%nat; [reflexivity|].
  destruct (utf8_valid _); reflexivity.
Qed.

End StructSteps.

Ltac struct_step :=
  first [ rewrite step_Byte | rewrite step_Enum_Byte | rewrite step_Enum_Int16ub
        | rewrite step_Flag | rewrite step_Padding | rewrite step_PaddedString ];
  cbn [List.length Nat.ltb Nat.leb firstn skipn].

Ltac explode_image data Hlen :=
  do 112 (destruct data as [|? data]; [exfalso; cbn [List.length] in Hlen; lia|]).

Lemma EEPROM_parse_long (data : bytes) :
  (112 <= List.length data)%nat ->
  construct.parse BlHeliSilabs.EEPROM_LAYOUT data =
    if texts_valid data then Ok (VContainer (image_fields data))
    else Raise StringError.
Proof.
  intros Hlen. explode_image data Hlen. clear Hlen.
  unfold construct.parse, BlHeliSilabs.EEPROM_LAYOUT, BlHeliSilabs.EEPROM_FIELDS.
  cbn [construct._parse construct.Struct].
  do 32 struct_step.
  unfold texts_valid, text_bytes, slice, image_fields, flag_at, byte_at.
  cbn [firstn skipn nth dict_set String.eqb Ascii.eqb Bool.eqb
       construct.Struct_parse rbind].
  repeat match goal with
         | |- context [utf8_valid ?x] => destruct (utf8_valid x)
         end; reflexivity.
Qed.

Section Reads.

Import construct.

Lemma reads_Byte : reads Byte 1.
Proof. intros [|b s]; [reflexivity|]. cbn. eauto. Qed.

Lemma reads_Int16ub : reads Int16ub 2.
Proof. intros [|hi [|lo s]]; try reflexivity. cbn. eauto. Qed.

Lemma reads_Flag : reads Flag 1.
Proof. intros [|b s]; [reflexivity|]. cbn. eauto. Qed.

Lemma reads_Enum (c : Construct) (k : nat) (names : list (string * Z)) :
  (forall s v r, _parse c s = Ok (v, r) -> as_int v <> None) ->
  reads c k -> reads (Enum c names) k.
Proof.
  intros Hint Hc s. unfold reads in Hc. specialize (Hc s). cbn [_parse Enum].
  destruct (List.length s <? k)%nat.
  - now rewrite Hc.
  - destruct Hc as [v Hv]. rewrite Hv. cbn [rbind].
    destruct (as_int v) eqn:E; [eauto|]. exfalso. exact (Hint _ _ _ Hv E).
Qed.

Lemma reads_Padding (k : nat) (p : byte) : reads (Padding k p) k.
Proof.
  intros s. rewrite Padding_parse_total.
  destruct (List.length s <? k)%nat; eauto.
Qed.

Lemma Byte_reads_int (s : bytes) (v : value) (r : bytes) :
  _parse Byte s = Ok (v, r) -> as_int v <> None.
Proof. destruct s; [discriminate|]. cbn. intros H. injection H as <- _. discriminate. Qed.

Lemma Int16ub_reads_int (s : bytes) (v : value) (r : bytes) :
  _parse Int16ub s = Ok (v, r) -> as_int v <> None.
Proof.
  destruct s as [|hi [|lo s]]; try discriminate.
  cbn. intros H. injection H as <- _. discriminate.
Qed.

Lemma Struct_parse_reads (fields : list field) (sizes : list nat) :
  Forall2 (fun f k => reads (snd f) k) fields sizes ->
  forall obj s,
    if (List.length s <? list_sum sizes)%nat
    then Struct_parse fields obj s = Raise StreamError
    else exists obj', Struct_parse fields obj s = Ok (obj', skipn (list_sum sizes) s).
Proof.
  induction 1 as [|[name sc] k fields sizes Hsc _ IH]; intros obj s.
  - cbn. eauto.
  - cbn [Struct_parse snd] in *. unfold reads in Hsc. specialize (Hsc s).
    change (list_sum (k :: sizes)) with (k + list_sum sizes)%nat.
    destruct (List.length s <? k)%nat eqn:Ek.
    + apply Nat.ltb_lt in Ek.
      replace (List.length s <? k + list_sum sizes)%nat with true
        by (symmetry; apply Nat.ltb_lt; lia).
      now rewrite Hsc.
    + destruct Hsc as [v Hv]. apply Nat.ltb_ge in Ek.
      specialize (IH (match name with Some n => dict_set obj n v | None => obj end)
                     (skipn k s)).
      rewrite length_skipn in IH.
      replace (List.length s - k <? list_sum sizes)%nat
        with (List.length s <? k + list_sum sizes)%nat in IH
        by (destruct (List.length s <? k + list_sum sizes)%nat eqn:E1;
            [apply Nat.ltb_lt in E1; symmetry; apply Nat.ltb_lt; lia
            |apply Nat.ltb_ge in E1; symmetry; apply Nat.ltb_ge; lia]).
      destruct (List.length s <? k + list_sum sizes)%nat.
      * rewrite Hv. exact IH.
      * destruct IH as [obj' IH]. exists obj'. rewrite Hv. cbn [rbind]. rewrite IH.
        now rewrite skipn_skipn, Nat.add_comm.
Qed.

Lemma Struct_parse_app (a b : list field) (obj : dict) (s : bytes) :
  Struct_parse (a ++ b) obj s
  = match Struct_parse a obj s with
    | Ok (obj', s') => Struct_parse b obj' s'
    | Raise e => Raise e
    end.
Proof.
  revert obj s. induction a as [|[name sc] a IH]; intros obj s; [reflexivity|].
  cbn [app Struct_parse].
  destruct (_parse sc s) as [[v r]|e]; [|reflexivity]. cbn [rbind]. apply IH.
Qed.

End Reads.

(** The fields of the layout before its three texts read 64 bytes. *)
Lemma EEPROM_head_reads :
  Forall2 (fun f k => reads (snd f) k) (firstn 29 BlHeliSilabs.EEPROM_FIELDS)
    [1; 1; 1; 6; 1; 1; 1; 1; 2; 1; 5; 1; 3; 1; 1; 1; 1; 1; 1; 1; 1; 1; 1; 1; 1; 2; 1; 1;
     23]%nat.
Proof.
  unfold BlHeliSilabs.EEPROM_FIELDS. cbn [firstn].
  repeat (apply Forall2_cons;
          [ cbn [snd construct.Renamed construct.Unnamed];
            first [ apply reads_Byte | apply reads_Flag | apply reads_Padding
                  | apply reads_Enum;
                    first [ exact Byte_reads_int | exact Int16ub_reads_int
                          | apply reads_Byte | apply reads_Int16ub ] ]
          |]).
  apply Forall2_nil.
Qed.

Lemma ltb_skipn (data : bytes) (a k : nat) :
  (0 < k)%nat ->
  (List.length (skipn a data) <? k)%nat = (List.length data <? a + k)%nat.
Proof.
  intros Hk. rewrite length_skipn.
  destruct (List.length data <? a + k)%nat eqn:E.
  - apply Nat.ltb_lt in E. apply Nat.ltb_lt. lia.
  - apply Nat.ltb_ge in E. apply Nat.ltb_ge. lia.
Qed.

Lemma EEPROM_parse_defect (data : bytes) (e : exn) :
  image_defect data = Some e ->
  construct.parse BlHeliSilabs.EEPROM_LAYOUT data = Raise e.
Proof.
  unfold image_defect, construct.parse, BlHeliSilabs.EEPROM_LAYOUT.
  cbn [construct._parse construct.Struct].
  change BlHeliSilabs.EEPROM_FIELDS
    with (firstn 29 BlHeliSilabs.EEPROM_FIELDS ++ skipn 29 BlHeliSilabs.EEPROM_FIELDS).
  rewrite Struct_parse_app.
  change (skipn 29 BlHeliSilabs.EEPROM_FIELDS)
    with [ "layout" // construct.PaddedString 16; "mcu" // construct.PaddedString 16;
           "name" // construct.PaddedString 16 ].
  pose proof (Struct_parse_reads _ _ EEPROM_head_reads [] data) as Hhead.
  change (list_sum _) with 64%nat in Hhead.
  destruct (List.length data <? 64)%nat.
  { intros H. injection H as <-. now rewrite Hhead. }
  destruct Hhead as [obj Hhead]. rewrite Hhead.
  unfold text_defect, text_bytes, slice.
  rewrite step_PaddedString, (ltb_skipn data 64 16) by lia.
  destruct (List.length data <? 64 + 16)%nat.
  { intros H. now injection H as <-. }
  destruct (utf8_valid (rstrip_nul (firstn 16 (skipn 64 data)))).
  2:{ intros H. now injection H as <-. }
  rewrite step_PaddedString, skipn_skipn, (ltb_skipn data (16 + 64) 16) by lia.
  change (16 + 64)%nat with 80%nat.
  destruct (List.length data <? 80 + 16)%nat.
  { intros H. now injection H as <-. }
  destruct (utf8_valid (rstrip_nul (firstn 16 (skipn 80 data)))).
  2:{ intros H. now injection H as <-. }
  rewrite step_PaddedString, skipn_skipn, (ltb_skipn data (16 + 80) 16) by lia.
  change (16 + 80)%nat with 96%nat.
  destruct (List.length data <? 96 + 16)%nat.
  { intros H. now injection H as <-. }
  destruct (utf8_valid (rstrip_nul (firstn 16 (skipn 96 data)))).
  2:{ intros H. now injection H as <-. }
  discriminate.
Qed.

Lemma image_defect_None (data : bytes) :
  image_defect data = None
  <-> (112 <= List.length data)%nat /\ texts_valid data = true.
Proof.
  unfold image_defect, text_defect, texts_valid.
  destruct (List.length data <? 64)%nat eqn:E0;
    [apply Nat.ltb_lt in E0; split; [discriminate|intros [H _]; lia]|].
  destruct (List.length data <? 64 + 16)%nat eqn:E1;
    [apply Nat.ltb_lt in E1; split; [discriminate|intros [H _]; lia]|].
  destruct (utf8_valid (text_bytes data 64));
    [|split; [discriminate|intros [_ H]; discriminate H]].
  destruct (List.length data <? 80 + 16)%nat eqn:E2;
    [apply Nat.ltb_lt in E2; split; [discriminate|intros [H _]; lia]|].
  destruct (utf8_valid (text_bytes data 80));
    [|split; [discriminate|intros [_ H]; discriminate H]].
  destruct (List.length data <? 96 + 16)%nat eqn:E3;
    [apply Nat.ltb_lt in E3; split; [discriminate|intros [H _]; lia]|].
  apply Nat.ltb_ge in E3.
  destruct (utf8_valid (text_bytes data 96));
    [|split; [discriminate|intros [_ H]; discriminate H]].
  split; [intros _; split; [lia|reflexivity]|reflexivity].
Qed.

Lemma image_defect_kinds (data : bytes) (e : exn) :
  image_defect data = Some e ->
  (e = StreamError /\ (List.length data < 112)%nat)
  \/ (e = StringError /\ texts_valid data = false).
Proof.
  unfold image_defect, text_defect, texts_valid.
  destruct (List.length data <? 64)%nat eqn:E0;
    [apply Nat.ltb_lt in E0; intros H; injection H as <-; left; split; [reflexivity|lia]|].
  destruct (List.length data <? 64 + 16)%nat eqn:E1;
    [apply Nat.ltb_lt in E1; intros H; injection H as <-; left; split; [reflexivity|lia]|].
  destruct (utf8_valid (text_bytes data 64));
    [|intros H; injection H as <-; right; split; reflexivity].
  destruct (List.length data <? 80 + 16)%nat eqn:E2;
    [apply Nat.ltb_lt in E2; intros H; injection H as <-; left; split; [reflexivity|lia]|].
  destruct (utf8_valid (text_bytes data 80));
    [|intros H; injection H as <-; right; split; reflexivity].
  destruct (List.length data <? 96 + 16)%nat eqn:E3;
    [apply Nat.ltb_lt in E3; intros H; injection H as <-; left; split; [reflexivity|lia]|].
  destruct (utf8_valid (text_bytes data 96)); [discriminate|].
  intros H; injection H as <-; right; split; reflexivity.
Qed.

(** C5, as the code has it: decoding a configuration image reads the fields
    in the order of the layout and raises construct's own error at the first
    field it cannot read: a StreamError when the input ends before the field
    does, a StringError when one of the three text fields, without its
    trailing NULs, is not well-formed UTF-8.  It raises nothing else, and it
    raises exactly when the input is shorter than 112 bytes or one of the
    texts is malformed; on any other input it yields the parsed image of the
    first 112 bytes, in which an enumerated byte outside the legal set stands
    as the bare integer. *)
Theorem EEPROM_decode_outcomes (data : bytes) :
  match image_defect data with
  | Some e => construct.parse BlHeliSilabs.EEPROM_LAYOUT data = Raise e
  | None =>
      construct.parse BlHeliSilabs.EEPROM_LAYOUT data = Ok (VContainer (image_fields data))
  end
  /\ (image_defect data = None
      <-> (112 <= List.length data)%nat /\ texts_valid data = true)
  /\ (forall e,
        image_defect data = Some e ->
        (e = StreamError /\ (List.length data < 112)%nat)
        \/ (e = StringError /\ texts_valid data = false)).
Proof.
  split; [|split; [apply image_defect_None|apply image_defect_kinds]].
  destruct (image_defect data) as [e|] eqn:E.
  - now apply EEPROM_parse_defect.
  - apply image_defect_None in E as [Hlen Hvalid].
    now rewrite (EEPROM_parse_long data Hlen), Hvalid.
Qed.

(** Against C5 as the specification words it: 112 zero bytes hold no legal
    enumeration value, an image followed by one more byte is not 112 bytes
    long, and both decode. *)
Lemma EEPROM_decodes_what_the_rule_refuses :
  (image_refused_as_specified (repeat x00 112) = true
   /\ construct.parse BlHeliSilabs.EEPROM_LAYOUT (repeat x00 112)
      = Ok (VContainer (image_fields (repeat x00 112)))
   /\ dict_get (image_fields (repeat x00 112)) "startup_power" = Some (VEnumInteger 0))
  /\ (image_refused_as_specified sample_image = false
      /\ image_refused_as_specified (sample_image ++ [x00]) = true
      /\ construct.parse BlHeliSilabs.EEPROM_LAYOUT (sample_image ++ [x00])
         = Ok (VContainer (image_fields sample_image))).
Proof. repeat split; vm_compute; reflexivity. Qed.

(* ================================================================== *)
(** * Encoding a decoded image *)
(* ================================================================== *)

Lemma find_rev_label (names : list (string * Z)) (label : string) (z : Z) :
  NoDup (map fst names) -> In (label, z) names ->
  find (fun kv => String.eqb (fst kv) label) (rev names) = Some (label, z).
Proof.
  intros Hnd Hin.
  destruct (find _ (rev names)) as [[l' z']|] eqn:E.
  - apply find_some in E as [Hin' Heq]. apply in_rev in Hin'.
    cbn [fst] in Heq. apply String.eqb_eq in Heq. subst l'.
    f_equal. f_equal.
    clear -Hnd Hin Hin'. induction names as [|[k v] names IH]; [contradiction|].
    cbn [map fst] in Hnd. inversion Hnd as [|? ? Hnot Hnd']; subst.
    destruct Hin as [Hin|Hin], Hin' as [Hin'|Hin'].
    + congruence.
    + injection Hin as -> ->. exfalso. apply Hnot.
      change label with (fst (label, z')). now apply in_map.
    + injection Hin' as -> ->. exfalso. apply Hnot.
      change label with (fst (label, z)). now apply in_map.
    + now apply IH.
  - exfalso. apply in_rev in Hin. pose proof (find_none _ _ E (label, z) Hin) as H.
    cbn [fst] in H. rewrite String.eqb_refl in H. discriminate.
Qed.

Lemma enc_dec (names : list (string * Z)) (label : string) (z : Z) :
  NoDup (map fst names) ->
  construct.decmapping names z = Some label ->
  construct.encmapping names label = Some z.
Proof.
  intros Hnd. unfold construct.decmapping, construct.encmapping.
  destruct (find _ (rev names)) as [[l' z']|] eqn:E; [|discriminate].
  cbn [option_map fst]. intros H. injection H as ->.
  apply find_some in E as [Hin Heq]. apply in_rev in Hin.
  cbn [snd] in Heq. apply Z.eqb_eq in Heq. subst z'.
  now rewrite (find_rev_label names label z Hnd Hin).
Qed.

Lemma Byte_build_of_byte (b : byte) :
  construct._build construct.Byte (VInt (Z_of_byte b)) = Ok [b].
Proof.
  cbn [construct._build construct.Byte construct.FormatField_B as_int].
  now rewrite byte_of_Z_of_byte.
Qed.

Lemma Enum_Byte_build_decode (names : list (string * Z)) (b : byte) :
  NoDup (map fst names) ->
  construct._build (construct.Enum construct.Byte names)
    (construct.Enum_decode names (Z_of_byte b)) = Ok [b].
Proof.
  intros Hnd. unfold construct.Enum_decode.
  destruct (construct.decmapping names (Z_of_byte b)) as [label|] eqn:E.
  - apply (enc_dec names label _ Hnd) in E.
    cbn [construct._build construct.Enum as_int as_str]. rewrite E.
    apply Byte_build_of_byte.
  - cbn [construct._build construct.Enum construct.Byte construct.FormatField_B as_int].
    now rewrite byte_of_Z_of_byte.
Qed.

Lemma Int16ub_build_of_bytes (hi lo : byte) (v : value) :
  as_int v = Some (256 * Z_of_byte hi + Z_of_byte lo) ->
  construct._build construct.Int16ub v = Ok [hi; lo].
Proof.
  intros Hv. cbn [construct._build construct.Int16ub]. rewrite Hv.
  pose proof (Z_of_byte_range hi). pose proof (Z_of_byte_range lo).
  replace ((256 * Z_of_byte hi + Z_of_byte lo) / 256) with (Z_of_byte hi)
    by (apply (Z.div_unique _ 256 _ (Z_of_byte lo)); lia).
  replace ((256 * Z_of_byte hi + Z_of_byte lo) mod 256) with (Z_of_byte lo)
    by (apply (Z.mod_unique _ 256 (Z_of_byte hi)); lia).
  now rewrite !byte_of_Z_of_byte.
Qed.

Lemma Enum_Int16ub_build_decode (names : list (string * Z)) (hi lo : byte) :
  NoDup (map fst names) ->
  construct._build (construct.Enum construct.Int16ub names)
    (construct.Enum_decode names (256 * Z_of_byte hi + Z_of_byte lo)) = Ok [hi; lo].
Proof.
  intros Hnd. unfold construct.Enum_decode.
  destruct (construct.decmapping names _) as [label|] eqn:E.
  - apply (enc_dec names label _ Hnd) in E.
    cbn [construct._build construct.Enum as_int as_str]. rewrite E.
    now apply Int16ub_build_of_bytes.
  - cbn [construct._build construct.Enum as_int].
    now apply Int16ub_build_of_bytes.
Qed.

Lemma Flag_build_bool (z : Z) :
  construct._build construct.Flag (VBool (negb (z =? 0)))
  = Ok [if z =? 0 then x00 else x01].
Proof. cbn. now destruct (z =? 0). Qed.

Lemma rstrip_nul_length (data : bytes) :
  (List.length (rstrip_nul data) <= List.length data)%nat.
Proof.
  induction data as [|b data IH]; [reflexivity|].
  cbn [rstrip_nul]. destruct (rstrip_nul data) as [|c rest].
  - destruct (Byte.eqb b x00); cbn; lia.
  - cbn [List.length] in *. lia.
Qed.

Lemma rstrip_nul_pad (data : bytes) :
  rstrip_nul data
    ++ repeat x00 (List.length data - List.length (rstrip_nul data)) = data.
Proof.
  induction data as [|b data IH]; [reflexivity|].
  pose proof (rstrip_nul_length data) as Hlen.
  cbn [rstrip_nul]. destruct (rstrip_nul data) as [|c rest] eqn:E.
  - cbn [List.length app] in IH. rewrite Nat.sub_0_r in IH.
    destruct (Byte.eqb b x00) eqn:Eb.
    + apply Byte.byte_dec_bl in Eb. subst b. cbn [List.length app].
      rewrite Nat.sub_0_r. cbn [repeat]. now rewrite IH.
    + cbn [List.length app].
      replace (S (List.length data) - 1)%nat with (List.length data) by lia.
      now rewrite IH.
  - cbn [List.length app] in *.
    replace (S (List.length data) - S (S (List.length rest)))%nat
      with (List.length data - S (List.length rest))%nat by lia.
    now rewrite IH.
Qed.

Lemma PaddedString_build_text (k : nat) (chunk : bytes) :
  List.length chunk = k ->
  utf8_valid (rstrip_nul chunk) = true ->
  construct._build (construct.PaddedString k)
    (VStr (string_of_list_byte (rstrip_nul chunk))) = Ok chunk.
Proof.
  intros Hk Hvalid. cbn [construct._build construct.PaddedString as_str].
  rewrite list_byte_of_string_of_list_byte, Hvalid. cbn [negb].
  pose proof (rstrip_nul_length chunk) as Hlen. subst k.
  replace (List.length chunk <? List.length (rstrip_nul chunk))%nat with false
    by (symmetry; apply Nat.ltb_ge; lia).
  now rewrite rstrip_nul_pad.
Qed.

Section BuildSteps.
Import construct.
Variables (fs : list field) (d : dict).

Lemma bstep (n : string) (c : Construct) (v : value) (bs : bytes) :
  dict_get d n = Some v -> _build c v = Ok bs ->
  Struct_build ((n // c) :: fs) d
  = rbind (Struct_build fs d) (fun data' => Ok (bs ++ data')).
Proof.
  intros Hv Hbs. cbn [Struct_build Renamed Struct_subobj]. rewrite Hv.
  cbn [rbind]. rewrite Hbs. reflexivity.
Qed.

Lemma bstep_Padding (k : nat) (p : byte) :
  Struct_build (Unnamed (Padding k p) :: fs) d
  = rbind (Struct_build fs d) (fun data' => Ok (repeat p k ++ data')).
Proof. reflexivity. Qed.
End BuildSteps.

Lemma names_nodup :
  NoDup (map fst BlHeliSilabs.STARTUP_POWER)
  /\ NoDup (map fst BlHeliSilabs.MOTOR_DIRECTION)
  /\ NoDup (map fst BlHeliSilabs.MODE)
  /\ NoDup (map fst BlHeliSilabs.COMMUTATION_TIMING)
  /\ NoDup (map fst BlHeliSilabs.BEACON_DELAY)
  /\ NoDup (map fst BlHeliSilabs.DEMAG_COMPENSATION)
  /\ NoDup (map fst BlHeliSilabs.TEMPERATURE_PROTECTION).
Proof.
  repeat split;
    repeat (apply NoDup_cons; [cbn; intuition discriminate|]); apply NoDup_nil.
Qed.

Ltac build_step :=
  first
    [ rewrite bstep_Padding
    | erewrite bstep;
      [ | reflexivity
        | first [ apply Byte_build_of_byte
                | apply Enum_Byte_build_decode; assumption
                | apply Enum_Int16ub_build_decode; assumption
                | apply Flag_build_bool
                | apply PaddedString_build_text; [reflexivity | assumption] ] ] ].

Lemma EEPROM_build_parsed (data : bytes) :
  (112 <= List.length data)%nat ->
  texts_valid data = true ->
  construct.build BlHeliSilabs.EEPROM_LAYOUT (VContainer (image_fields data))
  = Ok (reencoded data).
Proof.
  intros Hlen Hvalid.
  explode_image data Hlen. clear Hlen.
  unfold texts_valid, text_bytes, slice in Hvalid. cbn [firstn skipn] in Hvalid.
  apply andb_prop in Hvalid as [Hvalid H3]. apply andb_prop in Hvalid as [H1 H2].
  destruct names_nodup as (N1 & N2 & N3 & N4 & N5 & N6 & N7).
  unfold construct.build, BlHeliSilabs.EEPROM_LAYOUT, BlHeliSilabs.EEPROM_FIELDS.
  cbn [construct._build construct.Struct].
  unfold image_fields, flag_at, byte_at, text_bytes, slice.
  cbn [nth firstn skipn].
  do 32 build_step.
  cbn [construct.Struct_build rbind].
  cbv -[Z_of_byte Z.eqb].
  reflexivity.
Qed.

Lemma reencoded_nth (data : bytes) (offset : nat) :
  (offset < 112)%nat ->
  nth offset (reencoded data) x00 = reencoded_byte data offset.
Proof.
  intros H. unfold reencoded.
  rewrite (nth_indep _ x00 (reencoded_byte data 0%nat)) by (rewrite length_map, length_seq; exact H).
  rewrite (map_nth (reencoded_byte data) (seq 0 112) 0%nat), seq_nth by exact H.
  reflexivity.
Qed.

(** C2, as the code has it: for every 112-byte configuration image that
    decodes, encoding the decoded image yields exactly 112 bytes in which
    every reserved byte is 0xFF whatever the image held there, every flag
    byte is 0x01 where the image held a non-zero byte and 0x00 where it held
    zero, and every other byte is the byte of the image. *)
Theorem EEPROM_encode_of_decode (data : bytes) (img : value) :
  List.length data = 112%nat ->
  construct.parse BlHeliSilabs.EEPROM_LAYOUT data = Ok img ->
  exists out,
    construct.build BlHeliSilabs.EEPROM_LAYOUT img = Ok out
    /\ List.length out = 112%nat
    /\ forall offset, (offset < 112)%nat ->
         nth offset out x00 =
           if reserved offset then xff
           else if is_flag offset
                then (if byte_at data offset =? 0 then x00 else x01)
                else nth offset data x00.
Proof.
  intros Hlen Hparse.
  rewrite EEPROM_parse_long in Hparse by lia.
  destruct (texts_valid data) eqn:Hvalid; [|discriminate].
  injection Hparse as <-. exists (reencoded data).
  split; [apply EEPROM_build_parsed; [lia|assumption]|].
  split; [unfold reencoded; now rewrite length_map, length_seq|].
  intros offset H. now rewrite reencoded_nth.
Qed.

Lemma EEPROM_encode_of_decode_witness :
  (List.length sample_image = 112%nat
   /\ construct.parse BlHeliSilabs.EEPROM_LAYOUT sample_image
      = Ok (VContainer (image_fields sample_image)))
  /\ exists out,
       construct.build BlHeliSilabs.EEPROM_LAYOUT (VContainer (image_fields sample_image))
         = Ok out
       /\ List.length out = 112%nat
       /\ forall offset, (offset < 112)%nat ->
            nth offset out x00 =
              if reserved offset then xff
              else if is_flag offset
                   then (if byte_at sample_image offset =? 0 then x00 else x01)
                   else nth offset sample_image x00.
Proof.
  assert (H1 : List.length sample_image = 112%nat) by (vm_compute; reflexivity).
  assert (H2 : construct.parse BlHeliSilabs.EEPROM_LAYOUT sample_image
               = Ok (VContainer (image_fields sample_image)))
    by (vm_compute; reflexivity).
  split; [split; assumption|].
  exact (EEPROM_encode_of_decode sample_image _ H1 H2).
Defined.

(** Against C2 as the specification words it: an image whose
    programming_by_tx byte (offset 0x0F, not reserved) is 0x02 decodes, and
    encoding the decoded image puts 0x01 there. *)
Lemma EEPROM_encode_rewrites_a_flag :
  List.length sample_image_flag2 = 112%nat
  /\ reserved 15 = false
  /\ nth 15 sample_image_flag2 x00 = x02
  /\ construct.parse BlHeliSilabs.EEPROM_LAYOUT sample_image_flag2
     = Ok (VContainer (image_fields sample_image_flag2))
  /\ construct.build BlHeliSilabs.EEPROM_LAYOUT
       (VContainer (image_fields sample_image_flag2))
     = Ok (reencoded sample_image_flag2)
  /\ nth 15 (reencoded sample_image_flag2) x00 = x01.
Proof. repeat split; vm_compute; reflexivity. Qed.

(* ================================================================== *)
(** * The methods of the interface leave the log alone, traffic apart *)
(* ================================================================== *)

Section Traffic.

Import BLHeli4WayInterface.

Variable Serial : Type.
Variable serial_write : bytes -> Serial -> result unit * Serial.
Variable serial_read : Z -> Serial -> result bytes * Serial.

Lemma after_traffic_refl (self : self_t Serial) : after_traffic self self.
Proof.
  repeat split. exists []. now rewrite app_nil_r.
Qed.

Lemma after_traffic_trans (a b c : self_t Serial) :
  after_traffic a b -> after_traffic b c -> after_traffic a c.
Proof.
  intros (Hv & Hc & e1 & Hl & He1) (Hv' & Hc' & e2 & Hl' & He2).
  repeat split; [congruence | congruence |].
  exists (e1 ++ e2). rewrite Hl', Hl, app_assoc. split; [reflexivity|].
  rewrite forallb_app, He1, He2. reflexivity.
Qed.

Lemma quiet_ret {A} (a : A) : quiet (@ret Serial A a).
Proof. intros self. apply after_traffic_refl. Qed.

Lemma quiet_raise {A} (e : exn) : quiet (@raise Serial A e).
Proof. intros self. apply after_traffic_refl. Qed.

Lemma quiet_lift {A} (r : result A) : quiet (@lift Serial A r).
Proof. intros self. apply after_traffic_refl. Qed.

Lemma quiet_bind {A B} (m : M Serial A) (k : A -> M Serial B) :
  quiet m -> (forall a, quiet (k a)) -> quiet (bind m k).
Proof.
  intros Hm Hk self. unfold bind. specialize (Hm self).
  destruct (m self) as [[a|e] self']; cbn [snd] in *; [|exact Hm].
  eapply after_traffic_trans; [exact Hm | apply Hk].
Qed.

Lemma quiet_traffic (direction text : string) :
  String.eqb direction "->" || String.eqb direction "<-" = true ->
  quiet (@log Serial [VStr direction; VStr text]).
Proof.
  intros H self. repeat split. exists [[VStr direction; VStr text]].
  split; [reflexivity|]. cbn. now rewrite H.
Qed.

Lemma quiet_write (data : bytes) : quiet (serial_connection_write Serial serial_write data).
Proof.
  intros self. unfold serial_connection_write.
  destruct (serial_write data (serial_connection self)) as [r port].
  repeat split. exists []. now rewrite app_nil_r.
Qed.

Lemma quiet_read (size : Z) : quiet (serial_connection_read Serial serial_read size).
Proof.
  intros self. unfold serial_connection_read.
  destruct (serial_read size (serial_connection self)) as [r port].
  repeat split. exists []. now rewrite app_nil_r.
Qed.

Ltac quiet_tac :=
  repeat first
    [ apply quiet_bind; [|intros ?]
    | apply quiet_ret | apply quiet_raise | apply quiet_lift
    | apply quiet_write | apply quiet_read
    | apply quiet_traffic; reflexivity
    | match goal with
      | |- quiet (if ?b then _ else _) => destruct b
      | |- quiet (match ?x with _ => _ end) => destruct x
      end
    | intros self; apply after_traffic_refl ].

Lemma quiet_send_command (command address payload : value) :
  quiet (send_command Serial serial_write command address payload).
Proof. unfold send_command, sleep, get_verbose. quiet_tac. Qed.

Lemma quiet_read_response (expected_length : Z) :
  quiet (read_response Serial serial_read expected_length).
Proof. unfold read_response, get_verbose. quiet_tac. Qed.

Lemma quiet_init_flash (esc : Z) :
  quiet (init_flash Serial serial_write serial_read esc).
Proof.
  unfold init_flash.
  apply quiet_bind; [apply quiet_send_command|intros ?].
  apply quiet_bind; [apply quiet_read_response|intros ?].
  quiet_tac.
Qed.

Lemma quiet_erase_page (page : Z) :
  quiet (erase_page Serial serial_write serial_read page).
Proof.
  unfold erase_page.
  apply quiet_bind; [apply quiet_send_command|intros ?].
  apply quiet_bind; [apply quiet_read_response|intros ?]. quiet_tac.
Qed.

Lemma quiet_write_memory (address : Z) (data : bytes) :
  quiet (write_memory Serial serial_write serial_read address data).
Proof.
  unfold write_memory.
  apply quiet_bind; [apply quiet_send_command|intros ?]. apply quiet_read_response.
Qed.

Lemma quiet_read_memory (address length : Z) :
  quiet (read_memory Serial serial_write serial_read address length).
Proof.
  unfold read_memory.
  apply quiet_bind; [apply quiet_send_command|intros ?].
  apply quiet_bind; [apply quiet_read_response|intros ?]. quiet_tac.
Qed.

Lemma quiet_reset_esc (esc : option Z) :
  quiet (reset_esc Serial serial_write serial_read esc).
Proof.
  unfold reset_esc, sleep. destruct esc; [|apply quiet_raise].
  apply quiet_bind; [apply quiet_send_command|intros ?].
  apply quiet_bind; [apply quiet_read_response|intros ?]. quiet_tac.
Qed.

Lemma quiet_read_eeprom :
  quiet (BlHeliSilabs.read_eeprom Serial serial_write serial_read).
Proof.
  unfold BlHeliSilabs.read_eeprom.
  apply quiet_bind; [apply quiet_lift|intros ?].
  apply quiet_bind; [apply quiet_read_memory|intros ?]. quiet_tac.
Qed.

Lemma quiet_read_config (esc : Z) :
  quiet (BlHeliSilabs.read_config Serial serial_write serial_read esc).
Proof.
  unfold BlHeliSilabs.read_config, get_count, assert.
  apply quiet_bind; [intros self; apply after_traffic_refl|intros ?].
  apply quiet_bind; [quiet_tac|intros ?].
  apply quiet_bind; [apply quiet_init_flash|intros ?].
  apply quiet_bind; [apply quiet_read_eeprom|intros ?].
  apply quiet_bind; [apply quiet_reset_esc|intros ?].
  quiet_tac.
Qed.

Lemma traffic_is_no_warning (extra : list (list value)) :
  forallb traffic_line extra = true -> filter is_mismatch_warning extra = [].
Proof.
  induction extra as [|entry extra IH]; [reflexivity|].
  cbn [forallb filter]. intros H. apply andb_prop in H as [He Hx].
  rewrite (IH Hx).
  destruct entry as [|[] [|[] [|]]]; try discriminate He; reflexivity.
Qed.

Lemma after_traffic_warnings (self self' : self_t Serial) :
  after_traffic self self' -> mismatch_warnings self' = mismatch_warnings self.
Proof.
  intros (_ & _ & extra & Hl & He). unfold mismatch_warnings.
  rewrite Hl, filter_app, (traffic_is_no_warning extra He). apply app_nil_r.
Qed.

End Traffic.

(* ================================================================== *)
(** * probe_esc *)
(* ================================================================== *)

(** C10: for every instance index, in [0, count) or not, [probe_esc] never
    returns normally.  Outside the range the assertion fails; inside it,
    whatever [init_flash] raises is raised, and when [init_flash] returns
    (with "silabs" or with "atmel") the call [self.reset_esc()], which lacks
    the instance argument, raises a TypeError.  On the simulated rig
    [init_flash] reports a silabs device and [probe_esc] raises the
    TypeError. *)
Theorem probe_esc_never_returns
    (Serial : Type)
    (serial_write : bytes -> Serial -> result unit * Serial)
    (serial_read : Z -> Serial -> result bytes * Serial)
    (esc : Z) (self : BLHeli4WayInterface.self_t Serial) :
  (exists e self',
     BlHeliSilabs.probe_esc Serial serial_write serial_read esc self = (Raise e, self'))
  /\ BlHeliSilabs.probe_esc Serial serial_write serial_read esc self
     = (if (0 <=? esc) && (esc <? BLHeli4WayInterface.count self)
        then
          match BLHeli4WayInterface.init_flash Serial serial_write serial_read esc
                  (snd (BLHeli4WayInterface.log
                          [VStr "Probing ESC #"; VInt (esc + 1)] self))
          with
          | (Ok _, self1) => (Raise TypeError, self1)
          | (Raise e, self1) => (Raise e, self1)
          end
        else (Raise AssertionError, self))
  /\ (fst (BLHeli4WayInterface.init_flash Simulation.rig Simulation.serial_write
             Simulation.serial_read 1
             (Simulation.session false [sample_image; sample_image]))
      = Ok "silabs"
      /\ fst (Simulation.probe_esc 1
                (Simulation.session false [sample_image; sample_image]))
         = Raise TypeError).
Proof.
  assert (E : BlHeliSilabs.probe_esc Serial serial_write serial_read esc self
     = (if (0 <=? esc) && (esc <? BLHeli4WayInterface.count self)
        then
          match BLHeli4WayInterface.init_flash Serial serial_write serial_read esc
                  (snd (BLHeli4WayInterface.log
                          [VStr "Probing ESC #"; VInt (esc + 1)] self))
          with
          | (Ok _, self1) => (Raise TypeError, self1)
          | (Raise e, self1) => (Raise e, self1)
          end
        else (Raise AssertionError, self))).
  { unfold BlHeliSilabs.probe_esc, BLHeli4WayInterface.bind,
      BLHeli4WayInterface.get_count, BLHeli4WayInterface.assert.
    destruct ((0 <=? esc) && (esc <? BLHeli4WayInterface.count self)); [|reflexivity].
    cbn [BLHeli4WayInterface.ret BLHeli4WayInterface.log snd].
    destruct (BLHeli4WayInterface.init_flash _ _ _ _ _) as [[kind|e] self1];
      reflexivity. }
  split; [|split; [exact E|split; vm_compute; reflexivity]].
  rewrite E.
  destruct ((0 <=? esc) && (esc <? BLHeli4WayInterface.count self)); [|eauto].
  destruct (BLHeli4WayInterface.init_flash _ _ _ _ _) as [[kind|e] self1]; eauto.
Qed.

(* ================================================================== *)
(** * read_config_all *)
(* ================================================================== *)

Lemma prefix_app (s t : string) : String.prefix s (s ++ t)%string = true.
Proof.
  induction s as [|a s IH]; [now destruct t|].
  cbn. destruct (Ascii.ascii_dec a a); [exact IH|congruence].
Qed.

Lemma mismatch_warning_is_one (esc : Z) :
  is_mismatch_warning (BlHeliSilabs.mismatch_warning esc) = true.
Proof. unfold BlHeliSilabs.mismatch_warning, is_mismatch_warning. apply prefix_app. Qed.

Section ReadAll.

Import BLHeli4WayInterface.

Variable Serial : Type.
Variable serial_write : bytes -> Serial -> result unit * Serial.
Variable serial_read : Z -> Serial -> result bytes * Serial.
Variable N : Z.
Variable Inv : Serial -> Prop.
Variable R : Z -> dict * dict * dict.

Hypothesis rig : answers_read_config serial_write serial_read N Inv R.

Lemma read_config_all_loop_later (todo : list Z) :
  (forall esc, In esc todo -> 0 < esc < N) ->
  forall (common : dict) (escs : list value) (self : self_t Serial),
    count self = N -> Inv (serial_connection self) ->
    exists self',
      BlHeliSilabs.read_config_all_loop Serial serial_write serial_read
        todo (Some common) escs self
      = (Ok (Some common, escs ++ map (fun esc => esc_entry (R esc)) todo), self')
      /\ mismatch_warnings self'
         = mismatch_warnings self
           ++ map BlHeliSilabs.mismatch_warning
                (filter (fun esc =>
                           negb (py_eq (VContainer common)
                                       (VContainer (common_of (R esc))))) todo)
      /\ count self' = N /\ Inv (serial_connection self').
Proof.
  induction todo as [|esc todo IH]; intros Htodo common escs self Hcount Hinv.
  - exists self. cbn. rewrite !app_nil_r. auto.
  - assert (Hesc : 0 < esc < N) by (apply Htodo; now left).
    destruct (rig esc self Hcount Hinv) as (self1 & Hread & Hinv1); [lia|].
    pose proof (quiet_read_config Serial serial_write serial_read esc self) as Hq.
    rewrite Hread in Hq. cbn [snd] in Hq.
    pose proof (after_traffic_warnings Serial _ _ Hq) as Hw.
    destruct Hq as (_ & Hcount1 & _).
    cbn [BlHeliSilabs.read_config_all_loop map filter].
    unfold bind at 1. rewrite Hread.
    destruct (R esc) as [[info common_esc] config] eqn:ER.
    replace (esc =? 0) with false by (symmetry; apply Z.eqb_neq; lia).
    change (common_of (info, common_esc, config)) with common_esc.
    change (esc_entry (info, common_esc, config))
      with (VContainer [("info", VContainer info); ("config", VContainer config)]).
    destruct (py_eq (VContainer common) (VContainer common_esc)) eqn:Eeq; cbn [negb].
    + unfold bind at 1. cbn [ret].
      destruct (IH (fun e He => Htodo e (or_intror He)) common
                  (escs ++ [VContainer [("info", VContainer info);
                                        ("config", VContainer config)]])
                  self1) as (self' & Hloop & Hwarn & Hc & Hi);
        [congruence | exact Hinv1 |].
      exists self'. rewrite Hloop, <- app_assoc.
      cbn [app]. rewrite Hwarn, Hw. auto.
    + unfold bind at 1. cbn [log].
      set (self2 := mkSelf _ _ _ _).
      destruct (IH (fun e He => Htodo e (or_intror He)) common
                  (escs ++ [VContainer [("info", VContainer info);
                                        ("config", VContainer config)]])
                  self2) as (self' & Hloop & Hwarn & Hc & Hi);
        [subst self2; cbn; congruence | exact Hinv1 |].
      exists self'. rewrite Hloop, <- app_assoc.
      cbn [app]. rewrite Hwarn. subst self2.
      unfold mismatch_warnings at 1. cbn [log_output].
      rewrite filter_app. cbn [filter]. rewrite mismatch_warning_is_one.
      fold (mismatch_warnings self1). rewrite Hw, <- app_assoc. auto.
Qed.

End ReadAll.

Lemma py_range_later (N : Z) : 1 <= N -> py_range N = 0 :: later_instances N.
Proof.
  intros H. unfold later_instances, py_range.
  destruct (Z.to_nat N) as [|k] eqn:E; [lia|]. reflexivity.
Qed.

Lemma later_instances_range (N esc : Z) : In esc (later_instances N) -> 0 < esc < N.
Proof.
  unfold later_instances, py_range.
  destruct (Z.to_nat N) as [|k] eqn:E; [contradiction|].
  cbn [seq map tl]. intros H. apply in_map_iff in H as (n & <- & Hn).
  apply in_seq in Hn. lia.
Qed.

Lemma later_instances_NoDup (N : Z) : NoDup (later_instances N).
Proof.
  unfold later_instances, py_range.
  destruct (Z.to_nat N) as [|k]; [constructor|].
  cbn [seq map tl]. generalize (seq_NoDup k 1). generalize (seq 1 k).
  induction 1 as [|n l Hnot _ IH]; cbn [map]; constructor; [|exact IH].
  intros H. apply in_map_iff in H as (m & Hm & Hin).
  apply Nat2Z.inj in Hm. subst m. contradiction.
Qed.

Lemma filter_none {A} (f : A -> bool) (l : list A) :
  (forall a, In a l -> f a = false) -> filter f l = [].
Proof.
  induction l as [|a l IH]; [reflexivity|]. intros H. cbn [filter].
  rewrite (H a (or_introl eq_refl)). apply IH. intros b Hb. apply H. now right.
Qed.

Lemma filter_all {A} (f : A -> bool) (l : list A) :
  (forall a, In a l -> f a = true) -> filter f l = l.
Proof.
  induction l as [|a l IH]; [reflexivity|]. intros H. cbn [filter].
  rewrite (H a (or_introl eq_refl)). f_equal. apply IH. intros b Hb. apply H. now right.
Qed.

Lemma filter_one {A} (f : A -> bool) (l : list A) (k : A) :
  NoDup l -> In k l -> f k = true ->
  (forall a, In a l -> a <> k -> f a = false) -> filter f l = [k].
Proof.
  induction 1 as [|a l Hnot Hnd IH]; [contradiction|].
  intros Hin Hk Hothers. cbn [filter]. destruct Hin as [->|Hin].
  - rewrite Hk. f_equal. apply filter_none. intros b Hb. apply Hothers; [now right|].
    intros ->. contradiction.
  - rewrite (Hothers a (or_introl eq_refl)) by (intros ->; contradiction).
    apply IH; auto. intros b Hb. apply Hothers. now right.
Qed.

(** C7, as the code has it: on a rig of N >= 2 instances that answer,
    [read_config_all] returns normally with every instance's results, and it
    compares every later instance with the first one.  It emits no mismatch
    warning when the common configs are all identical; exactly one, naming
    the instance, when exactly one instance other than the first differs
    from the others; and one warning for each of the N - 1 later instances,
    none of them naming the first, when the first instance is the one that
    differs. *)
Theorem read_config_all_compares_with_first
    (Serial : Type)
    (serial_write : bytes -> Serial -> result unit * Serial)
    (serial_read : Z -> Serial -> result bytes * Serial)
    (N : Z) (Inv : Serial -> Prop) (R : Z -> dict * dict * dict)
    (self : BLHeli4WayInterface.self_t Serial) :
  answers_read_config serial_write serial_read N Inv R ->
  2 <= N ->
  BLHeli4WayInterface.count self = N ->
  Inv (BLHeli4WayInterface.serial_connection self) ->
  reports_mismatches serial_write serial_read N R self.
Proof.
  intros rig HN Hcount Hinv.
  destruct (rig 0 self Hcount Hinv) as (self1 & Hread & Hinv1); [lia|].
  pose proof (quiet_read_config Serial serial_write serial_read 0 self) as Hq.
  rewrite Hread in Hq. cbn [snd] in Hq.
  pose proof (after_traffic_warnings Serial _ _ Hq) as Hw.
  destruct Hq as (_ & Hcount1 & _).
  destruct (read_config_all_loop_later Serial serial_write serial_read N Inv R rig
              (later_instances N) (later_instances_range N)
              (common_of (R 0)) [esc_entry (R 0)] self1)
    as (self' & Hloop & Hwarn & _ & _); [congruence | exact Hinv1 |].
  assert (Hall : BlHeliSilabs.read_config_all Serial serial_write serial_read self
                 = (Ok (common_of (R 0),
                        map (fun esc => esc_entry (R esc)) (py_range N)), self')).
  { unfold BlHeliSilabs.read_config_all, BLHeli4WayInterface.get_count.
    unfold BLHeli4WayInterface.bind at 1. rewrite Hcount.
    unfold BLHeli4WayInterface.bind at 1.
    rewrite (py_range_later N) by lia.
    cbn [BlHeliSilabs.read_config_all_loop map].
    unfold BLHeli4WayInterface.bind at 1. rewrite Hread.
    destruct (R 0) as [[info common0] config] eqn:ER.
    change (0 =? 0) with true. cbn iota. cbn [app].
    change (common_of (info, common0, config)) with common0 in Hloop.
    change (esc_entry (info, common0, config))
      with (VContainer [("info", VContainer info); ("config", VContainer config)])
      in Hloop.
    rewrite Hloop. reflexivity. }
  exists self'. split; [exact Hall|].
  assert (Hlist : mismatch_warnings self'
                  = mismatch_warnings self
                    ++ map BlHeliSilabs.mismatch_warning
                         (filter (differs R) (later_instances N))).
  { rewrite Hwarn, Hw. reflexivity. }
  split; [exact Hlist|]. split; [|split].
  - intros Hsame. rewrite Hlist, (filter_none _ _ Hsame). apply app_nil_r.
  - intros k Hk Hdiff Hothers. rewrite Hlist.
    now rewrite (filter_one _ _ k (later_instances_NoDup N) Hk Hdiff Hothers).
  - intros Hodd. rewrite Hlist, (filter_all _ _ Hodd). reflexivity.
Qed.

Lemma simulated_rig_answers (images : list bytes) :
  images = rig3 \/ images = rig3_first_odd ->
  answers_read_config Simulation.serial_write Simulation.serial_read 3
    (fun r => Simulation.images r = images) (rig_results images).
Proof.
  intros Himages esc [verbose count [images' selected pending] logs] Hcount Hinv Hesc.
  cbn in Hcount, Hinv. subst count images'.
  exists (snd (BlHeliSilabs.read_config Simulation.rig Simulation.serial_write
                 Simulation.serial_read esc
                 (BLHeli4WayInterface.mkSelf verbose 3
                    (Simulation.mkRig images selected pending) logs))).
  assert (Hcases : esc = 0 \/ esc = 1 \/ esc = 2) by lia.
  split.
  - rewrite (surjective_pairing (BlHeliSilabs.read_config _ _ _ _ _)) at 1.
    f_equal.
    destruct Himages as [-> | ->]; destruct Hcases as [-> | [-> | ->]];
      destruct verbose; vm_compute; reflexivity.
  - destruct Himages as [-> | ->]; destruct Hcases as [-> | [-> | ->]];
      destruct verbose; vm_compute; reflexivity.
Qed.

Lemma read_config_all_compares_with_first_witness :
  (2 <= 3
   /\ BLHeli4WayInterface.count (Simulation.session false rig3) = 3
   /\ Simulation.images
        (BLHeli4WayInterface.serial_connection (Simulation.session false rig3)) = rig3)
  /\ reports_mismatches Simulation.serial_write Simulation.serial_read 3
       (rig_results rig3) (Simulation.session false rig3).
Proof.
  assert (H1 : 2 <= 3) by lia.
  assert (H2 : BLHeli4WayInterface.count (Simulation.session false rig3) = 3)
    by reflexivity.
  assert (H3 : Simulation.images
                 (BLHeli4WayInterface.serial_connection (Simulation.session false rig3))
               = rig3) by reflexivity.
  split; [auto|].
  exact (read_config_all_compares_with_first Simulation.rig Simulation.serial_write
           Simulation.serial_read 3 (fun r => Simulation.images r = rig3)
           (rig_results rig3) (Simulation.session false rig3)
           (simulated_rig_answers rig3 (or_introl eq_refl)) H1 H2 H3).
Defined.

(** Against C7 as the specification words it: of three simulated instances
    the first differs from the two others in exactly one common-config field
    (beep_strength), the two others being identical; [read_config_all]
    returns normally and emits two mismatch warnings, which name the second
    and the third instance and not the one that differs. *)
Lemma read_config_all_blames_the_others :
  (dict_get (common_of (rig_results rig3_first_odd 0)) "beep_strength" = Some (VInt 100)
   /\ dict_get (common_of (rig_results rig3_first_odd 1)) "beep_strength" = Some (VInt 40)
   /\ forallb (fun field =>
                 String.eqb field "beep_strength"
                 || match dict_get (common_of (rig_results rig3_first_odd 0)) field,
                          dict_get (common_of (rig_results rig3_first_odd 1)) field with
                    | Some a, Some b => py_eq a b
                    | _, _ => false
                    end)
              BlHeliSilabs.COMMON_CONFIG_FIELDS = true
   /\ common_of (rig_results rig3_first_odd 1) = common_of (rig_results rig3_first_odd 2))
  /\ (exists returned,
        fst (Simulation.read_config_all (Simulation.session false rig3_first_odd))
        = Ok returned)
  /\ BLHeli4WayInterface.log_output
       (snd (Simulation.read_config_all (Simulation.session false rig3_first_odd)))
     = [ [VStr "Warning : Common config mismatch for ESC #2"];
         [VStr "Warning : Common config mismatch for ESC #3"] ].
Proof.
  split; [repeat split; vm_compute; reflexivity|].
  split; [eexists; vm_compute; reflexivity|].
  vm_compute. reflexivity.
Qed.

(* ================================================================== *)
(** * write_config *)
(* ================================================================== *)

Lemma flag_reencoded (z : Z) :
  (Z_of_byte (if z =? 0 then x00 else x01) =? 0) = (z =? 0).
Proof. now destruct (z =? 0). Qed.

Lemma reencoded_length (data : bytes) : List.length (reencoded data) = 112%nat.
Proof. unfold reencoded. now rewrite length_map, length_seq. Qed.

Lemma reencoded_decodes (data : bytes) :
  (112 <= List.length data)%nat ->
  texts_valid (reencoded data) = texts_valid data
  /\ image_fields (reencoded data) = image_fields data.
Proof.
  intros Hlen. explode_image data Hlen. clear Hlen.
  unfold texts_valid, text_bytes, slice, image_fields, flag_at, byte_at, reencoded.
  cbn [seq map]. unfold reencoded_byte.
  cbn [reserved is_flag Nat.leb Nat.ltb Nat.eqb andb orb nth firstn skipn byte_at].
  unfold byte_at. cbn [nth].
  rewrite !flag_reencoded. split; reflexivity.
Qed.

Lemma EEPROM_parse_reencoded (data : bytes) :
  (112 <= List.length data)%nat -> texts_valid data = true ->
  construct.parse BlHeliSilabs.EEPROM_LAYOUT (reencoded data)
  = Ok (VContainer (image_fields data)).
Proof.
  intros Hlen Hvalid. destruct (reencoded_decodes data Hlen) as [Hv Hf].
  rewrite EEPROM_parse_long by (rewrite reencoded_length; lia).
  now rewrite Hv, Hvalid, Hf.
Qed.

Section WriteConfig.

Import BLHeli4WayInterface.

Variable Serial : Type.
Variable serial_write : bytes -> Serial -> result unit * Serial.
Variable serial_read : Z -> Serial -> result bytes * Serial.

Lemma bind_Ok {A B} (m : M Serial A) (k : A -> M Serial B) self b self2 :
  bind m k self = (Ok b, self2) ->
  exists a self1, m self = (Ok a, self1) /\ k a self1 = (Ok b, self2).
Proof.
  unfold bind. destruct (m self) as [[a|e] self1]; [eauto|discriminate].
Qed.

Lemma logged_nil (self : self_t Serial) : logged self [] = self.
Proof. destruct self. unfold logged. cbn. now rewrite app_nil_r. Qed.

Lemma logged_logged (self : self_t Serial) (a b : list (list value)) :
  logged (logged self a) b = logged self (a ++ b).
Proof. unfold logged. cbn. now rewrite app_assoc. Qed.

Lemma patch_logs (params : dict) :
  forall (eeprom : dict) (self : self_t Serial),
    BlHeliSilabs.patch Serial eeprom params self
    = (Ok (patched eeprom params),
       logged self (map invalid_parameter (unknown_names params))).
Proof.
  induction params as [|[key value] params IH]; intros eeprom self.
  - cbn. now rewrite logged_nil.
  - cbn [BlHeliSilabs.patch patched]. unfold unknown_names. cbn [map fst filter].
    fold (recognized key). destruct (recognized key); cbn [negb].
    + apply IH.
    + unfold bind at 1. cbn [log]. rewrite IH.
      fold (unknown_names params). f_equal.
      change (mkSelf (verbose self) (count self) (serial_connection self)
                (log_output self ++ [[VStr "Invalid parameter"; VStr key]]))
        with (logged self [invalid_parameter key]).
      now rewrite logged_logged.
Qed.

Lemma bind_eq {A B} (m : M Serial A) (k : A -> M Serial B) (self : self_t Serial) :
  bind m k self
  = match m self with
    | (Ok a, self') => k a self'
    | (Raise e, self') => (Raise e, self')
    end.
Proof. unfold bind. now destruct (m self) as [[a|e] self']. Qed.

Lemma write_config_phases (esc : Z) (params : dict) (self : self_t Serial) :
  BlHeliSilabs.write_config Serial serial_write serial_read esc params self
  = match read_phase serial_write serial_read esc self with
    | (Ok eeprom, self1) =>
        write_back serial_write serial_read esc (patched eeprom params)
          (logged self1 (map invalid_parameter (unknown_names params)))
    | (Raise e, self1) => (Raise e, self1)
    end.
Proof.
  unfold BlHeliSilabs.write_config, read_phase.
  rewrite !bind_eq. unfold get_count. cbv beta iota.
  rewrite !bind_eq.
  destruct (assert ((0 <=? esc) && (esc <? count self)) self) as [[[]|e] self0];
    [|reflexivity].
  rewrite !bind_eq.
  destruct (init_flash Serial serial_write serial_read esc self0) as [[kind|e] self1];
    [|reflexivity].
  rewrite !bind_eq.
  destruct (BlHeliSilabs.read_eeprom Serial serial_write serial_read self1)
    as [[eeprom|e] self2]; [|reflexivity].
  rewrite bind_eq, patch_logs. reflexivity.
Qed.

End WriteConfig.

Lemma dict_get_set_other (d : dict) (k k' : string) (v : value) :
  k <> k' -> dict_get (dict_set d k v) k' = dict_get d k'.
Proof.
  intros Hne. induction d as [|[k0 v0] d IH]; cbn [dict_set dict_get].
  - destruct (String.eqb k k') eqn:E; [apply String.eqb_eq in E; contradiction|reflexivity].
  - destruct (String.eqb k0 k) eqn:E0; cbn [dict_get].
    + apply String.eqb_eq in E0. subst k0.
      destruct (String.eqb k k') eqn:E; [apply String.eqb_eq in E; contradiction|reflexivity].
    + destruct (String.eqb k0 k'); [reflexivity|exact IH].
Qed.

Lemma dict_set_keys (d : dict) (k : string) (v : value) :
  In k (map fst d) -> map fst (dict_set d k v) = map fst d.
Proof.
  induction d as [|[k0 v0] d IH]; [contradiction|].
  cbn [map fst dict_set]. intros Hin.
  destruct (String.eqb k0 k) eqn:E; [reflexivity|].
  cbn [map fst]. f_equal. apply IH. destruct Hin as [->|Hin]; [|exact Hin].
  rewrite String.eqb_refl in E. discriminate.
Qed.

Lemma recognized_in (key : string) :
  recognized key = true ->
  In key (BlHeliSilabs.COMMON_CONFIG_FIELDS ++ BlHeliSilabs.ESC_CONFIG_FIELDS).
Proof.
  unfold recognized, BlHeliSilabs.contains. rewrite <- existsb_app.
  intros H. apply existsb_exists in H as (k & Hin & Heq).
  apply String.eqb_eq in Heq. now subst.
Qed.

Lemma patched_keys (params : dict) :
  forall eeprom,
    (forall k, In k (BlHeliSilabs.COMMON_CONFIG_FIELDS ++ BlHeliSilabs.ESC_CONFIG_FIELDS) ->
               In k (map fst eeprom)) ->
    map fst (patched eeprom params) = map fst eeprom.
Proof.
  induction params as [|[key value] params IH]; intros eeprom Hkeys; [reflexivity|].
  cbn [patched]. destruct (recognized key) eqn:E; [|now apply IH].
  assert (Hset : map fst (dict_set eeprom key value) = map fst eeprom)
    by (apply dict_set_keys, Hkeys, recognized_in, E).
  rewrite IH; [exact Hset|]. now rewrite Hset.
Qed.

Lemma patched_get (params : dict) (k : string) :
  forall eeprom,
    In k (map fst params) \/ dict_get (patched eeprom params) k = dict_get eeprom k.
Proof.
  induction params as [|[key value] params IH]; intros eeprom; [now right|].
  cbn [patched map fst In].
  destruct (string_dec key k) as [->|Hne]; [now left; left|].
  destruct (recognized key).
  - destruct (IH (dict_set eeprom key value)) as [H|H]; [left; now right|].
    right. rewrite H. now apply dict_get_set_other.
  - destruct (IH eeprom) as [H|H]; [left; now right|now right].
Qed.

Lemma patched_get_unrecognized (params : dict) (k : string) :
  recognized k = false ->
  forall eeprom, dict_get (patched eeprom params) k = dict_get eeprom k.
Proof.
  intros Hk. induction params as [|[key value] params IH]; intros eeprom; [reflexivity|].
  cbn [patched]. destruct (recognized key) eqn:E; [|apply IH].
  rewrite IH. apply dict_get_set_other. intros ->. congruence.
Qed.

Section BuildInversion.
Import construct.
Variables (fs : list field) (d : dict).

Lemma bstep_inv (n : string) (c : Construct) (v : value) (image : bytes) :
  dict_get d n = Some v ->
  Struct_build ((n // c) :: fs) d = Ok image ->
  exists bs rest,
    _build c v = Ok bs /\ Struct_build fs d = Ok rest /\ image = bs ++ rest.
Proof.
  intros Hv. cbn [Struct_build Renamed Struct_subobj]. rewrite Hv. cbn [rbind].
  destruct (_build c v) as [bs|e]; [|discriminate]. cbn [rbind].
  destruct (Struct_build fs d) as [rest|e]; [|discriminate]. cbn [rbind].
  intros H. injection H as <-. eauto.
Qed.

Lemma bstep_pad_inv (k : nat) (p : byte) (image : bytes) :
  Struct_build (Unnamed (Padding k p) :: fs) d = Ok image ->
  exists rest, Struct_build fs d = Ok rest /\ image = repeat p k ++ rest.
Proof.
  cbn [Struct_build Unnamed Struct_subobj flagbuildnone Padding rbind _build].
  destruct (Struct_build fs d) as [rest|e]; [|discriminate]. cbn [rbind].
  intros H. injection H as <-. eauto.
Qed.
End BuildInversion.

Lemma Byte_build_inv (w : value) (bs : bytes) :
  construct._build construct.Byte w = Ok bs -> exists b, bs = [b].
Proof.
  cbn [construct._build construct.Byte construct.FormatField_B].
  destruct (as_int w); [|discriminate]. destruct (byte_of_Z z); [|discriminate].
  intros H. injection H as <-. eauto.
Qed.

Lemma Enum_Byte_build_inv (names : list (string * Z)) (w : value) (bs : bytes) :
  construct._build (construct.Enum construct.Byte names) w = Ok bs -> exists b, bs = [b].
Proof.
  cbn [construct._build construct.Enum].
  destruct (as_int w) eqn:E; [apply Byte_build_inv|].
  destruct w; try discriminate; cbn [as_str];
    destruct (construct.encmapping names _); try discriminate; apply Byte_build_inv.
Qed.

Lemma Flag_build_inv (w : value) (bs : bytes) :
  construct._build construct.Flag w = Ok bs -> exists b, bs = [b].
Proof. cbn. intros H. injection H as <-. eauto. Qed.

Ltac inv_step H :=
  lazymatch type of H with
  | construct.Struct_build (construct.Unnamed (construct.Padding _ _) :: _) _ = Ok _ =>
      let rest := fresh "rest" in
      apply bstep_pad_inv in H; destruct H as (rest & H & ->)
  | construct.Struct_build ((_ // _) :: _) _ = Ok _ =>
      let bs := fresh "bs" in
      let rest := fresh "rest" in
      let F := fresh "F" in
      eapply bstep_inv in H;
        [|cbn [dict_get String.eqb Ascii.eqb Bool.eqb]; reflexivity];
      destruct H as (bs & rest & F & H & ->)
  end.

Lemma config_keys_present (data : bytes) (k : string) :
  In k (BlHeliSilabs.COMMON_CONFIG_FIELDS ++ BlHeliSilabs.ESC_CONFIG_FIELDS) ->
  In k (map fst (image_fields data)).
Proof.
  intros H. cbn in H.
  repeat (destruct H as [<-|H]; [cbn; tauto|]). contradiction.
Qed.

Ltac info_field Hinfo name :=
  let I := fresh "I" in
  pose proof (Hinfo name eq_refl) as I;
  cbn [dict_get String.eqb Ascii.eqb Bool.eqb] in I;
  match type of I with
  | Some ?w = Some ?v =>
      let E := fresh "E" in
      assert (E : w = v) by (now injection I); clear I; subst w
  end.

Ltac config_field Hget name :=
  let D := fresh "D" in
  pose proof (Hget name) as D;
  cbn [dict_get String.eqb Ascii.eqb Bool.eqb] in D.

Ltac settle_field :=
  match goal with
  | F : construct._build construct.Byte (VInt (Z_of_byte _)) = Ok _ |- _ =>
      rewrite Byte_build_of_byte in F; injection F as <-
  | F : construct._build (construct.Enum construct.Int16ub _) _ = Ok _ |- _ =>
      rewrite Enum_Int16ub_build_decode in F by assumption; injection F as <-
  | F : construct._build (construct.PaddedString _) _ = Ok _ |- _ =>
      rewrite PaddedString_build_text in F by (reflexivity || assumption);
      injection F as <-
  | F : construct._build ?c ?w = Ok ?bs, D : ?L \/ Some ?w = Some ?v |- _ =>
      let D' := fresh "P" in
      assert (D' : L \/ construct._build c v = Ok bs)
        by (destruct D as [D|D];
            [left; exact D | right; injection D as D; rewrite <- D; exact F]);
      clear D;
      first [ apply Byte_build_inv in F | apply Enum_Byte_build_inv in F
            | apply Flag_build_inv in F ];
      destruct F as [? ->];
      first [ rewrite Byte_build_of_byte in D'
            | rewrite Enum_Byte_build_decode in D' by assumption
            | rewrite Flag_build_bool in D' ]
  end.

Lemma EEPROM_build_patched (data : bytes) (params : dict) (image : bytes) :
  (112 <= List.length data)%nat ->
  texts_valid data = true ->
  construct.build BlHeliSilabs.EEPROM_LAYOUT
    (VContainer (patched (image_fields data) params)) = Ok image ->
  List.length image = 112%nat
  /\ forall offset, (offset < 112)%nat -> byte_preserved params data image offset.
Proof.
  intros Hlen Hvalid Hbuild.
  pose proof (patched_keys params (image_fields data) (config_keys_present data)) as Hkeys.
  pose proof (fun k => patched_get params k (image_fields data)) as Hget.
  pose proof (fun k H => patched_get_unrecognized params k H (image_fields data)) as Hinfo.
  remember (patched (image_fields data) params) as P eqn:HP. clear HP.
  explode_image data Hlen. clear Hlen.
  unfold texts_valid, text_bytes, slice in Hvalid. cbn [firstn skipn] in Hvalid.
  apply andb_prop in Hvalid as [Hvalid H3]. apply andb_prop in Hvalid as [H1 H2].
  destruct names_nodup as (N1 & N2 & N3 & N4 & N5 & N6 & N7).
  unfold image_fields, flag_at, byte_at, text_bytes, slice in Hkeys, Hget, Hinfo.
  cbn [nth firstn skipn map fst] in Hkeys, Hget, Hinfo.
  do 22 (destruct P as [|[? ?] P]; [discriminate Hkeys|];
         cbn [map fst] in Hkeys; injection Hkeys as -> Hkeys).
  destruct P; [|discriminate Hkeys]. clear Hkeys.
  info_field Hinfo "main_revision". info_field Hinfo "sub_revision".
  info_field Hinfo "layout_revision". info_field Hinfo "mode".
  info_field Hinfo "layout". info_field Hinfo "mcu". info_field Hinfo "name".
  config_field Hget "startup_power". config_field Hget "motor_direction".
  config_field Hget "programming_by_tx". config_field Hget "commutation_timing".
  config_field Hget "ppm_min_throttle". config_field Hget "ppm_max_throttle".
  config_field Hget "beep_strength". config_field Hget "beacon_strength".
  config_field Hget "beacon_delay". config_field Hget "demag_compensation".
  config_field Hget "ppm_center_throttle". config_field Hget "temperature_protection".
  config_field Hget "low_rpm_power_protection". config_field Hget "brake_on_stop".
  config_field Hget "led_control".
  clear Hget Hinfo.
  unfold construct.build, BlHeliSilabs.EEPROM_LAYOUT, BlHeliSilabs.EEPROM_FIELDS in Hbuild.
  cbn [construct._build construct.Struct] in Hbuild.
  do 32 (inv_step Hbuild).
  cbn [construct.Struct_build] in Hbuild. injection Hbuild as <-.
  repeat settle_field.
  split; [reflexivity|].
  intros offset Hoff.
  do 112 (destruct offset as [|offset];
          [ unfold byte_preserved; cbn [config_field_at nth app repeat];
            first [ reflexivity
                  | match goal with
                    | P : ?L \/ _ |- ?L \/ _ =>
                        destruct P as [P|P];
                        [left; exact P | right; injection P as <-; reflexivity]
                    end ]
          |]).
  lia.
Qed.

Lemma build_device_write (image : bytes) :
  (List.length image <= 255)%nat ->
  BLHeliProtocol.build (VStr "device_write") (VInt BlHeliSilabs.CONFIG_ADDRESS)
    (VBytes image)
  = Ok (request_frame 59 6656 (map Z_of_byte image)).
Proof.
  intros Hlen. apply build_items_request_frame.
  - apply COMMAND_ENUM_build_name. cbn. tauto.
  - unfold BlHeliSilabs.CONFIG_ADDRESS. lia.
  - cbn [py_iter]. now rewrite map_map.
  - apply Forall_forall. intros z Hz. apply in_map_iff in Hz as (b & <- & _).
    apply Z_of_byte_range.
  - now rewrite length_map.
Qed.

Lemma patched_recognized_only (params : dict) :
  forall eeprom,
    patched eeprom params
    = patched eeprom (filter (fun kv => recognized (fst kv)) params).
Proof.
  induction params as [|[key value] params IH]; intros eeprom; [reflexivity|].
  cbn [patched filter fst]. destruct (recognized key) eqn:E.
  - cbn [patched]. rewrite E. apply IH.
  - apply IH.
Qed.

Lemma patched_unknown_only (params : dict) (eeprom : dict) :
  (forall key, In key (map fst params) -> recognized key = false) ->
  patched eeprom params = eeprom.
Proof.
  induction params as [|[key value] params IH]; intros H; [reflexivity|].
  cbn [patched]. rewrite (H key) by now left.
  apply IH. intros k Hk. apply H. now right.
Qed.

(* ================================================================== *)
(** * Exchanges with the device *)
(* ================================================================== *)

Lemma Z_of_to_byte (z : Z) : 0 <= z <= 255 -> Z_of_byte (to_byte z) = z.
Proof. intros H. now destruct (to_byte_spec z H). Qed.

Lemma crc_bytes (crc : Z) :
  0 <= crc < 65536 ->
  256 * Z_of_byte (to_byte (crc / 256)) + Z_of_byte (to_byte (crc mod 256)) = crc.
Proof.
  intros H.
  assert (H1 : 0 <= crc / 256 <= 255).
  { split; [apply Z.div_pos; lia|]. apply Z.lt_succ_r, Z.div_lt_upper_bound; lia. }
  assert (H2 : 0 <= crc mod 256 <= 255) by (pose proof (Z.mod_pos_bound crc 256); lia).
  rewrite !Z_of_to_byte by assumption.
  pose proof (Z.div_mod crc 256). lia.
Qed.

Lemma parse_device_response (r : reply) :
  (List.length (reply_payload r) <= 255)%nat ->
  BLHeliProtocol.parse (device_response r) = Ok (response_fields r).
Proof.
  intros Hlen.
  pose proof (parse_response_frame (device_response r)) as H.
  assert (E : response_frame (device_response r) = Some (response_fields r)).
  { clear H. destruct r as [opcode hi lo payload ack].
    unfold device_response, response_fields.
    cbn [reply_opcode reply_hi reply_lo reply_payload reply_ack] in *.
    set (body := response_body _).
    set (crc := BLHeliProtocol.CRC16_XMODEM body).
    pose proof (CRC16_range body) as Hcrc. fold crc in Hcrc.
    unfold response_frame.
    rewrite drop_last2_app. fold crc.
    unfold body at 1, response_body.
    cbn [reply_opcode reply_hi reply_lo reply_payload reply_ack app].
    rewrite Z_of_to_byte by lia. rewrite Nat2Z.id.
    rewrite <- app_assoc.
    rewrite skipn_app, skipn_all, Nat.sub_diag. cbn [skipn app].
    rewrite firstn_app, firstn_all, Nat.sub_diag. cbn [firstn]. rewrite app_nil_r.
    change (Z_of_byte x2e) with 46. cbn [Z.eqb Pos.eqb negb].
    rewrite crc_bytes by exact Hcrc. rewrite Z.eqb_refl. cbn [negb].
    reflexivity. }
  now rewrite E in H.
Qed.

Section Exchanges.

Import BLHeli4WayInterface.

Variable Serial : Type.
Variable serial_write : bytes -> Serial -> result unit * Serial.
Variable serial_read : Z -> Serial -> result bytes * Serial.

Lemma moved_moved (self : self_t Serial) (p q : Serial) (a b : list (list value)) :
  moved (moved self p a) q b = moved self q (a ++ b).
Proof. unfold moved. cbn. now rewrite app_assoc. Qed.

Lemma moved_nil (self : self_t Serial) :
  moved self (serial_connection self) [] = self.
Proof. destruct self. unfold moved. cbn. now rewrite app_nil_r. Qed.

Lemma request_response (command address payload : value) (size : Z)
    (request response : bytes) (self : self_t Serial) (port' : Serial) :
  BLHeliProtocol.build command address payload = Ok request ->
  exchange serial_write serial_read request size response
    (serial_connection self) port' ->
  bind (send_command Serial serial_write command address payload)
       (fun _ => read_response Serial serial_read size) self
  = (BLHeliProtocol.parse response,
     moved self port' (traffic (verbose self) request response)).
Proof.
  intros Hbuild (mid & Hw & Hr).
  unfold send_command, read_response, bind, lift, serial_connection_write,
    serial_connection_read, get_verbose, sleep, ret, log, moved, traffic.
  rewrite Hbuild. cbn [protocol.build]. rewrite Hw. cbn [verbose count serial_connection log_output].
  destruct (verbose self); cbn [verbose count serial_connection log_output];
    rewrite Hr; cbn [verbose count serial_connection log_output].
  - rewrite <- app_assoc. reflexivity.
  - rewrite app_nil_r. reflexivity.
Qed.

Lemma refused_request (command address payload : value) (e : exn)
    (self : self_t Serial) :
  BLHeliProtocol.build command address payload = Raise e ->
  send_command Serial serial_write command address payload self = (Raise e, self).
Proof.
  intros Hbuild. unfold send_command, bind, lift. now rewrite Hbuild.
Qed.

End Exchanges.

Lemma init_flash_opcode (opcode : byte) :
  py_eq (construct.Enum_decode BLHeliProtocol.COMMAND_NAMES (Z_of_byte opcode))
        (VStr "device_init_flash")
  = Byte.eqb opcode x37.
Proof. destruct opcode; vm_compute; reflexivity. Qed.

Lemma silabs_mode (mode : byte) :
  py_eq (construct.Enum_decode BLHeliProtocol.MODE_NAMES (Z_of_byte mode)) (VStr "SiLabsC2")
  || py_eq (construct.Enum_decode BLHeliProtocol.MODE_NAMES (Z_of_byte mode)) (VStr "SiLabsBLB")
  = (Z_of_byte mode =? 0) || (Z_of_byte mode =? 1).
Proof. destruct mode; vm_compute; reflexivity. Qed.

Lemma parse_payload_response_fields (r : reply) :
  (List.length (reply_payload r) <= 255)%nat ->
  BLHeliProtocol.parse_payload (response_fields r)
  = if Byte.eqb (reply_opcode r) x37 then identification (reply_payload r)
    else Ok (VBytes (reply_payload r)).
Proof.
  intros Hlen.
  destruct (parse_payload_of_parsed _ _ (parse_device_response r Hlen))
    as (command & raw & Hc & Hp & ->).
  cbn in Hc, Hp. injection Hc as <-. injection Hp as Hp.
  rewrite init_flash_opcode.
  assert (raw = reply_payload r).
  { clear -Hp. revert raw Hp.
    induction (reply_payload r) as [|b payload IH]; intros [|c raw] H;
      try discriminate H; [reflexivity|].
    cbn [map] in H. injection H as Hb H. apply Z_of_byte_inj in Hb. subst c.
    f_equal. apply IH. exact H. }
  now subst raw.
Qed.

Section Operations.

Import BLHeli4WayInterface.

Variable Serial : Type.
Variable serial_write : bytes -> Serial -> result unit * Serial.
Variable serial_read : Z -> Serial -> result bytes * Serial.

Lemma request_response_then {A} (command address payload : value) (size : Z)
    (request response : bytes) (self : self_t Serial) (port' : Serial)
    (k : dict -> M Serial A) :
  BLHeliProtocol.build command address payload = Ok request ->
  exchange serial_write serial_read request size response
    (serial_connection self) port' ->
  bind (send_command Serial serial_write command address payload)
       (fun _ => bind (read_response Serial serial_read size) k) self
  = match BLHeliProtocol.parse response with
    | Ok fields => k fields (moved self port' (traffic (verbose self) request response))
    | Raise e => (Raise e, moved self port' (traffic (verbose self) request response))
    end.
Proof.
  intros Hbuild Hx.
  pose proof (request_response Serial serial_write serial_read command address payload
                size request response self port' Hbuild Hx) as H.
  unfold bind in *.
  destruct (send_command Serial serial_write command address payload self)
    as [[[]|e] self1].
  - rewrite H. destruct (BLHeliProtocol.parse response); reflexivity.
  - injection H as <- <-. reflexivity.
Qed.

Lemma build_one_byte (name : string) (code arg : Z) :
  In (name, code) BLHeliProtocol.COMMAND_NAMES -> 0 <= arg <= 255 ->
  BLHeliProtocol.build (VStr name) BLHeliProtocol.default_address (VList [VInt arg])
  = Ok (request_frame code 0 [arg]).
Proof.
  intros Hname Harg.
  apply (build_request_frame name code 0 [arg] Hname); [lia| |cbn; lia].
  constructor; [exact Harg|constructor].
Qed.

Lemma init_flash_run (esc : Z) (r : reply)
    (self : self_t Serial) (port port' : Serial) :
  0 <= esc <= 255 -> (List.length (reply_payload r) <= 255)%nat ->
  exchange serial_write serial_read (request_frame 55 0 [esc]) 64
    (device_response r) port port' ->
  serial_connection self = port ->
  init_flash Serial serial_write serial_read esc self
  = (interface_type r,
     moved self port'
       (traffic (verbose self) (request_frame 55 0 [esc])
          (device_response r))).
Proof.
  intros Hesc Hlen Hx <-. unfold init_flash.
  rewrite (request_response_then _ _ _ _ _ _ _ _ _
             (build_one_byte "device_init_flash" 55 esc ltac:(cbn; tauto) Hesc) Hx).
  rewrite parse_device_response by exact Hlen.
  unfold bind at 1, lift at 1.
  rewrite parse_payload_response_fields by exact Hlen.
  unfold interface_type.
  destruct (Byte.eqb (reply_opcode r) x37).
  - destruct (reply_payload r) as [|b0 [|b1 [|b2 [|mode payload]]]]; try reflexivity.
    cbn [identification]. unfold bind, lift, ret.
    cbn [BLHeliProtocol.attr protocol.attr dict_get String.eqb Ascii.eqb Bool.eqb].
    rewrite silabs_mode.
    destruct ((Z_of_byte mode =? 0) || (Z_of_byte mode =? 1)); reflexivity.
  - reflexivity.
Qed.

Lemma py_bytes_payload (payload : bytes) :
  BLHeliProtocol.py_bytes (VList (map (fun b => VInt (Z_of_byte b)) payload)) = Ok payload.
Proof. exact (bytes_of_raw_ints payload). Qed.

Lemma read_memory_run (address length : Z) (r : reply) (self : self_t Serial) (port port' : Serial) :
  0 <= address < 65536 -> 0 <= length <= 255 -> (List.length (reply_payload r) <= 255)%nat ->
  exchange serial_write serial_read (request_frame 58 address [length]) (length + 8)
    (device_response r) port port' ->
  serial_connection self = port ->
  read_memory Serial serial_write serial_read address length self
  = (Ok (reply_payload r),
     moved self port'
       (traffic (verbose self) (request_frame 58 address [length])
          (device_response r))).
Proof.
  intros Haddr Hlength Hlen Hx <-. unfold read_memory.
  assert (Hbuild : BLHeliProtocol.build (VStr "device_read") (VInt address)
                     (VList [VInt length])
                   = Ok (request_frame 58 address [length])).
  { apply (build_request_frame "device_read" 58 address [length]);
      [cbn; tauto|exact Haddr| |cbn; lia].
    constructor; [exact Hlength|constructor]. }
  rewrite (request_response_then _ _ _ _ _ _ _ _ _ Hbuild Hx).
  rewrite parse_device_response by exact Hlen.
  unfold bind, lift.
  cbn [response_fields BLHeliProtocol.attr protocol.attr dict_get String.eqb Ascii.eqb Bool.eqb].
  rewrite py_bytes_payload. reflexivity.
Qed.

Lemma erase_page_run (page : Z) (r : reply) (self : self_t Serial) (port port' : Serial) :
  0 <= page <= 255 -> (List.length (reply_payload r) <= 255)%nat ->
  exchange serial_write serial_read (request_frame 57 0 [page]) 64
    (device_response r) port port' ->
  serial_connection self = port ->
  erase_page Serial serial_write serial_read page self
  = (Ok tt,
     moved self port'
       (traffic (verbose self) (request_frame 57 0 [page])
          (device_response r))).
Proof.
  intros Hpage Hlen Hx <-. unfold erase_page.
  rewrite (request_response_then _ _ _ _ _ _ _ _ _
             (build_one_byte "device_page_erase" 57 page ltac:(cbn; tauto) Hpage) Hx).
  now rewrite parse_device_response by exact Hlen.
Qed.

Lemma reset_esc_run (esc : Z) (r : reply) (self : self_t Serial) (port port' : Serial) :
  0 <= esc <= 255 -> (List.length (reply_payload r) <= 255)%nat ->
  exchange serial_write serial_read (request_frame 53 0 [esc]) 64
    (device_response r) port port' ->
  serial_connection self = port ->
  reset_esc Serial serial_write serial_read (Some esc) self
  = (Ok tt,
     moved self port'
       (traffic (verbose self) (request_frame 53 0 [esc])
          (device_response r))).
Proof.
  intros Hesc Hlen Hx <-. unfold reset_esc.
  rewrite (request_response_then _ _ _ _ _ _ _ _ _
             (build_one_byte "device_reset" 53 esc ltac:(cbn; tauto) Hesc) Hx).
  now rewrite parse_device_response by exact Hlen.
Qed.

Lemma test_alive_run (response : bytes) (self : self_t Serial) (port port' : Serial) :
  exchange serial_write serial_read (request_frame 48 0 [0]) 64 response
    port port' ->
  serial_connection self = port ->
  test_alive Serial serial_write serial_read self
  = (match BLHeliProtocol.parse response with
     | Ok _ => Ok tt
     | Raise e => Raise e
     end,
     moved self port' (traffic (verbose self) (request_frame 48 0 [0]) response)).
Proof.
  intros Hx <-. unfold test_alive.
  rewrite (request_response_then _ _ _ _ _ _ _ _ _
             (build_one_byte "interface_test_alive" 48 0 ltac:(cbn; tauto) ltac:(lia)) Hx).
  destruct (BLHeliProtocol.parse response); reflexivity.
Qed.

Lemma write_memory_run (address : Z) (data : bytes) (r : reply) (self : self_t Serial) (port port' : Serial) :
  0 <= address < 65536 -> (List.length data <= 255)%nat ->
  (List.length (reply_payload r) <= 255)%nat ->
  exchange serial_write serial_read (request_frame 59 address (map Z_of_byte data)) 64
    (device_response r) port port' ->
  serial_connection self = port ->
  write_memory Serial serial_write serial_read address data self
  = (Ok (response_fields r),
     moved self port'
       (traffic (verbose self) (request_frame 59 address (map Z_of_byte data))
          (device_response r))).
Proof.
  intros Haddr Hdata Hlen Hx <-. unfold write_memory, default_expected_length.
  assert (Hbuild : BLHeliProtocol.build (VStr "device_write") (VInt address) (VBytes data)
                   = Ok (request_frame 59 address (map Z_of_byte data))).
  { apply build_items_request_frame.
    - apply COMMAND_ENUM_build_name. cbn. tauto.
    - exact Haddr.
    - cbn [py_iter]. now rewrite map_map.
    - apply Forall_forall. intros z Hz. apply in_map_iff in Hz as (b & <- & _).
      apply Z_of_byte_range.
    - now rewrite length_map. }
  rewrite (request_response Serial serial_write serial_read _ _ _ _ _ _ _ _ Hbuild Hx).
  now rewrite parse_device_response by exact Hlen.
Qed.

End Operations.

Lemma project_device_info (data : bytes) :
  BlHeliSilabs.project (fun v => VStr (py_strip (py_str v))) (image_fields data)
    BlHeliSilabs.DEVICE_INFO_FIELDS []
  = Ok (device_info_of data).
Proof. reflexivity. Qed.

Lemma project_common_config (data : bytes) :
  BlHeliSilabs.project (fun v => v) (image_fields data)
    BlHeliSilabs.COMMON_CONFIG_FIELDS []
  = Ok (common_config_of data).
Proof. reflexivity. Qed.

Lemma project_esc_config (data : bytes) :
  BlHeliSilabs.project (fun v => v) (image_fields data)
    BlHeliSilabs.ESC_CONFIG_FIELDS []
  = Ok (esc_config_of data).
Proof. reflexivity. Qed.

Lemma address_6656 : 0 <= 6656 < 65536.
Proof. lia. Qed.

Lemma length_112 : 0 <= 112 <= 255.
Proof. lia. Qed.

Section Workflows.

Import BLHeli4WayInterface.

Variable Serial : Type.
Variable serial_write : bytes -> Serial -> result unit * Serial.
Variable serial_read : Z -> Serial -> result bytes * Serial.

Lemma read_eeprom_run (r : reply)
    (self : self_t Serial) (port port' : Serial) :
  (112 <= List.length (reply_payload r) <= 255)%nat ->
  exchange serial_write serial_read (request_frame 58 6656 [112]) 120
    (device_response r) port port' ->
  serial_connection self = port ->
  BlHeliSilabs.read_eeprom Serial serial_write serial_read self
  = (if texts_valid (reply_payload r) then Ok (image_fields (reply_payload r)) else Raise StringError,
     moved self port'
       (traffic (verbose self) (request_frame 58 6656 [112])
          (device_response r))).
Proof.
  intros Hlen Hx <-. unfold BlHeliSilabs.read_eeprom.
  change BlHeliSilabs.EEPROM_SIZE with (@Ok Z 112).
  change BlHeliSilabs.CONFIG_ADDRESS with 6656.
  rewrite bind_eq. unfold lift at 1. rewrite bind_eq.
  rewrite (read_memory_run Serial serial_write serial_read 6656 112 r
             self _ port' address_6656 length_112 (proj2 Hlen) Hx eq_refl).
  unfold bind, lift. rewrite EEPROM_parse_long by lia.
  destruct (texts_valid (reply_payload r)); reflexivity.
Qed.

End Workflows.

Section EndToEnd.

Import BLHeli4WayInterface.

Variable Serial : Type.
Variable serial_write : bytes -> Serial -> result unit * Serial.
Variable serial_read : Z -> Serial -> result bytes * Serial.

Lemma logged_moved (self : self_t Serial) (port : Serial) (a b : list (list value)) :
  logged (moved self port a) b = moved self port (a ++ b).
Proof. unfold logged, moved. cbn. now rewrite app_assoc. Qed.

Lemma page_13 : 0 <= 13 <= 255.
Proof. lia. Qed.

Lemma in_range (esc n : Z) : 0 <= esc < n -> (0 <=? esc) && (esc <? n) = true.
Proof. intros H. apply andb_true_intro. split; [apply Z.leb_le|apply Z.ltb_lt]; lia. Qed.

Lemma read_phase_run (esc : Z) (self : self_t Serial) (r1 r2 : reply) (kind : string)
    (port1 port2 : Serial) :
  0 <= esc < count self -> esc <= 255 ->
  (List.length (reply_payload r1) <= 255)%nat -> interface_type r1 = Ok kind ->
  (112 <= List.length (reply_payload r2) <= 255)%nat ->
  exchange serial_write serial_read (request_frame 55 0 [esc]) 64 (device_response r1)
    (serial_connection self) port1 ->
  exchange serial_write serial_read (request_frame 58 6656 [112]) 120 (device_response r2)
    port1 port2 ->
  read_phase serial_write serial_read esc self
  = (if texts_valid (reply_payload r2) then Ok (image_fields (reply_payload r2))
     else Raise StringError,
     moved self port2
       (traffic_log (verbose self)
          [ (request_frame 55 0 [esc], device_response r1);
            (request_frame 58 6656 [112], device_response r2) ])).
Proof.
  intros Hesc Hbyte Hlen1 Hkind Hlen2 Hx1 Hx2.
  unfold read_phase. rewrite bind_eq. unfold get_count at 1. cbv beta iota.
  rewrite in_range by exact Hesc. rewrite bind_eq. unfold assert at 1, ret at 1.
  cbv beta iota. rewrite bind_eq.
  rewrite (init_flash_run Serial serial_write serial_read esc r1 self _ port1
             (conj (proj1 Hesc) Hbyte) Hlen1 Hx1 eq_refl).
  rewrite Hkind.
  rewrite (read_eeprom_run Serial serial_write serial_read r2 _ _ port2 Hlen2 Hx2)
    by reflexivity.
  rewrite moved_moved. unfold traffic_log. cbn [flat_map fst snd moved verbose].
  now rewrite app_nil_r.
Qed.

Lemma write_back_run (esc : Z) (eeprom : dict) (self : self_t Serial) (r3 r4 r5 : reply)
    (image : bytes) (port2 port3 port4 port5 : Serial) :
  0 <= esc <= 255 ->
  (List.length (reply_payload r3) <= 255)%nat ->
  (List.length (reply_payload r4) <= 255)%nat ->
  (List.length (reply_payload r5) <= 255)%nat ->
  construct.build BlHeliSilabs.EEPROM_LAYOUT (VContainer eeprom) = Ok image ->
  (List.length image <= 255)%nat ->
  exchange serial_write serial_read (request_frame 57 0 [13]) 64 (device_response r3)
    port2 port3 ->
  exchange serial_write serial_read (request_frame 59 6656 (map Z_of_byte image)) 64
    (device_response r4) port3 port4 ->
  exchange serial_write serial_read (request_frame 53 0 [esc]) 64 (device_response r5)
    port4 port5 ->
  serial_connection self = port2 ->
  write_back serial_write serial_read esc eeprom self
  = (Ok tt,
     moved self port5
       (traffic_log (verbose self)
          [ (request_frame 57 0 [13], device_response r3);
            (request_frame 59 6656 (map Z_of_byte image), device_response r4);
            (request_frame 53 0 [esc], device_response r5) ])).
Proof.
  intros Hesc Hlen3 Hlen4 Hlen5 Hbuild Himage Hx3 Hx4 Hx5 <-.
  unfold write_back. rewrite bind_eq.
  rewrite (erase_page_run Serial serial_write serial_read 13 r3 self _ port3
             page_13 Hlen3 Hx3 eq_refl).
  rewrite bind_eq. unfold lift at 1. rewrite Hbuild. rewrite bind_eq.
  change BlHeliSilabs.CONFIG_ADDRESS with 6656.
  rewrite (write_memory_run Serial serial_write serial_read 6656 image r4 _ _ port4
             address_6656 Himage Hlen4 Hx4) by reflexivity.
  rewrite moved_moved.
  rewrite (reset_esc_run Serial serial_write serial_read esc r5 _ _ port5
             Hesc Hlen5 Hx5) by reflexivity.
  rewrite moved_moved.
  unfold traffic_log. cbn [flat_map fst snd moved verbose app].
  now rewrite app_nil_r, <- !app_assoc.
Qed.

Lemma write_back_stops (esc : Z) (eeprom : dict) (self : self_t Serial) (r3 : reply)
    (e : exn) (port2 port3 : Serial) :
  (List.length (reply_payload r3) <= 255)%nat ->
  construct.build BlHeliSilabs.EEPROM_LAYOUT (VContainer eeprom) = Raise e ->
  exchange serial_write serial_read (request_frame 57 0 [13]) 64 (device_response r3)
    port2 port3 ->
  serial_connection self = port2 ->
  write_back serial_write serial_read esc eeprom self
  = (Raise e,
     moved self port3
       (traffic_log (verbose self) [ (request_frame 57 0 [13], device_response r3) ])).
Proof.
  intros Hlen3 Hbuild Hx3 <-.
  unfold write_back. rewrite bind_eq.
  rewrite (erase_page_run Serial serial_write serial_read 13 r3 self _ port3
             page_13 Hlen3 Hx3 eq_refl).
  rewrite bind_eq. unfold lift at 1. rewrite Hbuild.
  unfold traffic_log. cbn [flat_map fst snd]. now rewrite app_nil_r.
Qed.

End EndToEnd.

(* ================================================================== *)
(** * Setting one field of the layout *)
(* ================================================================== *)

Lemma dict_get_set_same (d : dict) (k : string) (v : value) :
  dict_get (dict_set d k v) k = Some v.
Proof.
  induction d as [|[k0 v0] d IH]; cbn [dict_set dict_get].
  - now rewrite String.eqb_refl.
  - destruct (String.eqb k0 k) eqn:E; cbn [dict_get]; rewrite E; [reflexivity|exact IH].
Qed.

Section StructBuild.

Import construct.

Lemma Struct_build_app (a b : list field) (d : dict) :
  Struct_build (a ++ b) d
  = rbind (Struct_build a d) (fun x =>
    rbind (Struct_build b d) (fun y => Ok (x ++ y))).
Proof.
  induction a as [|[name sc] a IH]; cbn [app Struct_build rbind].
  - destruct (Struct_build b d); reflexivity.
  - destruct (Struct_subobj name sc d) as [subobj|e]; [|reflexivity]. cbn [rbind].
    destruct (_build sc subobj) as [data|e]; [|reflexivity]. cbn [rbind].
    rewrite IH. destruct (Struct_build a d) as [x|e]; [|reflexivity]. cbn [rbind].
    destruct (Struct_build b d) as [y|e]; [|reflexivity]. cbn [rbind].
    now rewrite app_assoc.
Qed.

Lemma Struct_build_other (fields : list field) (d : dict) (key : string) (v : value) :
  forallb (fun f => negb (named key f)) fields = true ->
  Struct_build fields (dict_set d key v) = Struct_build fields d.
Proof.
  induction fields as [|[name sc] fields IH]; [reflexivity|].
  cbn [forallb]. intros H. apply andb_prop in H as [Hf H].
  cbn [Struct_build]. rewrite (IH H).
  assert (E : Struct_subobj name sc (dict_set d key v) = Struct_subobj name sc d).
  { destruct name as [n|]; [|reflexivity]. cbn [Struct_subobj].
    unfold named in Hf. cbn [fst] in Hf.
    destruct (String.eqb n key) eqn:En; [discriminate Hf|].
    apply String.eqb_neq in En.
    rewrite dict_get_set_other by (intros ->; now apply En). reflexivity. }
  now rewrite E.
Qed.

Lemma fields_split (key : string) (fields : list field) (sc : Construct) :
  option_map snd (find (named key) fields) = Some sc ->
  fields = fields_before key fields ++ (Some key, sc) :: fields_after key fields
  /\ forallb (fun f => negb (named key f)) (fields_before key fields) = true.
Proof.
  induction fields as [|f fields IH]; [discriminate|].
  cbn [find fields_before fields_after].
  destruct (named key f) eqn:E.
  - cbn [option_map]. intros H. injection H as <-. cbn [app forallb].
    split; [|reflexivity]. f_equal. destruct f as [[n|] c]; [|discriminate E].
    unfold named in E. cbn [fst] in E. apply String.eqb_eq in E. now subst.
  - intros H. destruct (IH H) as [Hsplit Hbefore]. cbn [app forallb].
    rewrite E. cbn [negb andb]. split; [now f_equal|exact Hbefore].
Qed.

Lemma Struct_build_sized (fields : list field) (d : dict) (bs : bytes) (n : nat) :
  Forall (fun f => builds_sized (snd f)) fields ->
  Struct_build fields d = Ok bs -> Struct_sizeof fields = Some n ->
  List.length bs = n.
Proof.
  intros Hall. revert bs n.
  induction Hall as [|[name sc] fields Hsc _ IH]; intros bs n.
  - cbn. intros H1 H2. injection H1 as <-. injection H2 as <-. reflexivity.
  - cbn [Struct_build Struct_sizeof snd] in *.
    destruct (Struct_subobj name sc d) as [subobj|e]; [|discriminate]. cbn [rbind].
    destruct (_build sc subobj) as [data|e] eqn:Eb; [|discriminate]. cbn [rbind].
    destruct (Struct_build fields d) as [data'|e]; [|discriminate]. cbn [rbind].
    intros H. injection H as <-.
    destruct (_sizeof sc) as [k|] eqn:Es; [|discriminate].
    destruct (Struct_sizeof fields) as [m|]; [|discriminate].
    intros H. injection H as <-.
    rewrite length_app, (Hsc _ _ _ Eb Es), (IH data' m eq_refl eq_refl). reflexivity.
Qed.

Lemma builds_sized_Byte : builds_sized Byte.
Proof.
  intros v bs n. cbn [_build _sizeof Byte FormatField_B].
  destruct (as_int v) as [z|]; [|discriminate].
  destruct (byte_of_Z z); [|discriminate].
  intros H1 H2. injection H1 as <-. injection H2 as <-. reflexivity.
Qed.

Lemma builds_sized_Int16ub : builds_sized Int16ub.
Proof.
  intros v bs n. cbn [_build _sizeof Int16ub].
  destruct (as_int v) as [z|]; [|discriminate].
  destruct (byte_of_Z (z / 256)); [|discriminate].
  destruct (byte_of_Z (z mod 256)); [|discriminate].
  intros H1 H2. injection H1 as <-. injection H2 as <-. reflexivity.
Qed.

Lemma builds_sized_Flag : builds_sized Flag.
Proof.
  intros v bs n. cbn [_build _sizeof Flag].
  intros H1 H2. injection H1 as <-. injection H2 as <-. reflexivity.
Qed.

Lemma builds_sized_Enum (c : Construct) (names : list (string * Z)) :
  builds_sized c -> builds_sized (Enum c names).
Proof.
  intros Hc v bs n. cbn [_build _sizeof Enum].
  destruct (as_int v) as [z|]; [now apply Hc|].
  destruct v; try discriminate; cbn [as_str];
    destruct (encmapping names _); try discriminate; apply Hc.
Qed.

Lemma builds_sized_Padding (k : nat) (p : byte) : builds_sized (Padding k p).
Proof.
  intros v bs n. cbn [_build _sizeof Padding].
  intros H1 H2. injection H1 as <-. injection H2 as <-. apply repeat_length.
Qed.

Lemma builds_sized_PaddedString (k : nat) : builds_sized (PaddedString k).
Proof.
  intros v bs n. cbn [_build _sizeof PaddedString].
  destruct (as_str v) as [s|]; [|discriminate].
  destruct (negb (utf8_valid (list_byte_of_string s))); [discriminate|].
  destruct (k <? List.length (list_byte_of_string s))%nat eqn:E; [discriminate|].
  apply Nat.ltb_ge in E.
  intros H1 H2. injection H1 as <-. injection H2 as <-.
  rewrite length_app, repeat_length. lia.
Qed.

End StructBuild.

Lemma EEPROM_FIELDS_build_sized :
  Forall (fun f : construct.field => builds_sized (snd f)) BlHeliSilabs.EEPROM_FIELDS.
Proof.
  unfold BlHeliSilabs.EEPROM_FIELDS.
  repeat (apply Forall_cons;
          [ cbn [snd construct.Renamed construct.Unnamed];
            first [ apply builds_sized_Byte | apply builds_sized_Flag
                  | apply builds_sized_Enum; first [apply builds_sized_Byte
                                                   | apply builds_sized_Int16ub]
                  | apply builds_sized_Padding | apply builds_sized_PaddedString ]
          |]).
  apply Forall_nil.
Qed.

(** The facts about a recognized field that are read off the layout. *)
Lemma recognized_field (key : string) :
  recognized key = true ->
  exists sc offset,
    layout_field key = Some sc /\ offset_of key = Some offset
    /\ construct.Struct_sizeof (fields_before key BlHeliSilabs.EEPROM_FIELDS)
       = Some offset
    /\ construct._sizeof sc = Some 1%nat
    /\ forallb (fun f => negb (named key f))
         (fields_after key BlHeliSilabs.EEPROM_FIELDS) = true.
Proof.
  intros H. apply recognized_in in H. cbn in H.
  repeat (destruct H as [<-|H];
          [eexists; eexists; repeat split; vm_compute; reflexivity|]).
  contradiction.
Qed.

Section Refusal.

Import construct.

Lemma Struct_build_refuses (fields : list field) (d : dict) (key : string)
    (sc : Construct) (v : value) (e0 : exn) :
  option_map snd (find (named key) fields) = Some sc ->
  dict_get d key = Some v -> _build sc v = Raise e0 ->
  exists e, Struct_build fields d = Raise e.
Proof.
  intros Hsc Hv Hb.
  destruct (fields_split key fields sc Hsc) as [-> _].
  rewrite Struct_build_app.
  destruct (Struct_build (fields_before key fields) d) as [pre|e];
    [|cbn [rbind]; eauto].
  cbn [rbind Struct_build Struct_subobj]. rewrite Hv. cbn [rbind]. rewrite Hb.
  cbn [rbind]. eauto.
Qed.

End Refusal.

(* ================================================================== *)
(** * The options of the command line *)
(* ================================================================== *)

Lemma partition_eq_app (key value : string) :
  mentions "=" key = false ->
  blheli.partition_eq (key ++ String "=" value)%string = (key, Some value).
Proof.
  induction key as [|c key IH]; [reflexivity|].
  cbn [mentions String.append blheli.partition_eq]. intros H.
  apply orb_false_elim in H as [Hc H]. rewrite Hc, (IH H). reflexivity.
Qed.

Lemma partition_eq_Some (pair head tail : string) :
  blheli.partition_eq pair = (head, Some tail) ->
  pair = (head ++ String "=" tail)%string /\ mentions "=" head = false.
Proof.
  revert head. induction pair as [|c pair IH]; intros head; [discriminate|].
  cbn [blheli.partition_eq]. destruct (Ascii.eqb c "=") eqn:E.
  - intros H. injection H as <- <-. apply Ascii.eqb_eq in E. subst c. now split.
  - destruct (blheli.partition_eq pair) as [h t]. intros H. injection H as <- ->.
    destruct (IH h eq_refl) as [-> Hm]. cbn [String.append mentions].
    rewrite E, Hm. now split.
Qed.

Lemma partition_eq_None (pair : string) :
  mentions "=" pair = false <-> snd (blheli.partition_eq pair) = None.
Proof.
  induction pair as [|c pair IH]; [now split|].
  cbn [mentions blheli.partition_eq]. destruct (Ascii.eqb c "=").
  - cbn. split; discriminate.
  - cbn [orb]. destruct (blheli.partition_eq pair) as [h t]. exact IH.
Qed.

Lemma parse_key_value_pair_Ok (pair key value : string) :
  blheli.parse_key_value_pair pair = Ok (key, value) ->
  blheli.partition_eq pair = (key, Some value).
Proof.
  unfold blheli.parse_key_value_pair, blheli.split_eq_1.
  destruct (blheli.partition_eq pair) as [h [t|]]; [|discriminate].
  intros H. now injection H as -> ->.
Qed.

Lemma flatten_params_concat (args_params : list (list (string * string))) :
  blheli.flatten_params args_params = fold_left set_pair (List.concat args_params) [].
Proof.
  unfold blheli.flatten_params. generalize (@nil (string * value)).
  induction args_params as [|pair args IH]; intros d; [reflexivity|].
  cbn [fold_left List.concat]. rewrite fold_left_app. apply IH.
Qed.

Lemma flatten_params_get (args_params : list (list (string * string))) (key : string) :
  dict_get (blheli.flatten_params args_params) key
  = option_map VStr (last_value key (List.concat args_params)).
Proof.
  rewrite flatten_params_concat. unfold last_value.
  induction (List.concat args_params) as [|kv pairs IH] using rev_ind; [reflexivity|].
  rewrite fold_left_app, rev_app_distr. cbn [fold_left rev app find].
  unfold set_pair at 1.
  destruct (String.eqb (fst kv) key) eqn:E.
  - apply String.eqb_eq in E. subst key. now rewrite dict_get_set_same.
  - apply String.eqb_neq in E. rewrite dict_get_set_other by exact E. exact IH.
Qed.

Lemma last_value_In (key : string) (pairs : list (string * string)) :
  In key (map fst pairs) -> exists value, last_value key pairs = Some value.
Proof.
  intros H. unfold last_value.
  destruct (find _ (rev pairs)) as [kv|] eqn:E; [cbn; eauto|].
  apply in_map_iff in H as (kv & <- & Hin). apply in_rev in Hin.
  pose proof (find_none _ _ E kv Hin) as Hn. cbn in Hn.
  rewrite String.eqb_refl in Hn. discriminate.
Qed.

Lemma dict_get_In (d : dict) (key : string) (v : value) :
  dict_get d key = Some v -> In key (map fst d).
Proof.
  induction d as [|[k0 v0] d IH]; [discriminate|].
  cbn [dict_get map fst In]. destruct (String.eqb k0 key) eqn:E.
  - apply String.eqb_eq in E. now left.
  - intros H. right. now apply IH.
Qed.

Lemma patched_supplied (params : dict) (key : string) (v : value) :
  recognized key = true ->
  forall eeprom,
    dict_get params key = Some v ->
    NoDup (map fst params) ->
    dict_get (patched eeprom params) key = Some v.
Proof.
  intros Hkey. induction params as [|[k0 v0] params IH]; intros eeprom; [discriminate|].
  cbn [dict_get map fst patched]. intros Hget Hnd.
  inversion Hnd as [|? ? Hnot Hnd']; subst.
  destruct (String.eqb k0 key) eqn:E.
  - apply String.eqb_eq in E. subst k0. injection Hget as ->. rewrite Hkey.
    destruct (patched_get params key (dict_set eeprom key v)) as [H|H];
      [contradiction|].
    rewrite H. apply dict_get_set_same.
  - destruct (recognized k0); now apply IH.
Qed.

Lemma dict_set_NoDup (d : dict) (k : string) (v : value) :
  NoDup (map fst d) -> NoDup (map fst (dict_set d k v)).
Proof.
  induction d as [|[k0 v0] d IH]; cbn [dict_set map fst].
  - intros _. constructor; [intros []|constructor].
  - intros H. inversion H as [|? ? Hnot Hnd]; subst.
    destruct (String.eqb k0 k) eqn:E; cbn [map fst]; [exact H|].
    constructor; [|now apply IH].
    intros Hin. apply Hnot. clear -Hin E.
    induction d as [|[k1 v1] d IH]; cbn [dict_set map fst In] in *.
    + destruct Hin as [->|[]]. rewrite String.eqb_refl in E. discriminate.
    + destruct (String.eqb k1 k); cbn [map fst In] in Hin; [exact Hin|].
      destruct Hin as [->|Hin]; [now left|right; now apply IH].
Qed.

Lemma flatten_params_NoDup (args_params : list (list (string * string))) :
  NoDup (map fst (blheli.flatten_params args_params)).
Proof.
  rewrite flatten_params_concat.
  induction (List.concat args_params) as [|kv pairs IH] using rev_ind; [constructor|].
  rewrite fold_left_app. cbn [fold_left]. now apply dict_set_NoDup.
Qed.

(* ================================================================== *)
(** * The runs of write_config *)
(* ================================================================== *)

Lemma script_exchange (request : bytes) (size : Z) (frame : bytes) (rest : list bytes) :
  (List.length frame <= Z.to_nat size)%nat ->
  exchange script_write script_read request size frame (frame :: rest) rest.
Proof.
  intros H. exists (frame :: rest). split; [reflexivity|].
  cbn [script_read]. now rewrite firstn_all2.
Qed.

Section Runs.

Import BLHeli4WayInterface.

Variable Serial : Type.
Variable serial_write : bytes -> Serial -> result unit * Serial.
Variable serial_read : Z -> Serial -> result bytes * Serial.

Lemma write_config_run (esc : Z) (params : dict) (self : self_t Serial)
    (r1 r2 : reply) (kind : string) (port1 port2 : Serial) :
  0 <= esc < count self -> esc <= 255 ->
  (List.length (reply_payload r1) <= 255)%nat -> interface_type r1 = Ok kind ->
  (112 <= List.length (reply_payload r2) <= 255)%nat ->
  texts_valid (reply_payload r2) = true ->
  exchange serial_write serial_read (request_frame 55 0 [esc]) 64 (device_response r1)
    (serial_connection self) port1 ->
  exchange serial_write serial_read (request_frame 58 6656 [112]) 120 (device_response r2)
    port1 port2 ->
  BlHeliSilabs.write_config Serial serial_write serial_read esc params self
  = write_back serial_write serial_read esc
      (patched (image_fields (reply_payload r2)) params)
      (moved self port2
         (traffic_log (verbose self)
            [ (request_frame 55 0 [esc], device_response r1);
              (request_frame 58 6656 [112], device_response r2) ]
          ++ map invalid_parameter (unknown_names params))).
Proof.
  intros Hesc Hbyte Hlen1 Hkind Hlen2 Hvalid Hx1 Hx2.
  rewrite write_config_phases.
  rewrite (read_phase_run Serial serial_write serial_read esc self r1 r2 kind port1 port2
             Hesc Hbyte Hlen1 Hkind Hlen2 Hx1 Hx2).
  rewrite Hvalid. now rewrite logged_moved.
Qed.

End Runs.

Lemma out_of_range (esc n : Z) :
  esc < 0 \/ n <= esc -> (0 <=? esc) && (esc <? n) = false.
Proof.
  intros [H|H].
  - apply Z.leb_gt in H. now rewrite H.
  - apply Z.ltb_ge in H. rewrite H. apply andb_false_r.
Qed.

Lemma build_misfit (name : string) (code z : Z) :
  In (name, code) BLHeliProtocol.COMMAND_NAMES -> z < 0 \/ 255 < z ->
  BLHeliProtocol.build (VStr name) BLHeliProtocol.default_address (VList [VInt z])
  = Raise (BLHeliEncodingError FormatFieldError).
Proof.
  intros Hname Hz. apply byte_of_Z_None in Hz.
  unfold BLHeliProtocol.build, construct.build, BLHeliProtocol.REQUEST,
    BLHeliProtocol.REQUEST_FIELDS, BLHeliProtocol.default_address.
  cbn [construct._build construct.Struct construct.Struct_build construct.Renamed
       construct.Struct_subobj dict_get String.eqb Ascii.eqb Bool.eqb rbind].
  change (construct.flagbuildnone (construct.Const _ _)) with true. cbn [rbind].
  change (construct._build (construct.Const BLHeliProtocol.REQUEST_START_BYTE construct.Byte) VNone)
    with (Ok [x2f]).
  cbn [rbind]. rewrite (COMMAND_ENUM_build_name name code Hname). cbn [rbind].
  change (construct._build (construct.Default construct.Int16ub 0) (VInt 0))
    with (Ok [x00; x00]).
  cbn [rbind].
  cbn [construct._build construct.PrefixedArray py_iter List.length construct.Array_build].
  change construct.Int8ul with construct.Byte.
  change (construct._build construct.Byte (VInt (Z.of_nat 1))) with (Ok [x01]).
  cbn [rbind]. cbn [construct._build construct.Byte construct.FormatField_B as_int].
  rewrite Hz. reflexivity.
Qed.

Lemma build_misfit_read (address z : Z) :
  z < 0 \/ 255 < z ->
  exists cause,
    BLHeliProtocol.build (VStr "device_read") (VInt address) (VList [VInt z])
    = Raise (BLHeliEncodingError cause).
Proof.
  intros Hz. apply byte_of_Z_None in Hz.
  unfold BLHeliProtocol.build, construct.build, BLHeliProtocol.REQUEST,
    BLHeliProtocol.REQUEST_FIELDS.
  cbn [construct._build construct.Struct construct.Struct_build construct.Renamed
       construct.Struct_subobj dict_get String.eqb Ascii.eqb Bool.eqb rbind].
  change (construct.flagbuildnone (construct.Const _ _)) with true. cbn [rbind].
  change (construct._build (construct.Const BLHeliProtocol.REQUEST_START_BYTE construct.Byte) VNone)
    with (Ok [x2f]).
  cbn [rbind].
  rewrite (COMMAND_ENUM_build_name "device_read" 58) by (cbn; tauto). cbn [rbind].
  destruct (construct._build (construct.Default construct.Int16ub 0) (VInt address));
    cbn [rbind]; [|eauto].
  cbn [construct._build construct.PrefixedArray py_iter List.length construct.Array_build].
  change construct.Int8ul with construct.Byte.
  change (construct._build construct.Byte (VInt (Z.of_nat 1))) with (Ok [x01]).
  cbn [rbind]. cbn [construct._build construct.Byte construct.FormatField_B as_int].
  rewrite Hz. cbn [rbind]. eauto.
Qed.

Lemma numeric_field (key : string) :
  In key numeric_fields ->
  recognized key = true /\ layout_field key = Some construct.Byte.
Proof.
  intros H. cbn in H.
  repeat (destruct H as [<-|H]; [split; reflexivity|]). contradiction.
Qed.

Lemma text_for_a_number (eeprom : dict) (args_params : list (list (string * string)))
    (key : string) :
  In key numeric_fields -> In key (map fst (List.concat args_params)) ->
  exists e,
    construct.Struct_build BlHeliSilabs.EEPROM_FIELDS
      (patched eeprom (blheli.flatten_params args_params)) = Raise e.
Proof.
  intros Hkey Hin. destruct (numeric_field key Hkey) as [Hrec Hsc].
  destruct (last_value_In key _ Hin) as [text Htext].
  pose proof (flatten_params_get args_params key) as Hget. rewrite Htext in Hget.
  cbn [option_map] in Hget.
  pose proof (patched_supplied _ key (VStr text) Hrec eeprom Hget
                (flatten_params_NoDup args_params)) as Hp.
  exact (Struct_build_refuses _ _ key construct.Byte (VStr text) FormatFieldError
           Hsc Hp eq_refl).
Qed.

Lemma flatten_params_has (args_params : list (list (string * string))) (key : string) :
  dict_has (blheli.flatten_params args_params) key = true
  <-> In key (map fst (List.concat args_params)).
Proof.
  unfold dict_has. rewrite flatten_params_get. split.
  - unfold last_value.
    destruct (find _ (rev (List.concat args_params))) as [kv|] eqn:E; [|discriminate].
    intros _. apply find_some in E as [Hin Heq]. apply in_rev in Hin.
    apply String.eqb_eq in Heq. subst key. now apply in_map.
  - intros H. destruct (last_value_In key _ H) as [text ->]. reflexivity.
Qed.

Lemma not_has (d : dict) (key : string) :
  dict_has d key <> true -> dict_has d key = false.
Proof. now destruct (dict_has d key). Qed.

Section Silence.

Import BLHeli4WayInterface.

Variable Serial : Type.
Variable serial_write : bytes -> Serial -> result unit * Serial.
Variable serial_read : Z -> Serial -> result bytes * Serial.

Lemma silent_run {A} (command address payload : value) (size : Z) (request : bytes)
    (self : self_t Serial) (port' : Serial) (k : dict -> M Serial A) :
  BLHeliProtocol.build command address payload = Ok request ->
  exchange serial_write serial_read request size [] (serial_connection self) port' ->
  bind (send_command Serial serial_write command address payload)
       (fun _ => bind (read_response Serial serial_read size) k) self
  = (Raise (BLHeliDecodingError NullLengthFrame),
     moved self port' (traffic (verbose self) request [])).
Proof.
  intros Hbuild Hx.
  now rewrite (request_response_then Serial serial_write serial_read _ _ _ _ _ _ _ _ _
                 Hbuild Hx).
Qed.

Lemma refused_run {A} (command address payload : value) (e : exn)
    (self : self_t Serial) (k : unit -> M Serial A) :
  BLHeliProtocol.build command address payload = Raise e ->
  bind (send_command Serial serial_write command address payload) k self
  = (Raise e, self).
Proof.
  intros Hbuild. unfold bind.
  now rewrite (refused_request Serial serial_write _ _ _ _ self Hbuild).
Qed.

End Silence.


(* ================================================================== *)
(** * write_config in front of a device that answers *)
(* ================================================================== *)

(** C8, as the code has it: for every valid instance index, [write_config]
    called with parameters none of which is named like an argument of the
    method, in front of a device that identifies the instance, hands over a
    decodable image and answers the erase of page 13.  A name of neither
    group is logged as an "Invalid parameter" warning and has no part in the
    image that is encoded; with only such names the image encoded is the
    image read, and its encoding does not fail.  When the patched image can
    be encoded, every byte of it that does not hold a supplied field is the
    re-encoding of the byte read, the device_write frame that carries it at
    0x1A00 is written to the port after the erase, then the reset, and the
    call returns normally.  When it cannot, the call raises the error of the
    encoding after the erase and writes nothing back. *)
Theorem write_config_skips_unknown_fields
    (Serial : Type)
    (serial_write : bytes -> Serial -> result unit * Serial)
    (serial_read : Z -> Serial -> result bytes * Serial)
    (esc : Z) (params : dict) (self : BLHeli4WayInterface.self_t Serial)
    (r1 r2 r3 : reply) (kind : string) (port1 port2 port3 : Serial) :
  0 <= esc < BLHeli4WayInterface.count self -> esc <= 255 ->
  dict_has params "self" = false -> dict_has params "esc" = false ->
  (List.length (reply_payload r1) <= 255)%nat -> interface_type r1 = Ok kind ->
  (112 <= List.length (reply_payload r2) <= 255)%nat ->
  texts_valid (reply_payload r2) = true ->
  (List.length (reply_payload r3) <= 255)%nat ->
  exchange serial_write serial_read (request_frame 55 0 [esc]) 64 (device_response r1)
    (BLHeli4WayInterface.serial_connection self) port1 ->
  exchange serial_write serial_read (request_frame 58 6656 [112]) 120 (device_response r2)
    port1 port2 ->
  exchange serial_write serial_read (request_frame 57 0 [13]) 64 (device_response r3)
    port2 port3 ->
  write_config_outcomes serial_write serial_read esc params self r1 r2 r3 port3.
Proof.
  intros Hesc Hbyte Hself Hesc_key Hlen1 Hkind Hlen2 Hvalid Hlen3 Hx1 Hx2 Hx3.
  assert (Hcall : BlHeliSilabs.call_write_config Serial serial_write serial_read
                    esc params self
                  = BlHeliSilabs.write_config Serial serial_write serial_read
                      esc params self).
  { unfold BlHeliSilabs.call_write_config. now rewrite Hself, Hesc_key. }
  unfold write_config_outcomes. cbv zeta.
  split; [apply patched_recognized_only|]. split; [|split].
  - intros Hunknown. rewrite (patched_unknown_only params _ Hunknown).
    split; [apply EEPROM_build_parsed|apply EEPROM_parse_reencoded];
      (exact (proj1 Hlen2) || exact Hvalid).
  - intros image Hbuild.
    pose proof (EEPROM_build_patched (reply_payload r2) params image (proj1 Hlen2)
                  Hvalid Hbuild) as Hpreserved.
    split; [exact Hpreserved|].
    intros r4 r5 port4 port5 Hlen4 Hlen5 Hx4 Hx5. rewrite Hcall.
    rewrite (write_config_run Serial serial_write serial_read esc params self r1 r2 kind
               port1 port2 Hesc Hbyte Hlen1 Hkind Hlen2 Hvalid Hx1 Hx2).
    assert (Himage : (List.length image <= 255)%nat)
      by (rewrite (proj1 Hpreserved); apply Nat.leb_le; reflexivity).
    rewrite (write_back_run Serial serial_write serial_read esc _ _ r3 r4 r5 image
               port2 port3 port4 port5 (conj (proj1 Hesc) Hbyte) Hlen3 Hlen4 Hlen5 Hbuild
               Himage Hx3 Hx4 Hx5) by reflexivity.
    rewrite moved_moved. cbn [moved BLHeli4WayInterface.verbose].
    now rewrite <- app_assoc.
  - intros e Hbuild. rewrite Hcall.
    rewrite (write_config_run Serial serial_write serial_read esc params self r1 r2 kind
               port1 port2 Hesc Hbyte Hlen1 Hkind Hlen2 Hvalid Hx1 Hx2).
    rewrite (write_back_stops Serial serial_write serial_read esc _ _ r3 e port2 port3
               Hlen3 Hbuild Hx3) by reflexivity.
    rewrite moved_moved. cbn [moved BLHeli4WayInterface.verbose].
    now rewrite <- app_assoc.
Qed.

Lemma write_config_skips_unknown_fields_witness :
  (0 <= 0 < BLHeli4WayInterface.count (interface_on false 1 (write_script x00 x00))
   /\ 0 <= 255
   /\ dict_has unknown_field_params "self" = false
   /\ dict_has unknown_field_params "esc" = false
   /\ (List.length (reply_payload reply_identification) <= 255)%nat
   /\ interface_type reply_identification = Ok "silabs"
   /\ (112 <= List.length (reply_payload (reply_memory sample_image)) <= 255)%nat
   /\ texts_valid (reply_payload (reply_memory sample_image)) = true
   /\ (List.length (reply_payload (reply_bare x39 x00)) <= 255)%nat
   /\ exchange script_write script_read (request_frame 55 0 [0]) 64
        (device_response reply_identification)
        (write_script x00 x00) (skipn 1 (write_script x00 x00))
   /\ exchange script_write script_read (request_frame 58 6656 [112]) 120
        (device_response (reply_memory sample_image))
        (skipn 1 (write_script x00 x00)) (skipn 2 (write_script x00 x00))
   /\ exchange script_write script_read (request_frame 57 0 [13]) 64
        (device_response (reply_bare x39 x00))
        (skipn 2 (write_script x00 x00)) (skipn 3 (write_script x00 x00)))
  /\ write_config_outcomes script_write script_read 0 unknown_field_params
       (interface_on false 1 (write_script x00 x00))
       reply_identification (reply_memory sample_image) (reply_bare x39 x00)
       (skipn 3 (write_script x00 x00)).
Proof.
  assert (H1 : 0 <= 0 < BLHeli4WayInterface.count
                          (interface_on false 1 (write_script x00 x00))) by (cbn; lia).
  assert (H2 : 0 <= 255) by lia.
  assert (Hs : dict_has unknown_field_params "self" = false) by reflexivity.
  assert (He : dict_has unknown_field_params "esc" = false) by reflexivity.
  assert (H3 : (List.length (reply_payload reply_identification) <= 255)%nat)
    by (vm_compute; lia).
  assert (H4 : interface_type reply_identification = Ok "silabs") by reflexivity.
  assert (H5 : (112 <= List.length (reply_payload (reply_memory sample_image)) <= 255)%nat)
    by (vm_compute; lia).
  assert (H6 : texts_valid (reply_payload (reply_memory sample_image)) = true)
    by (vm_compute; reflexivity).
  assert (H7 : (List.length (reply_payload (reply_bare x39 x00)) <= 255)%nat)
    by (vm_compute; lia).
  assert (H8 : exchange script_write script_read (request_frame 55 0 [0]) 64
                 (device_response reply_identification)
                 (write_script x00 x00) (skipn 1 (write_script x00 x00))).
  { eexists. split; vm_compute; reflexivity. }
  assert (H9 : exchange script_write script_read (request_frame 58 6656 [112]) 120
                 (device_response (reply_memory sample_image))
                 (skipn 1 (write_script x00 x00)) (skipn 2 (write_script x00 x00))).
  { eexists. split; vm_compute; reflexivity. }
  assert (H10 : exchange script_write script_read (request_frame 57 0 [13]) 64
                  (device_response (reply_bare x39 x00))
                  (skipn 2 (write_script x00 x00)) (skipn 3 (write_script x00 x00))).
  { eexists. split; vm_compute; reflexivity. }
  split.
  { exact (conj H1 (conj H2 (conj Hs (conj He (conj H3 (conj H4 (conj H5 (conj H6
             (conj H7 (conj H8 (conj H9 H10))))))))))). }
  exact (write_config_skips_unknown_fields (list bytes) script_write script_read 0
           unknown_field_params (interface_on false 1 (write_script x00 x00))
           _ _ _ "silabs" _ _ _ H1 H2 Hs He H3 H4 H5 H6 H7 H8 H9 H10).
Defined.

(** Against C8 as the specification words it.  The name "esc" belongs to
    neither group, and the call that supplies it raises a TypeError without
    a warning.  And the call [write_config(1, unknown_field=1,
    beep_strength='100')] on the simulated rig logs its warning, erases the
    page and raises: the instance is left blank, none of the fields that
    were not supplied keeps the value read. *)
Lemma write_config_loses_the_image :
  (recognized "esc" = false
   /\ BlHeliSilabs.call_write_config Simulation.rig Simulation.serial_write
        Simulation.serial_read 1 [("esc", VInt 1)] (Simulation.session false rig2)
      = (Raise TypeError, Simulation.session false rig2))
  /\ (recognized "unknown_field" = false
      /\ fst (BlHeliSilabs.call_write_config Simulation.rig Simulation.serial_write
                Simulation.serial_read 1
                [("unknown_field", VInt 1); ("beep_strength", VStr "100")]
                (Simulation.session false rig2))
         = Raise FormatFieldError
      /\ BLHeli4WayInterface.log_output
           (snd (BlHeliSilabs.call_write_config Simulation.rig Simulation.serial_write
                   Simulation.serial_read 1
                   [("unknown_field", VInt 1); ("beep_strength", VStr "100")]
                   (Simulation.session false rig2)))
         = [invalid_parameter "unknown_field"]
      /\ Simulation.images
           (BLHeli4WayInterface.serial_connection
              (snd (BlHeliSilabs.call_write_config Simulation.rig Simulation.serial_write
                      Simulation.serial_read 1
                      [("unknown_field", VInt 1); ("beep_strength", VStr "100")]
                      (Simulation.session false rig2))))
         = [sample_image; repeat xff 112]).
Proof. repeat split; vm_compute; reflexivity. Qed.

(** The call [write_config(1, unknown_field=1)] run on the simulated rig: it
    returns normally, the log holds the warning and nothing else, the first
    instance is untouched and the second holds the re-encoding of the image
    it held. *)
Example write_config_unknown_field_run :
  fst (Simulation.write_config 1 unknown_field_params (Simulation.session false rig2))
  = Ok tt
  /\ BLHeli4WayInterface.log_output
       (snd (Simulation.write_config 1 unknown_field_params
               (Simulation.session false rig2)))
     = [invalid_parameter "unknown_field"]
  /\ Simulation.images
       (BLHeli4WayInterface.serial_connection
          (snd (Simulation.write_config 1 unknown_field_params
                  (Simulation.session false rig2))))
     = [sample_image; reencoded sample_image_flag2].
Proof. repeat split; vm_compute; reflexivity. Qed.

(* ================================================================== *)
(** * The defects parse reports *)
(* ================================================================== *)

Lemma parse_defect (frame : bytes) :
  match response_frame frame with
  | Some fields => BLHeliProtocol.parse frame = Ok fields
  | None => BLHeliProtocol.parse frame = Raise (BLHeliDecodingError (defect frame))
  end.
Proof.
  destruct frame as [|start frame]; [reflexivity|].
  unfold BLHeliProtocol.parse, construct.parse.
  cbn [List.length Nat.eqb].
  unfold BLHeliProtocol.RESPONSE, BLHeliProtocol.RESPONSE_FIELDS,
    BLHeliProtocol.COMMAND_ENUM, BLHeliProtocol.ACK_ENUM.
  cbn [construct._parse construct.Struct construct.Struct_parse construct.Renamed rbind].
  rewrite Const_Byte_parse. unfold response_frame, defect.
  change BLHeliProtocol.RESPONSE_START_BYTE with 46.
  destruct (Z_of_byte start =? 46) eqn:Hstart; cbn [rbind negb].
  2:{ destruct frame as [|? [|? [|? [|? ?]]]]; cbn [skipn]; try reflexivity.
      destruct (skipn _ _) as [|? [|? [|? ?]]]; reflexivity. }
  destruct frame as [|command frame].
  { rewrite Enum_parse_nil by reflexivity. reflexivity. }
  rewrite Enum_Byte_parse. cbn [rbind]. rewrite Default_parse.
  destruct frame as [|hi [|lo frame]];
    [rewrite Int16ub_parse_short by (cbn; lia); reflexivity ..|].
  rewrite Int16ub_parse_cons. cbn [rbind].
  destruct frame as [|len rest].
  { reflexivity. }
  rewrite PrefixedArray_parse_cons.
  cbn [too_short].
  set (n := Z.to_nat (Z_of_byte len)).
  destruct (List.length rest <? n)%nat eqn:Hlen.
  { cbn [rbind]. apply Nat.ltb_lt in Hlen.
    rewrite skipn_all2 by lia.
    replace (List.length rest <? n + 3)%nat with true
      by (symmetry; apply Nat.ltb_lt; lia).
    reflexivity. }
  cbn [rbind]. apply Nat.ltb_ge in Hlen.
  assert (Hskip : List.length (skipn n rest) = (List.length rest - n)%nat)
    by apply length_skipn.
  destruct (skipn n rest) as [|ack tail].
  { rewrite Enum_parse_nil by reflexivity. cbn [rbind List.length] in *.
    replace (List.length rest <? n + 3)%nat with true
      by (symmetry; apply Nat.ltb_lt; lia).
    reflexivity. }
  rewrite Enum_Byte_parse. cbn [rbind].
  destruct tail as [|crc_hi [|crc_lo tail]];
    [rewrite Int16ub_parse_short by (cbn; lia); cbn [rbind List.length] in *;
     replace (List.length rest <? n + 3)%nat with true
       by (symmetry; apply Nat.ltb_lt; lia);
     reflexivity ..|].
  rewrite Int16ub_parse_cons. cbn [rbind].
  cbn [dict_set String.eqb Ascii.eqb Bool.eqb BLHeliProtocol.attr dict_get rbind py_eq as_int].
  rewrite Hstart. cbn [negb List.length] in *.
  replace (List.length rest <? n + 3)%nat with false
    by (symmetry; apply Nat.ltb_ge; lia).
  destruct (_ =? BLHeliProtocol.CRC16_XMODEM _); cbn [negb]; reflexivity.
Qed.

(** X1: [parse] reports the first defect it meets, in a fixed order: the
    empty input ("Null length frame"); a first byte that is not 0x2E, which
    the response layout itself refuses; an input that ends before its
    layout does; and last a CRC field that is not the CRC16 of the input
    without its last two bytes.  The "Invalid start byte" error of [parse]
    is never raised: the layout has refused such a frame before the check
    is reached. *)
Theorem parse_reports_the_first_defect :
  (forall frame : bytes,
     match response_frame frame with
     | Some fields => BLHeliProtocol.parse frame = Ok fields
     | None => BLHeliProtocol.parse frame = Raise (BLHeliDecodingError (defect frame))
     end)
  /\ (forall frame : bytes,
        BLHeliProtocol.parse frame <> Raise (BLHeliDecodingError InvalidStartByte)).
Proof.
  split; [exact parse_defect|].
  intros frame H. pose proof (parse_defect frame) as Hd.
  destruct (response_frame frame); [congruence|].
  rewrite H in Hd. injection Hd as Hd. unfold defect in Hd.
  destruct frame as [|start frame]; [discriminate Hd|].
  destruct (negb (Z_of_byte start =? 46)); [discriminate Hd|].
  destruct (too_short (start :: frame)); discriminate Hd.
Qed.

(* ================================================================== *)
(** * The operations of the 4-way interface *)
(* ================================================================== *)

(** X2: [get_name] sends interface_get_name with the default payload,
    reads up to 64 bytes, and returns the payload of the response without
    its first byte, decoded as UTF-8; it raises UnicodeDecodeError when
    those bytes are not well-formed UTF-8.  The opcode, the address and the
    ack code of the response play no part. *)
Theorem get_name_returns_payload_tail
    (Serial : Type)
    (serial_write : bytes -> Serial -> result unit * Serial)
    (serial_read : Z -> Serial -> result bytes * Serial)
    (r : reply) (self : BLHeli4WayInterface.self_t Serial) (port' : Serial) :
  (List.length (reply_payload r) <= 255)%nat ->
  exchange serial_write serial_read (request_frame 50 0 [0]) 64 (device_response r)
    (BLHeli4WayInterface.serial_connection self) port' ->
  BLHeli4WayInterface.get_name Serial serial_write serial_read self
  = (if utf8_valid (skipn 1 (reply_payload r))
     then Ok (string_of_list_byte (skipn 1 (reply_payload r)))
     else Raise UnicodeDecodeError,
     moved self port'
       (traffic (BLHeli4WayInterface.verbose self) (request_frame 50 0 [0])
          (device_response r))).
Proof.
  intros Hlen Hx. unfold BLHeli4WayInterface.get_name.
  rewrite (request_response_then Serial serial_write serial_read _ _ _ _ _ _ _ _ _
             (build_one_byte "interface_get_name" 50 0 ltac:(cbn; tauto) ltac:(lia)) Hx).
  rewrite parse_device_response by exact Hlen.
  unfold BLHeli4WayInterface.bind, BLHeli4WayInterface.lift, py_decode_utf8.
  cbn [response_fields py_getitem dict_get String.eqb Ascii.eqb Bool.eqb py_slice_from_1].
  rewrite skipn_map, py_bytes_payload.
  destruct (utf8_valid (skipn 1 (reply_payload r))); reflexivity.
Qed.

Lemma get_name_returns_payload_tail_witness :
  ((List.length (reply_payload reply_name) <= 255)%nat
   /\ exchange script_write script_read (request_frame 50 0 [0]) 64
        (device_response reply_name) [device_response reply_name] [])
  /\ BLHeli4WayInterface.get_name (list bytes) script_write script_read
       (interface_on true 4 [device_response reply_name])
     = (Ok "m4wFCIntf",
        moved (interface_on true 4 [device_response reply_name]) []
          (traffic true (request_frame 50 0 [0]) (device_response reply_name))).
Proof.
  assert (H1 : (List.length (reply_payload reply_name) <= 255)%nat)
    by (vm_compute; lia).
  assert (H2 : exchange script_write script_read (request_frame 50 0 [0]) 64
                 (device_response reply_name) [device_response reply_name] []).
  { exists [device_response reply_name]. split; vm_compute; reflexivity. }
  split; [split; assumption|].
  exact (get_name_returns_payload_tail (list bytes) script_write script_read reply_name
           (interface_on true 4 [device_response reply_name]) [] H1 H2).
Defined.

(** X3: [init_flash] sends device_init_flash with the instance number as
    payload, reads up to 64 bytes, and classifies the device by the fourth
    payload byte of the response: "silabs" when it is 0 (SiLabsC2) or 1
    (SiLabsBLB), "atmel" for every other byte, also one that names no mode.
    A device_init_flash response with fewer than four payload bytes is a
    Decoding error, and a response with another opcode an AttributeError. *)
Theorem init_flash_classifies_by_mode
    (Serial : Type)
    (serial_write : bytes -> Serial -> result unit * Serial)
    (serial_read : Z -> Serial -> result bytes * Serial)
    (esc : Z) (r : reply) (self : BLHeli4WayInterface.self_t Serial) (port' : Serial) :
  0 <= esc <= 255 -> (List.length (reply_payload r) <= 255)%nat ->
  exchange serial_write serial_read (request_frame 55 0 [esc]) 64 (device_response r)
    (BLHeli4WayInterface.serial_connection self) port' ->
  BLHeli4WayInterface.init_flash Serial serial_write serial_read esc self
  = (interface_type r,
     moved self port'
       (traffic (BLHeli4WayInterface.verbose self) (request_frame 55 0 [esc])
          (device_response r))).
Proof.
  intros Hesc Hlen Hx.
  exact (init_flash_run Serial serial_write serial_read esc r self _ port' Hesc Hlen Hx
           eq_refl).
Qed.

Lemma init_flash_classifies_by_mode_witness :
  (0 <= 2 <= 255
   /\ (List.length (reply_payload (mkReply x37 x00 x00 [xf3; x30; xaa; x07] x00))
       <= 255)%nat
   /\ exchange script_write script_read (request_frame 55 0 [2]) 64
        (device_response (mkReply x37 x00 x00 [xf3; x30; xaa; x07] x00))
        [device_response (mkReply x37 x00 x00 [xf3; x30; xaa; x07] x00)] [])
  /\ BLHeli4WayInterface.init_flash (list bytes) script_write script_read 2
       (interface_on false 4
          [device_response (mkReply x37 x00 x00 [xf3; x30; xaa; x07] x00)])
     = (Ok "atmel", interface_on false 4 []).
Proof.
  assert (H0 : 0 <= 2 <= 255) by lia.
  assert (H1 : (List.length (reply_payload (mkReply x37 x00 x00 [xf3; x30; xaa; x07] x00))
                <= 255)%nat) by (vm_compute; lia).
  assert (H2 : exchange script_write script_read (request_frame 55 0 [2]) 64
                 (device_response (mkReply x37 x00 x00 [xf3; x30; xaa; x07] x00))
                 [device_response (mkReply x37 x00 x00 [xf3; x30; xaa; x07] x00)] []).
  { eexists. split; vm_compute; reflexivity. }
  split; [exact (conj H0 (conj H1 H2))|].
  exact (init_flash_classifies_by_mode (list bytes) script_write script_read 2 _
           (interface_on false 4
              [device_response (mkReply x37 x00 x00 [xf3; x30; xaa; x07] x00)])
           [] H0 H1 H2).
Defined.

(** X4: [read_memory] sends device_read with the address and the length,
    reads length + 8 bytes, and returns the payload of the response as it
    is: it checks neither the ack code nor the opcode of the response, nor
    that the payload has the length that was asked for. *)
Theorem read_memory_returns_the_payload
    (Serial : Type)
    (serial_write : bytes -> Serial -> result unit * Serial)
    (serial_read : Z -> Serial -> result bytes * Serial)
    (address length : Z) (r : reply)
    (self : BLHeli4WayInterface.self_t Serial) (port' : Serial) :
  0 <= address < 65536 -> 0 <= length <= 255 ->
  (List.length (reply_payload r) <= 255)%nat ->
  exchange serial_write serial_read (request_frame 58 address [length]) (length + 8)
    (device_response r) (BLHeli4WayInterface.serial_connection self) port' ->
  BLHeli4WayInterface.read_memory Serial serial_write serial_read address length self
  = (Ok (reply_payload r),
     moved self port'
       (traffic (BLHeli4WayInterface.verbose self) (request_frame 58 address [length])
          (device_response r))).
Proof.
  intros Haddr Hlength Hlen Hx.
  exact (read_memory_run Serial serial_write serial_read address length r self _ port'
           Haddr Hlength Hlen Hx eq_refl).
Qed.

Lemma read_memory_returns_the_payload_witness :
  (0 <= 6656 < 65536 /\ 0 <= 16 <= 255
   /\ (List.length (reply_payload (mkReply x3a x1a x00 [x01; x02] x0f)) <= 255)%nat
   /\ exchange script_write script_read (request_frame 58 6656 [16]) (16 + 8)
        (device_response (mkReply x3a x1a x00 [x01; x02] x0f))
        [device_response (mkReply x3a x1a x00 [x01; x02] x0f)] [])
  /\ BLHeli4WayInterface.read_memory (list bytes) script_write script_read 6656 16
       (interface_on false 1 [device_response (mkReply x3a x1a x00 [x01; x02] x0f)])
     = (Ok [x01; x02], interface_on false 1 []).
Proof.
  assert (H0 : 0 <= 6656 < 65536) by lia.
  assert (H1 : 0 <= 16 <= 255) by lia.
  assert (H2 : (List.length (reply_payload (mkReply x3a x1a x00 [x01; x02] x0f))
                <= 255)%nat) by (vm_compute; lia).
  assert (H3 : exchange script_write script_read (request_frame 58 6656 [16]) (16 + 8)
                 (device_response (mkReply x3a x1a x00 [x01; x02] x0f))
                 [device_response (mkReply x3a x1a x00 [x01; x02] x0f)] []).
  { eexists. split; vm_compute; reflexivity. }
  split; [exact (conj H0 (conj H1 (conj H2 H3)))|].
  exact (read_memory_returns_the_payload (list bytes) script_write script_read 6656 16 _
           (interface_on false 1 [device_response (mkReply x3a x1a x00 [x01; x02] x0f)])
           [] H0 H1 H2 H3).
Defined.

(** X5: the operations that only wait for an answer take any well-formed
    response frame as success.  Whatever opcode, address, payload and ack
    code the response carries, [test_alive], [erase_page] and [reset_esc]
    return normally, and [write_memory] returns the decoded response: a
    device that answers with an error ack is not noticed. *)
Theorem replies_are_not_checked
    (Serial : Type)
    (serial_write : bytes -> Serial -> result unit * Serial)
    (serial_read : Z -> Serial -> result bytes * Serial)
    (r : reply) (self : BLHeli4WayInterface.self_t Serial) (port' : Serial) :
  (List.length (reply_payload r) <= 255)%nat ->
  (exchange serial_write serial_read (request_frame 48 0 [0]) 64 (device_response r)
     (BLHeli4WayInterface.serial_connection self) port' ->
   BLHeli4WayInterface.test_alive Serial serial_write serial_read self
   = (Ok tt,
      moved self port'
        (traffic (BLHeli4WayInterface.verbose self) (request_frame 48 0 [0])
           (device_response r))))
  /\ (forall page,
        0 <= page <= 255 ->
        exchange serial_write serial_read (request_frame 57 0 [page]) 64
          (device_response r) (BLHeli4WayInterface.serial_connection self) port' ->
        BLHeli4WayInterface.erase_page Serial serial_write serial_read page self
        = (Ok tt,
           moved self port'
             (traffic (BLHeli4WayInterface.verbose self) (request_frame 57 0 [page])
                (device_response r))))
  /\ (forall esc,
        0 <= esc <= 255 ->
        exchange serial_write serial_read (request_frame 53 0 [esc]) 64
          (device_response r) (BLHeli4WayInterface.serial_connection self) port' ->
        BLHeli4WayInterface.reset_esc Serial serial_write serial_read (Some esc) self
        = (Ok tt,
           moved self port'
             (traffic (BLHeli4WayInterface.verbose self) (request_frame 53 0 [esc])
                (device_response r))))
  /\ (forall address data,
        0 <= address < 65536 -> (List.length data <= 255)%nat ->
        exchange serial_write serial_read
          (request_frame 59 address (map Z_of_byte data)) 64
          (device_response r) (BLHeli4WayInterface.serial_connection self) port' ->
        BLHeli4WayInterface.write_memory Serial serial_write serial_read address data self
        = (Ok (response_fields r),
           moved self port'
             (traffic (BLHeli4WayInterface.verbose self)
                (request_frame 59 address (map Z_of_byte data))
                (device_response r)))).
Proof.
  intros Hlen. split; [|split; [|split]].
  - intros Hx.
    rewrite (test_alive_run Serial serial_write serial_read _ self _ port' Hx eq_refl).
    now rewrite parse_device_response.
  - intros page Hpage Hx.
    exact (erase_page_run Serial serial_write serial_read page r self _ port'
             Hpage Hlen Hx eq_refl).
  - intros esc Hesc Hx.
    exact (reset_esc_run Serial serial_write serial_read esc r self _ port'
             Hesc Hlen Hx eq_refl).
  - intros address data Haddr Hdata Hx.
    exact (write_memory_run Serial serial_write serial_read address data r self _ port'
             Haddr Hdata Hlen Hx eq_refl).
Qed.

Lemma replies_are_not_checked_witness :
  (List.length (reply_payload (reply_bare x39 x0f)) <= 255)%nat
  /\ BLHeli4WayInterface.erase_page (list bytes) script_write script_read 13
       (interface_on false 4 [device_response (reply_bare x39 x0f)])
     = (Ok tt, interface_on false 4 []).
Proof.
  assert (H1 : (List.length (reply_payload (reply_bare x39 x0f)) <= 255)%nat)
    by (vm_compute; lia).
  split; [exact H1|].
  refine (proj1 (proj2 (replies_are_not_checked (list bytes) script_write script_read
                          (reply_bare x39 x0f)
                          (interface_on false 4 [device_response (reply_bare x39 x0f)])
                          [] H1)) 13 _ _).
  - lia.
  - eexists. split; vm_compute; reflexivity.
Defined.

(** X6: when nothing comes back (the read returns no byte), every
    operation raises a Decoding error for a null-length frame, after its
    request has been written. *)
Theorem silent_device_is_a_decoding_error
    (Serial : Type)
    (serial_write : bytes -> Serial -> result unit * Serial)
    (serial_read : Z -> Serial -> result bytes * Serial)
    (self : BLHeli4WayInterface.self_t Serial) (port' : Serial) :
  (exchange serial_write serial_read (request_frame 48 0 [0]) 64 []
     (BLHeli4WayInterface.serial_connection self) port' ->
   BLHeli4WayInterface.test_alive Serial serial_write serial_read self
   = (Raise (BLHeliDecodingError NullLengthFrame),
      moved self port'
        (traffic (BLHeli4WayInterface.verbose self) (request_frame 48 0 [0]) [])))
  /\ (exchange serial_write serial_read (request_frame 50 0 [0]) 64 []
        (BLHeli4WayInterface.serial_connection self) port' ->
      BLHeli4WayInterface.get_name Serial serial_write serial_read self
      = (Raise (BLHeliDecodingError NullLengthFrame),
         moved self port'
           (traffic (BLHeli4WayInterface.verbose self) (request_frame 50 0 [0]) [])))
  /\ (forall esc,
        0 <= esc <= 255 ->
        exchange serial_write serial_read (request_frame 55 0 [esc]) 64 []
          (BLHeli4WayInterface.serial_connection self) port' ->
        BLHeli4WayInterface.init_flash Serial serial_write serial_read esc self
        = (Raise (BLHeliDecodingError NullLengthFrame),
           moved self port'
             (traffic (BLHeli4WayInterface.verbose self) (request_frame 55 0 [esc]) [])))
  /\ (forall address length,
        0 <= address < 65536 -> 0 <= length <= 255 ->
        exchange serial_write serial_read (request_frame 58 address [length])
          (length + 8) [] (BLHeli4WayInterface.serial_connection self) port' ->
        BLHeli4WayInterface.read_memory Serial serial_write serial_read address length self
        = (Raise (BLHeliDecodingError NullLengthFrame),
           moved self port'
             (traffic (BLHeli4WayInterface.verbose self)
                (request_frame 58 address [length]) [])))
  /\ (forall page,
        0 <= page <= 255 ->
        exchange serial_write serial_read (request_frame 57 0 [page]) 64 []
          (BLHeli4WayInterface.serial_connection self) port' ->
        BLHeli4WayInterface.erase_page Serial serial_write serial_read page self
        = (Raise (BLHeliDecodingError NullLengthFrame),
           moved self port'
             (traffic (BLHeli4WayInterface.verbose self) (request_frame 57 0 [page]) [])))
  /\ (forall esc,
        0 <= esc <= 255 ->
        exchange serial_write serial_read (request_frame 53 0 [esc]) 64 []
          (BLHeli4WayInterface.serial_connection self) port' ->
        BLHeli4WayInterface.reset_esc Serial serial_write serial_read (Some esc) self
        = (Raise (BLHeliDecodingError NullLengthFrame),
           moved self port'
             (traffic (BLHeli4WayInterface.verbose self) (request_frame 53 0 [esc]) []))).
Proof.
  repeat match goal with |- _ /\ _ => split end.
  - intros Hx.
    now rewrite (test_alive_run Serial serial_write serial_read _ self _ port' Hx eq_refl).
  - intros Hx. unfold BLHeli4WayInterface.get_name.
    exact (silent_run Serial serial_write serial_read _ _ _ _ _ self port' _
             (build_one_byte "interface_get_name" 50 0 ltac:(cbn; tauto) ltac:(lia)) Hx).
  - intros esc Hesc Hx. unfold BLHeli4WayInterface.init_flash.
    exact (silent_run Serial serial_write serial_read _ _ _ _ _ self port' _
             (build_one_byte "device_init_flash" 55 esc ltac:(cbn; tauto) Hesc) Hx).
  - intros address length Haddr Hlength Hx. unfold BLHeli4WayInterface.read_memory.
    refine (silent_run Serial serial_write serial_read _ _ _ _ _ self port' _ _ Hx).
    apply (build_request_frame "device_read" 58 address [length]);
      [cbn; tauto|exact Haddr| |cbn; lia].
    constructor; [exact Hlength|constructor].
  - intros page Hpage Hx. unfold BLHeli4WayInterface.erase_page.
    exact (silent_run Serial serial_write serial_read _ _ _ _ _ self port' _
             (build_one_byte "device_page_erase" 57 page ltac:(cbn; tauto) Hpage) Hx).
  - intros esc Hesc Hx. unfold BLHeli4WayInterface.reset_esc.
    exact (silent_run Serial serial_write serial_read _ _ _ _ _ self port' _
             (build_one_byte "device_reset" 53 esc ltac:(cbn; tauto) Hesc) Hx).
Qed.

(** X7: an argument that does not fit in a byte is refused before anything
    is written: [init_flash], [erase_page], [reset_esc] and [read_memory]
    raise an Encoding error and leave the port and the log as they were,
    and so does [write_memory] for more than 255 bytes of data. *)
Theorem commands_that_do_not_fit_are_not_sent
    (Serial : Type)
    (serial_write : bytes -> Serial -> result unit * Serial)
    (serial_read : Z -> Serial -> result bytes * Serial)
    (z : Z) (self : BLHeli4WayInterface.self_t Serial) :
  z < 0 \/ 255 < z ->
  BLHeli4WayInterface.init_flash Serial serial_write serial_read z self
  = (Raise (BLHeliEncodingError FormatFieldError), self)
  /\ BLHeli4WayInterface.erase_page Serial serial_write serial_read z self
     = (Raise (BLHeliEncodingError FormatFieldError), self)
  /\ BLHeli4WayInterface.reset_esc Serial serial_write serial_read (Some z) self
     = (Raise (BLHeliEncodingError FormatFieldError), self)
  /\ (forall address,
        exists cause,
          BLHeli4WayInterface.read_memory Serial serial_write serial_read address z self
          = (Raise (BLHeliEncodingError cause), self))
  /\ (forall address data,
        (255 < List.length data)%nat ->
        exists cause,
          BLHeli4WayInterface.write_memory Serial serial_write serial_read
            address data self
          = (Raise (BLHeliEncodingError cause), self)).
Proof.
  intros Hz. repeat match goal with |- _ /\ _ => split end.
  - unfold BLHeli4WayInterface.init_flash. apply refused_run.
    apply (build_misfit "device_init_flash" 55); [cbn; tauto|exact Hz].
  - unfold BLHeli4WayInterface.erase_page. apply refused_run.
    apply (build_misfit "device_page_erase" 57); [cbn; tauto|exact Hz].
  - unfold BLHeli4WayInterface.reset_esc. apply refused_run.
    apply (build_misfit "device_reset" 53); [cbn; tauto|exact Hz].
  - intros address. destruct (build_misfit_read address z Hz) as [cause H].
    exists cause. unfold BLHeli4WayInterface.read_memory. now apply refused_run.
  - intros address data Hlen.
    destruct (build_long_payload (VStr "device_write") (VInt address) (VBytes data)
                (map (fun b => VInt (Z_of_byte b)) data) eq_refl)
      as [cause H]; [now rewrite length_map|].
    exists cause. unfold BLHeli4WayInterface.write_memory. now apply refused_run.
Qed.

Lemma commands_that_do_not_fit_are_not_sent_witness :
  (256 < 0 \/ 255 < 256)
  /\ BLHeli4WayInterface.init_flash (list bytes) script_write script_read 256
       (interface_on true 300 [])
     = (Raise (BLHeliEncodingError FormatFieldError), interface_on true 300 []).
Proof.
  assert (H : 256 < 0 \/ 255 < 256) by (right; lia).
  split; [exact H|].
  exact (proj1 (commands_that_do_not_fit_are_not_sent (list bytes) script_write
                  script_read 256 (interface_on true 300 []) H)).
Defined.

(** X8: [probe_esc], [read_config] and [write_config] refuse an instance
    number that is negative or not below the number of instances with an
    AssertionError, before anything is written or logged. *)
Theorem instance_out_of_range_is_refused
    (Serial : Type)
    (serial_write : bytes -> Serial -> result unit * Serial)
    (serial_read : Z -> Serial -> result bytes * Serial)
    (esc : Z) (params : dict) (self : BLHeli4WayInterface.self_t Serial) :
  esc < 0 \/ BLHeli4WayInterface.count self <= esc ->
  BlHeliSilabs.probe_esc Serial serial_write serial_read esc self
  = (Raise AssertionError, self)
  /\ BlHeliSilabs.read_config Serial serial_write serial_read esc self
     = (Raise AssertionError, self)
  /\ BlHeliSilabs.write_config Serial serial_write serial_read esc params self
     = (Raise AssertionError, self).
Proof.
  intros H. apply out_of_range in H.
  unfold BlHeliSilabs.probe_esc, BlHeliSilabs.read_config, BlHeliSilabs.write_config.
  rewrite !bind_eq. unfold BLHeli4WayInterface.get_count. cbv beta iota.
  rewrite !bind_eq, H. repeat split; reflexivity.
Qed.

Lemma instance_out_of_range_is_refused_witness :
  (4 < 0 \/ BLHeli4WayInterface.count (Simulation.session false rig3) <= 4)
  /\ Simulation.read_config 4 (Simulation.session false rig3)
     = (Raise AssertionError, Simulation.session false rig3).
Proof.
  assert (H : 4 < 0 \/ BLHeli4WayInterface.count (Simulation.session false rig3) <= 4)
    by (right; vm_compute; discriminate).
  split; [exact H|].
  exact (proj1 (proj2 (instance_out_of_range_is_refused Simulation.rig
                         Simulation.serial_write Simulation.serial_read 4 []
                         (Simulation.session false rig3) H))).
Defined.

(** X9: with no instance to visit (a count of zero or less),
    [read_config_all] raises UnboundLocalError, because the common config it
    returns is only ever set by the first instance, and [write_config_all]
    returns at once; neither writes or logs anything. *)
Theorem no_instance_to_visit
    (Serial : Type)
    (serial_write : bytes -> Serial -> result unit * Serial)
    (serial_read : Z -> Serial -> result bytes * Serial)
    (params : dict) (self : BLHeli4WayInterface.self_t Serial) :
  BLHeli4WayInterface.count self <= 0 ->
  BlHeliSilabs.read_config_all Serial serial_write serial_read self
  = (Raise UnboundLocalError, self)
  /\ BlHeliSilabs.write_config_all Serial serial_write serial_read params self
     = (Ok tt, self).
Proof.
  intros H.
  unfold BlHeliSilabs.read_config_all, BlHeliSilabs.write_config_all.
  rewrite !bind_eq. unfold BLHeli4WayInterface.get_count. cbv beta iota.
  assert (E : py_range (BLHeli4WayInterface.count self) = []).
  { unfold py_range. replace (Z.to_nat (BLHeli4WayInterface.count self)) with 0%nat by lia.
    reflexivity. }
  rewrite E. split; reflexivity.
Qed.

Lemma no_instance_to_visit_witness :
  BLHeli4WayInterface.count (Simulation.session true []) <= 0
  /\ Simulation.read_config_all (Simulation.session true [])
     = (Raise UnboundLocalError, Simulation.session true []).
Proof.
  assert (H : BLHeli4WayInterface.count (Simulation.session true []) <= 0)
    by (vm_compute; discriminate).
  split; [exact H|].
  exact (proj1 (no_instance_to_visit Simulation.rig Simulation.serial_write
                  Simulation.serial_read [] (Simulation.session true []) H)).
Defined.

(* ================================================================== *)
(** * The configuration workflows, end to end *)
(* ================================================================== *)

(** X10: [read_config] is three exchanges and a decode.  It identifies the
    instance (device_init_flash, any interface type is accepted), reads 112
    bytes at address 0x1A00 (device_read, waiting for 120 bytes), resets the
    instance (device_reset), and returns the device information as stripped
    text, the common configuration and the configuration of the instance,
    each field taken from the payload of the device_read response at its
    offset.  In verbose mode the six frames are logged, in order. *)
Theorem read_config_end_to_end
    (Serial : Type)
    (serial_write : bytes -> Serial -> result unit * Serial)
    (serial_read : Z -> Serial -> result bytes * Serial)
    (esc : Z) (self : BLHeli4WayInterface.self_t Serial) (r1 r2 r3 : reply)
    (kind : string) (port1 port2 port3 : Serial) :
  0 <= esc < BLHeli4WayInterface.count self -> esc <= 255 ->
  (List.length (reply_payload r1) <= 255)%nat -> interface_type r1 = Ok kind ->
  (112 <= List.length (reply_payload r2) <= 255)%nat ->
  texts_valid (reply_payload r2) = true ->
  (List.length (reply_payload r3) <= 255)%nat ->
  exchange serial_write serial_read (request_frame 55 0 [esc]) 64 (device_response r1)
    (BLHeli4WayInterface.serial_connection self) port1 ->
  exchange serial_write serial_read (request_frame 58 6656 [112]) 120 (device_response r2)
    port1 port2 ->
  exchange serial_write serial_read (request_frame 53 0 [esc]) 64 (device_response r3)
    port2 port3 ->
  BlHeliSilabs.read_config Serial serial_write serial_read esc self
  = (Ok (device_info_of (reply_payload r2), common_config_of (reply_payload r2),
         esc_config_of (reply_payload r2)),
     moved self port3
       (traffic_log (BLHeli4WayInterface.verbose self)
          [ (request_frame 55 0 [esc], device_response r1);
            (request_frame 58 6656 [112], device_response r2);
            (request_frame 53 0 [esc], device_response r3) ])).
Proof.
  intros Hesc Hbyte Hlen1 Hkind Hlen2 Hvalid Hlen3 Hx1 Hx2 Hx3.
  unfold BlHeliSilabs.read_config. rewrite bind_eq. unfold BLHeli4WayInterface.get_count at 1.
  cbv beta iota. rewrite in_range by exact Hesc. rewrite bind_eq.
  unfold BLHeli4WayInterface.assert at 1, BLHeli4WayInterface.ret at 1. cbv beta iota. rewrite bind_eq.
  rewrite (init_flash_run Serial serial_write serial_read esc r1 self _ port1
             (conj (proj1 Hesc) Hbyte) Hlen1 Hx1 eq_refl).
  rewrite Hkind. rewrite bind_eq.
  rewrite (read_eeprom_run Serial serial_write serial_read r2 _ _ port2 Hlen2 Hx2)
    by reflexivity.
  rewrite Hvalid, moved_moved. rewrite bind_eq.
  rewrite (reset_esc_run Serial serial_write serial_read esc r3 _ _ port3
             (conj (proj1 Hesc) Hbyte) Hlen3 Hx3) by reflexivity.
  rewrite moved_moved.
  rewrite bind_eq. unfold BLHeli4WayInterface.lift at 1. rewrite project_device_info.
  rewrite bind_eq. unfold BLHeli4WayInterface.lift at 1. rewrite project_common_config.
  rewrite bind_eq. unfold BLHeli4WayInterface.lift at 1. rewrite project_esc_config.
  unfold BLHeli4WayInterface.ret, traffic_log. cbn [flat_map fst snd moved BLHeli4WayInterface.verbose].
  now rewrite app_nil_r, <- !app_assoc.
Qed.

Lemma read_config_end_to_end_witness :
  (0 <= 1 < BLHeli4WayInterface.count (interface_on false 4 read_script)
   /\ 1 <= 255
   /\ (List.length (reply_payload reply_identification) <= 255)%nat
   /\ interface_type reply_identification = Ok "silabs"
   /\ (112 <= List.length (reply_payload (reply_memory sample_image)) <= 255)%nat
   /\ texts_valid (reply_payload (reply_memory sample_image)) = true
   /\ (List.length (reply_payload (reply_bare x35 x00)) <= 255)%nat
   /\ exchange script_write script_read (request_frame 55 0 [1]) 64
        (device_response reply_identification) read_script (skipn 1 read_script)
   /\ exchange script_write script_read (request_frame 58 6656 [112]) 120
        (device_response (reply_memory sample_image))
        (skipn 1 read_script) (skipn 2 read_script)
   /\ exchange script_write script_read (request_frame 53 0 [1]) 64
        (device_response (reply_bare x35 x00)) (skipn 2 read_script) [])
  /\ BlHeliSilabs.read_config (list bytes) script_write script_read 1
       (interface_on false 4 read_script)
     = (Ok (device_info_of sample_image, common_config_of sample_image,
            esc_config_of sample_image),
        interface_on false 4 []).
Proof.
  assert (H1 : 0 <= 1 < BLHeli4WayInterface.count (interface_on false 4 read_script))
    by (cbn; lia).
  assert (H2 : 1 <= 255) by lia.
  assert (H3 : (List.length (reply_payload reply_identification) <= 255)%nat)
    by (vm_compute; lia).
  assert (H4 : interface_type reply_identification = Ok "silabs") by reflexivity.
  assert (H5 : (112 <= List.length (reply_payload (reply_memory sample_image)) <= 255)%nat)
    by (vm_compute; lia).
  assert (H6 : texts_valid (reply_payload (reply_memory sample_image)) = true)
    by (vm_compute; reflexivity).
  assert (H7 : (List.length (reply_payload (reply_bare x35 x00)) <= 255)%nat)
    by (vm_compute; lia).
  assert (H8 : exchange script_write script_read (request_frame 55 0 [1]) 64
                 (device_response reply_identification) read_script
                 (skipn 1 read_script)).
  { eexists. split; vm_compute; reflexivity. }
  assert (H9 : exchange script_write script_read (request_frame 58 6656 [112]) 120
                 (device_response (reply_memory sample_image))
                 (skipn 1 read_script) (skipn 2 read_script)).
  { eexists. split; vm_compute; reflexivity. }
  assert (H10 : exchange script_write script_read (request_frame 53 0 [1]) 64
                  (device_response (reply_bare x35 x00)) (skipn 2 read_script) []).
  { eexists. split; vm_compute; reflexivity. }
  split.
  { exact (conj H1 (conj H2 (conj H3 (conj H4 (conj H5 (conj H6 (conj H7
             (conj H8 (conj H9 H10))))))))). }
  exact (read_config_end_to_end (list bytes) script_write script_read 1
           (interface_on false 4 read_script) _ _ _ "silabs" _ _ []
           H1 H2 H3 H4 H5 H6 H7 H8 H9 H10).
Defined.

(** X11: setting one configuration field of a decoded image changes one
    byte of its encoding.  For every image that decodes and every field
    name [write_config] recognizes, the layout encodes the decoded image
    with that field set to [v] as the encoding of the unchanged image with
    the field's own encoding of [v] at the field's offset; and it raises
    what the field's construct raises when that refuses [v]. *)
Theorem EEPROM_build_one_field
    (data : bytes) (key : string) (v : value) (sc : construct.Construct)
    (offset : nat) :
  (112 <= List.length data)%nat -> texts_valid data = true ->
  recognized key = true ->
  layout_field key = Some sc -> offset_of key = Some offset ->
  construct.build BlHeliSilabs.EEPROM_LAYOUT
    (VContainer (dict_set (image_fields data) key v))
  = rbind (construct._build sc v) (fun enc =>
      Ok (firstn offset (reencoded data) ++ enc
          ++ skipn (S offset) (reencoded data))).
Proof.
  intros Hlen Hvalid Hkey Hsc Hoff.
  destruct (recognized_field key Hkey)
    as (sc' & offset' & Hsc' & Hoff' & Hsize & Hone & Hafter).
  rewrite Hsc in Hsc'. injection Hsc' as <-.
  rewrite Hoff in Hoff'. injection Hoff' as <-.
  pose proof (EEPROM_build_parsed data Hlen Hvalid) as Hbuild.
  unfold construct.build, BlHeliSilabs.EEPROM_LAYOUT in Hbuild |- *.
  cbn [construct._build construct.Struct] in Hbuild |- *.
  destruct (fields_split key BlHeliSilabs.EEPROM_FIELDS sc Hsc) as [Hsplit Hbefore].
  pose proof EEPROM_FIELDS_build_sized as Hsized.
  set (before := fields_before key BlHeliSilabs.EEPROM_FIELDS) in *.
  set (after := fields_after key BlHeliSilabs.EEPROM_FIELDS) in *.
  rewrite Hsplit in Hbuild, Hsized |- *. clear Hsplit.
  apply Forall_app in Hsized as [Hsized_before Hsized_rest].
  inversion Hsized_rest as [|? ? Hsized_sc _]; subst. cbn [snd] in Hsized_sc.
  rewrite Struct_build_app in Hbuild |- *.
  rewrite Struct_build_other by exact Hbefore.
  destruct (construct.Struct_build before (image_fields data)) as [pre|e] eqn:Epre;
    [|discriminate Hbuild].
  cbn [rbind] in Hbuild |- *.
  cbn [construct.Struct_build construct.Struct_subobj] in Hbuild |- *.
  rewrite dict_get_set_same. rewrite Struct_build_other by exact Hafter.
  cbn [rbind].
  destruct (match dict_get (image_fields data) key with
            | Some v0 => Ok v0
            | None => if construct.flagbuildnone sc then Ok VNone
                      else Raise (KeyError key)
            end) as [v0|e]; [|discriminate Hbuild].
  cbn [rbind] in Hbuild.
  destruct (construct._build sc v0) as [enc0|e] eqn:Eenc0; [|discriminate Hbuild].
  cbn [rbind] in Hbuild.
  destruct (construct.Struct_build after (image_fields data)) as [post|e];
    [|discriminate Hbuild].
  cbn [rbind] in Hbuild. injection Hbuild as Hbuild.
  pose proof (Struct_build_sized before _ pre offset Hsized_before Epre Hsize) as Hpre.
  pose proof (Hsized_sc _ _ _ Eenc0 Hone) as Henc0.
  destruct (construct._build sc v) as [enc|e]; [|reflexivity].
  cbn [rbind]. f_equal. rewrite <- Hbuild.
  rewrite firstn_app, firstn_all2 by lia.
  replace (offset - List.length pre)%nat with 0%nat by lia.
  cbn [firstn]. rewrite app_nil_r.
  rewrite skipn_app, skipn_all2 by lia.
  replace (S offset - List.length pre)%nat with 1%nat by lia.
  destruct enc0 as [|b [|? ?]]; try discriminate Henc0.
  cbn [app skipn]. reflexivity.
Qed.

Lemma EEPROM_build_one_field_witness :
  ((112 <= List.length sample_image)%nat /\ texts_valid sample_image = true
   /\ recognized "beep_strength" = true
   /\ layout_field "beep_strength" = Some construct.Byte
   /\ offset_of "beep_strength" = Some 27%nat)
  /\ construct.build BlHeliSilabs.EEPROM_LAYOUT
       (VContainer (dict_set (image_fields sample_image) "beep_strength" (VInt 100)))
     = Ok (firstn 27 (reencoded sample_image) ++ [x64]
           ++ skipn 28 (reencoded sample_image)).
Proof.
  assert (H1 : (112 <= List.length sample_image)%nat) by (vm_compute; lia).
  assert (H2 : texts_valid sample_image = true) by (vm_compute; reflexivity).
  assert (H3 : recognized "beep_strength" = true) by reflexivity.
  assert (H4 : layout_field "beep_strength" = Some construct.Byte) by reflexivity.
  assert (H5 : offset_of "beep_strength" = Some 27%nat) by reflexivity.
  split; [exact (conj H1 (conj H2 (conj H3 (conj H4 H5))))|].
  exact (EEPROM_build_one_field sample_image "beep_strength" (VInt 100) construct.Byte
           27 H1 H2 H3 H4 H5).
Defined.

(** X12: [write_config] is five exchanges around the patch loop.  It
    identifies the instance, reads 112 bytes at 0x1A00, logs an "Invalid
    parameter" line for each name it does not recognize, erases page 13,
    writes the encoding of the patched image at 0x1A00 and resets the
    instance.  It returns normally whatever ack codes the erase and the
    write are answered with.  In verbose mode the frames are logged around
    the warnings, in order. *)
Theorem write_config_end_to_end
    (Serial : Type)
    (serial_write : bytes -> Serial -> result unit * Serial)
    (serial_read : Z -> Serial -> result bytes * Serial)
    (esc : Z) (params : dict) (self : BLHeli4WayInterface.self_t Serial)
    (r1 r2 r3 r4 r5 : reply) (kind : string) (image : bytes)
    (port1 port2 port3 port4 port5 : Serial) :
  0 <= esc < BLHeli4WayInterface.count self -> esc <= 255 ->
  (List.length (reply_payload r1) <= 255)%nat -> interface_type r1 = Ok kind ->
  (112 <= List.length (reply_payload r2) <= 255)%nat ->
  texts_valid (reply_payload r2) = true ->
  (List.length (reply_payload r3) <= 255)%nat ->
  (List.length (reply_payload r4) <= 255)%nat ->
  (List.length (reply_payload r5) <= 255)%nat ->
  construct.build BlHeliSilabs.EEPROM_LAYOUT
    (VContainer (patched (image_fields (reply_payload r2)) params)) = Ok image ->
  exchange serial_write serial_read (request_frame 55 0 [esc]) 64 (device_response r1)
    (BLHeli4WayInterface.serial_connection self) port1 ->
  exchange serial_write serial_read (request_frame 58 6656 [112]) 120 (device_response r2)
    port1 port2 ->
  exchange serial_write serial_read (request_frame 57 0 [13]) 64 (device_response r3)
    port2 port3 ->
  exchange serial_write serial_read (request_frame 59 6656 (map Z_of_byte image)) 64
    (device_response r4) port3 port4 ->
  exchange serial_write serial_read (request_frame 53 0 [esc]) 64 (device_response r5)
    port4 port5 ->
  BlHeliSilabs.write_config Serial serial_write serial_read esc params self
  = (Ok tt,
     moved self port5
       (traffic_log (BLHeli4WayInterface.verbose self)
          [ (request_frame 55 0 [esc], device_response r1);
            (request_frame 58 6656 [112], device_response r2) ]
        ++ map invalid_parameter (unknown_names params)
        ++ traffic_log (BLHeli4WayInterface.verbose self)
             [ (request_frame 57 0 [13], device_response r3);
               (request_frame 59 6656 (map Z_of_byte image), device_response r4);
               (request_frame 53 0 [esc], device_response r5) ])).
Proof.
  intros Hesc Hbyte Hlen1 Hkind Hlen2 Hvalid Hlen3 Hlen4 Hlen5 Hbuild Hx1 Hx2 Hx3 Hx4 Hx5.
  rewrite (write_config_run Serial serial_write serial_read esc params self r1 r2 kind
             port1 port2 Hesc Hbyte Hlen1 Hkind Hlen2 Hvalid Hx1 Hx2).
  destruct (EEPROM_build_patched (reply_payload r2) params image (proj1 Hlen2) Hvalid Hbuild)
    as [Himage _].
  assert (Himage' : (List.length image <= 255)%nat) by (rewrite Himage; lia).
  rewrite (write_back_run Serial serial_write serial_read esc _ _ r3 r4 r5 image
             port2 port3 port4 port5 (conj (proj1 Hesc) Hbyte) Hlen3 Hlen4 Hlen5 Hbuild
             Himage' Hx3 Hx4 Hx5) by reflexivity.
  rewrite moved_moved. cbn [moved BLHeli4WayInterface.verbose]. now rewrite <- app_assoc.
Qed.

Lemma write_config_end_to_end_witness :
  exists image,
    (0 <= 0 < BLHeli4WayInterface.count (interface_on false 1 (write_script x0f x04))
     /\ 0 <= 255
     /\ (List.length (reply_payload reply_identification) <= 255)%nat
     /\ interface_type reply_identification = Ok "silabs"
     /\ (112 <= List.length (reply_payload (reply_memory sample_image)) <= 255)%nat
     /\ texts_valid (reply_payload (reply_memory sample_image)) = true
     /\ (List.length (reply_payload (reply_bare x39 x0f)) <= 255)%nat
     /\ (List.length (reply_payload (reply_bare x3b x04)) <= 255)%nat
     /\ (List.length (reply_payload (reply_bare x35 x00)) <= 255)%nat
     /\ construct.build BlHeliSilabs.EEPROM_LAYOUT
          (VContainer (patched (image_fields (reply_payload (reply_memory sample_image)))
                         [("beep_strength", VInt 100); ("unknown_field", VInt 1)]))
        = Ok image
     /\ exchange script_write script_read (request_frame 55 0 [0]) 64
          (device_response reply_identification)
          (write_script x0f x04) (skipn 1 (write_script x0f x04))
     /\ exchange script_write script_read (request_frame 58 6656 [112]) 120
          (device_response (reply_memory sample_image))
          (skipn 1 (write_script x0f x04)) (skipn 2 (write_script x0f x04))
     /\ exchange script_write script_read (request_frame 57 0 [13]) 64
          (device_response (reply_bare x39 x0f))
          (skipn 2 (write_script x0f x04)) (skipn 3 (write_script x0f x04))
     /\ exchange script_write script_read (request_frame 59 6656 (map Z_of_byte image)) 64
          (device_response (reply_bare x3b x04))
          (skipn 3 (write_script x0f x04)) (skipn 4 (write_script x0f x04))
     /\ exchange script_write script_read (request_frame 53 0 [0]) 64
          (device_response (reply_bare x35 x00)) (skipn 4 (write_script x0f x04)) [])
    /\ image = firstn 27 (reencoded sample_image) ++ [x64]
               ++ skipn 28 (reencoded sample_image)
    /\ BlHeliSilabs.write_config (list bytes) script_write script_read 0
         [("beep_strength", VInt 100); ("unknown_field", VInt 1)]
         (interface_on false 1 (write_script x0f x04))
       = (Ok tt,
          moved (interface_on false 1 (write_script x0f x04)) []
            [invalid_parameter "unknown_field"]).
Proof.
  exists (firstn 27 (reencoded sample_image) ++ [x64] ++ skipn 28 (reencoded sample_image)).
  assert (H1 : 0 <= 0 < BLHeli4WayInterface.count
                          (interface_on false 1 (write_script x0f x04))) by (cbn; lia).
  assert (H2 : 0 <= 255) by lia.
  assert (H3 : (List.length (reply_payload reply_identification) <= 255)%nat)
    by (vm_compute; lia).
  assert (H4 : interface_type reply_identification = Ok "silabs") by reflexivity.
  assert (H5 : (112 <= List.length (reply_payload (reply_memory sample_image)) <= 255)%nat)
    by (vm_compute; lia).
  assert (H6 : texts_valid (reply_payload (reply_memory sample_image)) = true)
    by (vm_compute; reflexivity).
  assert (H7 : (List.length (reply_payload (reply_bare x39 x0f)) <= 255)%nat)
    by (vm_compute; lia).
  assert (H8 : (List.length (reply_payload (reply_bare x3b x04)) <= 255)%nat)
    by (vm_compute; lia).
  assert (H9 : (List.length (reply_payload (reply_bare x35 x00)) <= 255)%nat)
    by (vm_compute; lia).
  assert (H10 : construct.build BlHeliSilabs.EEPROM_LAYOUT
                  (VContainer (patched (image_fields
                                          (reply_payload (reply_memory sample_image)))
                                 [("beep_strength", VInt 100); ("unknown_field", VInt 1)]))
                = Ok (firstn 27 (reencoded sample_image) ++ [x64]
                      ++ skipn 28 (reencoded sample_image)))
    by (vm_compute; reflexivity).
  assert (H11 : exchange script_write script_read (request_frame 55 0 [0]) 64
                  (device_response reply_identification)
                  (write_script x0f x04) (skipn 1 (write_script x0f x04))).
  { eexists. split; vm_compute; reflexivity. }
  assert (H12 : exchange script_write script_read (request_frame 58 6656 [112]) 120
                  (device_response (reply_memory sample_image))
                  (skipn 1 (write_script x0f x04)) (skipn 2 (write_script x0f x04))).
  { eexists. split; vm_compute; reflexivity. }
  assert (H13 : exchange script_write script_read (request_frame 57 0 [13]) 64
                  (device_response (reply_bare x39 x0f))
                  (skipn 2 (write_script x0f x04)) (skipn 3 (write_script x0f x04))).
  { eexists. split; vm_compute; reflexivity. }
  assert (H14 : exchange script_write script_read
                  (request_frame 59 6656
                     (map Z_of_byte (firstn 27 (reencoded sample_image) ++ [x64]
                                     ++ skipn 28 (reencoded sample_image)))) 64
                  (device_response (reply_bare x3b x04))
                  (skipn 3 (write_script x0f x04)) (skipn 4 (write_script x0f x04))).
  { eexists. split; vm_compute; reflexivity. }
  assert (H15 : exchange script_write script_read (request_frame 53 0 [0]) 64
                  (device_response (reply_bare x35 x00))
                  (skipn 4 (write_script x0f x04)) []).
  { eexists. split; vm_compute; reflexivity. }
  split.
  { exact (conj H1 (conj H2 (conj H3 (conj H4 (conj H5 (conj H6 (conj H7 (conj H8
             (conj H9 (conj H10 (conj H11 (conj H12 (conj H13
             (conj H14 H15)))))))))))))). }
  split; [reflexivity|].
  exact (write_config_end_to_end (list bytes) script_write script_read 0 _
           (interface_on false 1 (write_script x0f x04)) _ _ _ _ _ "silabs" _ _ _ _ _ []
           H1 H2 H3 H4 H5 H6 H7 H8 H9 H10 H11 H12 H13 H14 H15).
Defined.

(** X13: [write_config] erases before it encodes.  When the patched image
    cannot be encoded (a supplied value does not suit its field), the
    error is raised after page 13 has been erased and the erase answered:
    nothing is written back, and the instance is not reset. *)
Theorem write_config_erases_before_it_encodes
    (Serial : Type)
    (serial_write : bytes -> Serial -> result unit * Serial)
    (serial_read : Z -> Serial -> result bytes * Serial)
    (esc : Z) (params : dict) (self : BLHeli4WayInterface.self_t Serial)
    (r1 r2 r3 : reply) (kind : string) (e : exn) (port1 port2 port3 : Serial) :
  0 <= esc < BLHeli4WayInterface.count self -> esc <= 255 ->
  (List.length (reply_payload r1) <= 255)%nat -> interface_type r1 = Ok kind ->
  (112 <= List.length (reply_payload r2) <= 255)%nat ->
  texts_valid (reply_payload r2) = true ->
  (List.length (reply_payload r3) <= 255)%nat ->
  construct.build BlHeliSilabs.EEPROM_LAYOUT
    (VContainer (patched (image_fields (reply_payload r2)) params)) = Raise e ->
  exchange serial_write serial_read (request_frame 55 0 [esc]) 64 (device_response r1)
    (BLHeli4WayInterface.serial_connection self) port1 ->
  exchange serial_write serial_read (request_frame 58 6656 [112]) 120 (device_response r2)
    port1 port2 ->
  exchange serial_write serial_read (request_frame 57 0 [13]) 64 (device_response r3)
    port2 port3 ->
  BlHeliSilabs.write_config Serial serial_write serial_read esc params self
  = (Raise e,
     moved self port3
       (traffic_log (BLHeli4WayInterface.verbose self)
          [ (request_frame 55 0 [esc], device_response r1);
            (request_frame 58 6656 [112], device_response r2) ]
        ++ map invalid_parameter (unknown_names params)
        ++ traffic_log (BLHeli4WayInterface.verbose self)
             [ (request_frame 57 0 [13], device_response r3) ])).
Proof.
  intros Hesc Hbyte Hlen1 Hkind Hlen2 Hvalid Hlen3 Hbuild Hx1 Hx2 Hx3.
  rewrite (write_config_run Serial serial_write serial_read esc params self r1 r2 kind
             port1 port2 Hesc Hbyte Hlen1 Hkind Hlen2 Hvalid Hx1 Hx2).
  rewrite (write_back_stops Serial serial_write serial_read esc _ _ r3 e port2 port3
             Hlen3 Hbuild Hx3) by reflexivity.
  rewrite moved_moved. cbn [moved BLHeli4WayInterface.verbose]. now rewrite <- app_assoc.
Qed.

Lemma write_config_erases_before_it_encodes_witness :
  (0 <= 0 < BLHeli4WayInterface.count (interface_on false 1 (write_script x00 x00))
   /\ 0 <= 255
   /\ (List.length (reply_payload reply_identification) <= 255)%nat
   /\ interface_type reply_identification = Ok "silabs"
   /\ (112 <= List.length (reply_payload (reply_memory sample_image)) <= 255)%nat
   /\ texts_valid (reply_payload (reply_memory sample_image)) = true
   /\ (List.length (reply_payload (reply_bare x39 x00)) <= 255)%nat
   /\ construct.build BlHeliSilabs.EEPROM_LAYOUT
        (VContainer (patched (image_fields (reply_payload (reply_memory sample_image)))
                       [("beep_strength", VInt 256)]))
      = Raise FormatFieldError
   /\ exchange script_write script_read (request_frame 55 0 [0]) 64
        (device_response reply_identification)
        (write_script x00 x00) (skipn 1 (write_script x00 x00))
   /\ exchange script_write script_read (request_frame 58 6656 [112]) 120
        (device_response (reply_memory sample_image))
        (skipn 1 (write_script x00 x00)) (skipn 2 (write_script x00 x00))
   /\ exchange script_write script_read (request_frame 57 0 [13]) 64
        (device_response (reply_bare x39 x00))
        (skipn 2 (write_script x00 x00)) (skipn 3 (write_script x00 x00)))
  /\ BlHeliSilabs.write_config (list bytes) script_write script_read 0
       [("beep_strength", VInt 256)] (interface_on false 1 (write_script x00 x00))
     = (Raise FormatFieldError,
        interface_on false 1 (skipn 3 (write_script x00 x00))).
Proof.
  assert (H1 : 0 <= 0 < BLHeli4WayInterface.count
                          (interface_on false 1 (write_script x00 x00))) by (cbn; lia).
  assert (H2 : 0 <= 255) by lia.
  assert (H3 : (List.length (reply_payload reply_identification) <= 255)%nat)
    by (vm_compute; lia).
  assert (H4 : interface_type reply_identification = Ok "silabs") by reflexivity.
  assert (H5 : (112 <= List.length (reply_payload (reply_memory sample_image)) <= 255)%nat)
    by (vm_compute; lia).
  assert (H6 : texts_valid (reply_payload (reply_memory sample_image)) = true)
    by (vm_compute; reflexivity).
  assert (H7 : (List.length (reply_payload (reply_bare x39 x00)) <= 255)%nat)
    by (vm_compute; lia).
  assert (H8 : construct.build BlHeliSilabs.EEPROM_LAYOUT
                 (VContainer (patched (image_fields
                                         (reply_payload (reply_memory sample_image)))
                                [("beep_strength", VInt 256)]))
               = Raise FormatFieldError) by (vm_compute; reflexivity).
  assert (H9 : exchange script_write script_read (request_frame 55 0 [0]) 64
                 (device_response reply_identification)
                 (write_script x00 x00) (skipn 1 (write_script x00 x00))).
  { eexists. split; vm_compute; reflexivity. }
  assert (H10 : exchange script_write script_read (request_frame 58 6656 [112]) 120
                  (device_response (reply_memory sample_image))
                  (skipn 1 (write_script x00 x00)) (skipn 2 (write_script x00 x00))).
  { eexists. split; vm_compute; reflexivity. }
  assert (H11 : exchange script_write script_read (request_frame 57 0 [13]) 64
                  (device_response (reply_bare x39 x00))
                  (skipn 2 (write_script x00 x00)) (skipn 3 (write_script x00 x00))).
  { eexists. split; vm_compute; reflexivity. }
  split.
  { exact (conj H1 (conj H2 (conj H3 (conj H4 (conj H5 (conj H6 (conj H7 (conj H8
             (conj H9 (conj H10 H11)))))))))). }
  exact (write_config_erases_before_it_encodes (list bytes) script_write script_read 0 _
           (interface_on false 1 (write_script x00 x00)) _ _ _ "silabs" _ _ _ _
           H1 H2 H3 H4 H5 H6 H7 H8 H9 H10 H11).
Defined.

(* ================================================================== *)
(** * The command line *)
(* ================================================================== *)

(** X14: [parse_key_value_pair] cuts its argument at the first "=": a key
    without "=" followed by "=" and any value (which may hold "=" itself)
    gives back that key and that value; whatever it returns, the argument is
    the key, "=" and the value, and the key holds no "="; and it raises
    ValueError exactly on the arguments that hold no "=". *)
Theorem parse_key_value_pair_splits_at_first_equals :
  (forall key value : string,
     mentions "=" key = false ->
     blheli.parse_key_value_pair (key ++ "=" ++ value)%string = Ok (key, value))
  /\ (forall pair key value : string,
        blheli.parse_key_value_pair pair = Ok (key, value) ->
        pair = (key ++ "=" ++ value)%string /\ mentions "=" key = false)
  /\ (forall pair : string,
        mentions "=" pair = false
        <-> blheli.parse_key_value_pair pair = Raise ValueError).
Proof.
  split; [|split].
  - intros key value H. unfold blheli.parse_key_value_pair, blheli.split_eq_1.
    change ("=" ++ value)%string with (String "=" value).
    now rewrite partition_eq_app.
  - intros pair key value H. apply parse_key_value_pair_Ok in H.
    change ("=" ++ value)%string with (String "=" value).
    now apply partition_eq_Some.
  - intros pair. rewrite partition_eq_None.
    unfold blheli.parse_key_value_pair, blheli.split_eq_1.
    destruct (blheli.partition_eq pair) as [h [t|]]; cbn [snd];
      split; intros H; try discriminate H; reflexivity.
Qed.

(** X15: the dictionary the script makes of the parsed [--params] options
    has every key once, and gives each key the value the command line gave
    it last, as text. *)
Theorem flatten_params_keeps_last_value
    (args_params : list (list (string * string))) (key : string) :
  dict_get (blheli.flatten_params args_params) key
  = option_map VStr (last_value key (List.concat args_params))
  /\ NoDup (map fst (blheli.flatten_params args_params)).
Proof.
  split; [apply flatten_params_get|apply flatten_params_NoDup].
Qed.

(** X16: the command line cannot set a numeric field.  The script hands
    every value to [write_config] as the text that followed "=", and the
    fields the layout stores as a plain byte (the throttle limits, the beep
    and beacon strengths) cannot be encoded from text: whenever set_config
    for one instance names such a field, the run reads the image, erases
    page 13 and then raises, with nothing written back. *)
Theorem set_config_cannot_set_a_number
    (Serial : Type)
    (serial_write : bytes -> Serial -> result unit * Serial)
    (serial_read : Z -> Serial -> result bytes * Serial)
    (esc : Z) (args_params : list (list (string * string))) (key : string)
    (self : BLHeli4WayInterface.self_t Serial)
    (r1 r2 r3 : reply) (kind : string) (port1 port2 port3 : Serial) :
  0 < esc < BLHeli4WayInterface.count self -> esc <= 255 ->
  In key numeric_fields -> In key (map fst (List.concat args_params)) ->
  ~ In "self" (map fst (List.concat args_params)) ->
  ~ In "esc" (map fst (List.concat args_params)) ->
  (List.length (reply_payload r1) <= 255)%nat -> interface_type r1 = Ok kind ->
  (112 <= List.length (reply_payload r2) <= 255)%nat ->
  texts_valid (reply_payload r2) = true ->
  (List.length (reply_payload r3) <= 255)%nat ->
  exchange serial_write serial_read (request_frame 55 0 [esc]) 64 (device_response r1)
    (BLHeli4WayInterface.serial_connection self) port1 ->
  exchange serial_write serial_read (request_frame 58 6656 [112]) 120 (device_response r2)
    port1 port2 ->
  exchange serial_write serial_read (request_frame 57 0 [13]) 64 (device_response r3)
    port2 port3 ->
  exists e,
    blheli.set_config Serial serial_write serial_read esc args_params self
    = (Raise e,
       moved self port3
         (traffic_log (BLHeli4WayInterface.verbose self)
            [ (request_frame 55 0 [esc], device_response r1);
              (request_frame 58 6656 [112], device_response r2) ]
          ++ map invalid_parameter (unknown_names (blheli.flatten_params args_params))
          ++ traffic_log (BLHeli4WayInterface.verbose self)
               [ (request_frame 57 0 [13], device_response r3) ])).
Proof.
  intros Hesc Hbyte Hkey Hin Hself Hesc_key Hlen1 Hkind Hlen2 Hvalid Hlen3.
  assert (Hesc' : 0 <= esc < BLHeli4WayInterface.count self) by lia.
  assert (Hnot : (esc =? 0) = false) by (apply Z.eqb_neq; lia).
  intros Hx1 Hx2 Hx3.
  destruct (text_for_a_number (image_fields (reply_payload r2)) args_params key Hkey Hin)
    as [e He].
  exists e. unfold blheli.set_config, BlHeliSilabs.call_write_config.
  rewrite Hnot.
  rewrite (not_has _ "self"), (not_has _ "esc")
    by (intros H; apply flatten_params_has in H; contradiction).
  cbn [orb].
  rewrite (write_config_run Serial serial_write serial_read esc _ self r1 r2 kind
             port1 port2 Hesc' Hbyte Hlen1 Hkind Hlen2 Hvalid Hx1 Hx2).
  rewrite (write_back_stops Serial serial_write serial_read esc _ _ r3 e port2 port3
             Hlen3 He Hx3) by reflexivity.
  rewrite moved_moved. cbn [moved BLHeli4WayInterface.verbose]. now rewrite <- app_assoc.
Qed.

Lemma set_config_cannot_set_a_number_witness :
  (0 < 1 < BLHeli4WayInterface.count (interface_on false 2 (write_script x00 x00))
   /\ 1 <= 255
   /\ In "beep_strength" numeric_fields
   /\ In "beep_strength" (map fst (List.concat [[("beep_strength", "100")]]))
   /\ ~ In "self" (map fst (List.concat [[("beep_strength", "100")]]))
   /\ ~ In "esc" (map fst (List.concat [[("beep_strength", "100")]]))
   /\ (List.length (reply_payload reply_identification) <= 255)%nat
   /\ interface_type reply_identification = Ok "silabs"
   /\ (112 <= List.length (reply_payload (reply_memory sample_image)) <= 255)%nat
   /\ texts_valid (reply_payload (reply_memory sample_image)) = true
   /\ (List.length (reply_payload (reply_bare x39 x00)) <= 255)%nat
   /\ exchange script_write script_read (request_frame 55 0 [1]) 64
        (device_response reply_identification)
        (write_script x00 x00) (skipn 1 (write_script x00 x00))
   /\ exchange script_write script_read (request_frame 58 6656 [112]) 120
        (device_response (reply_memory sample_image))
        (skipn 1 (write_script x00 x00)) (skipn 2 (write_script x00 x00))
   /\ exchange script_write script_read (request_frame 57 0 [13]) 64
        (device_response (reply_bare x39 x00))
        (skipn 2 (write_script x00 x00)) (skipn 3 (write_script x00 x00)))
  /\ exists e,
       blheli.set_config (list bytes) script_write script_read 1
         [[("beep_strength", "100")]] (interface_on false 2 (write_script x00 x00))
       = (Raise e, interface_on false 2 (skipn 3 (write_script x00 x00))).
Proof.
  assert (H1 : 0 < 1 < BLHeli4WayInterface.count
                         (interface_on false 2 (write_script x00 x00))) by (cbn; lia).
  assert (H2 : 1 <= 255) by lia.
  assert (H3 : In "beep_strength" numeric_fields) by (cbn; tauto).
  assert (H4 : In "beep_strength" (map fst (List.concat [[("beep_strength", "100")]])))
    by (cbn; tauto).
  assert (H5 : ~ In "self" (map fst (List.concat [[("beep_strength", "100")]])))
    by (cbn; intros [H|[]]; discriminate H).
  assert (H6 : ~ In "esc" (map fst (List.concat [[("beep_strength", "100")]])))
    by (cbn; intros [H|[]]; discriminate H).
  assert (H7 : (List.length (reply_payload reply_identification) <= 255)%nat)
    by (vm_compute; lia).
  assert (H8 : interface_type reply_identification = Ok "silabs") by reflexivity.
  assert (H9 : (112 <= List.length (reply_payload (reply_memory sample_image)) <= 255)%nat)
    by (vm_compute; lia).
  assert (H10 : texts_valid (reply_payload (reply_memory sample_image)) = true)
    by (vm_compute; reflexivity).
  assert (H11 : (List.length (reply_payload (reply_bare x39 x00)) <= 255)%nat)
    by (vm_compute; lia).
  assert (H12 : exchange script_write script_read (request_frame 55 0 [1]) 64
                  (device_response reply_identification)
                  (write_script x00 x00) (skipn 1 (write_script x00 x00))).
  { eexists. split; vm_compute; reflexivity. }
  assert (H13 : exchange script_write script_read (request_frame 58 6656 [112]) 120
                  (device_response (reply_memory sample_image))
                  (skipn 1 (write_script x00 x00)) (skipn 2 (write_script x00 x00))).
  { eexists. split; vm_compute; reflexivity. }
  assert (H14 : exchange script_write script_read (request_frame 57 0 [13]) 64
                  (device_response (reply_bare x39 x00))
                  (skipn 2 (write_script x00 x00)) (skipn 3 (write_script x00 x00))).
  { eexists. split; vm_compute; reflexivity. }
  split.
  { exact (conj H1 (conj H2 (conj H3 (conj H4 (conj H5 (conj H6 (conj H7 (conj H8
             (conj H9 (conj H10 (conj H11 (conj H12 (conj H13 H14))))))))))))). }
  exact (set_config_cannot_set_a_number (list bytes) script_write script_read 1 _
           "beep_strength" (interface_on false 2 (write_script x00 x00)) _ _ _
           "silabs" _ _ _ H1 H2 H3 H4 H5 H6 H7 H8 H9 H10 H11 H12 H13 H14).
Defined.

(** X17: a parameter named like an argument of the methods is a TypeError.
    With "self" among the keys the call the script makes fails at once;
    with "esc" among them, [write_config] for one instance fails at once,
    and [write_config_all] fails at the first instance, after its "ESC #1"
    line.  In every case nothing is written to the device. *)
Theorem set_config_refuses_argument_names
    (Serial : Type)
    (serial_write : bytes -> Serial -> result unit * Serial)
    (serial_read : Z -> Serial -> result bytes * Serial)
    (esc : Z) (args_params : list (list (string * string)))
    (self : BLHeli4WayInterface.self_t Serial) :
  (In "self" (map fst (List.concat args_params)) ->
   blheli.set_config Serial serial_write serial_read esc args_params self
   = (Raise TypeError, self))
  /\ (~ In "self" (map fst (List.concat args_params)) ->
      In "esc" (map fst (List.concat args_params)) ->
      (esc <> 0 ->
       blheli.set_config Serial serial_write serial_read esc args_params self
       = (Raise TypeError, self))
      /\ (esc = 0 -> 0 < BLHeli4WayInterface.count self ->
          blheli.set_config Serial serial_write serial_read esc args_params self
          = (Raise TypeError, logged self [[VStr "ESC #1"]]))).
Proof.
  unfold blheli.set_config, BlHeliSilabs.call_write_config. split.
  - intros H. apply flatten_params_has in H. rewrite H.
    now destruct (esc =? 0).
  - intros Hself Hesc. apply flatten_params_has in Hesc.
    rewrite (not_has _ "self")
      by (intros H; apply flatten_params_has in H; contradiction).
    rewrite Hesc. cbn [orb]. split.
    + intros Hne. apply Z.eqb_neq in Hne. now rewrite Hne.
    + intros -> Hcount. cbn [Z.eqb].
      unfold BlHeliSilabs.write_config_all. rewrite bind_eq.
      unfold BLHeli4WayInterface.get_count. cbv beta iota.
      rewrite py_range_later by lia.
      cbn [BlHeliSilabs.write_config_all_loop]. rewrite !bind_eq.
      unfold BLHeli4WayInterface.log at 1. cbv beta iota.
      unfold BlHeliSilabs.call_write_config.
      rewrite (not_has _ "self")
        by (intros H; apply flatten_params_has in H; contradiction).
      rewrite Hesc. reflexivity.
Qed.
